(** * Exam sessions, grading and time accounting of the aviation exam API

    A shallow embedding of the session core of the Express/Mongoose
    backend: the answer-submission handlers, the exam-session routes
    (start, resume, remaining time, bookmark, submit) and the
    WebSocket connect/close handlers of the server.

    The repository holds two generations of the two route files:
      - [SubmittedAnswersFirst]  src/routes/submittedAnswers.js, lines 1-224
      - [SubmittedAnswers]       src/unnamed/part_001, lines 18-391
      - [ExamSessionsFirst]      src/routes/examSessions.js
      - [ExamSessions]           src/routes/submittedAnswers.js, lines 225-682
      - [Server]                 src/unnamed/part_007
    Each handler is a function from the request and the database to a
    reply and the database it leaves behind.

    Modelling conventions.
      - A Mongo collection addressed by [_id] is a [gmap] from the
        identifier (the 24-digit hexadecimal string) to the document;
        the collection of submitted answers is a list in insertion
        order, because [find] and [findOne] scan it.
      - A JavaScript number that carries marks, a grade, a tolerance
        or an answer is an IEEE 754 binary64 value, the kernel's
        [float], with its rounding, its two zeros, its infinities and
        its [NaN].  Epoch seconds, epoch milliseconds and counters are
        integers [Z]; a duration in seconds is a rational [Q].
      - A value of Mongoose type [Mixed] is [null] or is represented
        by what the handlers observe of it: [String(v)] and [Number(v)].
      - A string that holds [new Date().toISOString()] is represented
        by the millisecond instant it renders; [new Date(s)] reads the
        same instant back.  Such a string is never empty, hence truthy.
      - [Date.now()] and the identifier of a freshly constructed
        document are arguments of the handler. *)

From Stdlib Require Import ZArith QArith Qround Lqa Lia Floats.
From stdpp Require Import gmap strings list fin_maps.

Open Scope string_scope.

Set Warnings "-inexact-float".

(** ** JavaScript values *)

(** A [Mixed] value: [null], or a value by its two coercions
    [String(v)] and [Number(v)]. *)
Inductive jsvalue :=
  | JNull
  | JValue (text : string) (number : float).

(** [String(v)]. *)
Definition toStr (v : jsvalue) : string :=
  match v with
  | JNull => "null"
  | JValue text _ => text
  end.

(** [Number(v)]. *)
Definition toNum (v : jsvalue) : float :=
  match v with
  | JNull => 0%float
  | JValue _ number => number
  end.

(** The [required] validator of a [Mixed] path: [v != null]. *)
Definition required (v : jsvalue) : bool :=
  match v with
  | JNull => false
  | JValue _ _ => true
  end.

(** [x || 0] on numbers: [NaN] and both zeros are falsy. *)
Definition or_zero (n : float) : float :=
  if PrimFloat.is_nan n || PrimFloat.eqb n 0 then 0%float else n.

(** [Number(f)] of an optional numeric schema field: [undefined] gives [NaN]. *)
Definition Number_field (f : option float) : float :=
  match f with
  | Some q => q
  | None => nan
  end.

(** [a >= b] and [a <= b]: every comparison with [NaN] is false. *)
Definition js_ge (a b : float) : bool := PrimFloat.leb b a.

Definition js_le (a b : float) : bool := PrimFloat.leb a b.

Definition js_add (a b : float) : float := PrimFloat.add a b.

Definition js_sub (a b : float) : float := PrimFloat.sub a b.

Definition isNaN (a : float) : bool := PrimFloat.is_nan a.

(** [x > 0] on rationals. *)
Definition Qpos_bool (x : Q) : bool := negb (Qle_bool x 0).

(** [Array.prototype.findIndex]; [None] stands for [-1]. *)
Fixpoint findIndex {A : Type} (p : A -> bool) (l : list A) : option nat :=
  match l with
  | [] => None
  | x :: l' => if p x then Some 0%nat else S <$> findIndex p l'
  end.

(** [Array.prototype.includes] on identifier strings. *)
Definition includes (l : list string) (x : string) : bool :=
  bool_decide (x ∈ l).

(** [Array.prototype.splice(i, 1)]. *)
Definition splice1 {A : Type} (i : nat) (l : list A) : list A :=
  take i l ++ drop (S i) l.

(** A non-empty identifier is truthy. *)
Definition present (s : string) : bool := negb (String.eqb s "").

(** ** Documents (src/unnamed/part_006) *)

Inductive Role := admin | student.

(** [req.user.role] and [req.userId], set by the [authenticate] middleware. *)
Record Caller := {
  role : Role;
  userId : string;
}.

Inductive QuestionType := mcq | short.

Record Question := {
  type : QuestionType;
  marks : float;
  correctAnswer : jsvalue;
  plusT : option float;
  minusT : option float;
}.

Inductive ExamType := timed | untimed.

Record Exam := {
  exam_type : ExamType;
  duration : Q;               (* seconds *)
  questions : list string;    (* ordered question references *)
}.

Inductive AssignmentStatus := active | disabled.

(** [opensAt] and [closesAt] are stored as strings and compared with a
    number; [None] is a string that does not read as a number. *)
Record ExamAssignment := {
  examId : string;
  studentId : string;
  allowedAttempts : Z;
  attemptsUsed : Z;
  opensAt : option Z;
  closesAt : option Z;
  status : AssignmentStatus;
}.

(** What a [submittedAt] string was written from. *)
Inductive timestamp :=
  | IsoString (ms : Z)       (* new Date().toISOString() *)
  | EpochSeconds (s : Z).    (* Math.floor(Date.now() / 1000), cast to String *)

(** The paths of the session schema (lines 131-152).  [resumedAt],
    [timeConsumedBeforeResume] and [lastAnsweredAt], which the routes
    also name, are not among them: a session read from the database has
    them [undefined], and [session.save()] does not store them. *)
Record ExamSession := {
  assignmentId : string;
  grade : float;
  submittedAt : option timestamp;
  isRunning : bool;
  runAt : option Z;
  pausedAt : option Z;
  totalTimeConsumed : Z;
  answeredQuestions : list string;
  bookmarkedQuestions : list string;
}.

Record SubmittedAnswer := {
  answer_id : string;
  sessionId : string;
  questionId : string;
  submittedValue : jsvalue;
  isCorrect : bool;
}.

Record DB := {
  db_sessions : gmap string ExamSession;
  db_assignments : gmap string ExamAssignment;
  db_exams : gmap string Exam;
  db_questions : gmap string Question;
  db_answers : list SubmittedAnswer;
}.

(** Field updates of a session document. *)
Definition set_grade (g : float) (s : ExamSession) : ExamSession :=
  {| assignmentId := assignmentId s; grade := g; submittedAt := submittedAt s;
     isRunning := isRunning s; runAt := runAt s; pausedAt := pausedAt s;
     totalTimeConsumed := totalTimeConsumed s;
     answeredQuestions := answeredQuestions s;
     bookmarkedQuestions := bookmarkedQuestions s |}.

Definition set_submittedAt (t : option timestamp) (s : ExamSession) : ExamSession :=
  {| assignmentId := assignmentId s; grade := grade s; submittedAt := t;
     isRunning := isRunning s; runAt := runAt s; pausedAt := pausedAt s;
     totalTimeConsumed := totalTimeConsumed s;
     answeredQuestions := answeredQuestions s;
     bookmarkedQuestions := bookmarkedQuestions s |}.

Definition set_timer (running : bool) (run paused : option Z) (s : ExamSession)
  : ExamSession :=
  {| assignmentId := assignmentId s; grade := grade s; submittedAt := submittedAt s;
     isRunning := running; runAt := run; pausedAt := paused;
     totalTimeConsumed := totalTimeConsumed s;
     answeredQuestions := answeredQuestions s;
     bookmarkedQuestions := bookmarkedQuestions s |}.

Definition set_totalTimeConsumed (t : Z) (s : ExamSession) : ExamSession :=
  {| assignmentId := assignmentId s; grade := grade s; submittedAt := submittedAt s;
     isRunning := isRunning s; runAt := runAt s; pausedAt := pausedAt s;
     totalTimeConsumed := t;
     answeredQuestions := answeredQuestions s;
     bookmarkedQuestions := bookmarkedQuestions s |}.

Definition set_answeredQuestions (l : list string) (s : ExamSession) : ExamSession :=
  {| assignmentId := assignmentId s; grade := grade s; submittedAt := submittedAt s;
     isRunning := isRunning s; runAt := runAt s; pausedAt := pausedAt s;
     totalTimeConsumed := totalTimeConsumed s;
     answeredQuestions := l;
     bookmarkedQuestions := bookmarkedQuestions s |}.

Definition set_bookmarkedQuestions (l : list string) (s : ExamSession) : ExamSession :=
  {| assignmentId := assignmentId s; grade := grade s; submittedAt := submittedAt s;
     isRunning := isRunning s; runAt := runAt s; pausedAt := pausedAt s;
     totalTimeConsumed := totalTimeConsumed s;
     answeredQuestions := answeredQuestions s;
     bookmarkedQuestions := l |}.

(** [session.grade = g] followed by [session.save()]: the cast of a
    [Number] path rejects [NaN], and the save then fails validation
    ([None]); every other number is stored. *)
Definition save_grade (g : float) (s : ExamSession) : option ExamSession :=
  if PrimFloat.is_nan g then None else Some (set_grade g s).

Definition set_attemptsUsed (n : Z) (a : ExamAssignment) : ExamAssignment :=
  {| examId := examId a; studentId := studentId a;
     allowedAttempts := allowedAttempts a; attemptsUsed := n;
     opensAt := opensAt a; closesAt := closesAt a; status := status a |}.

(** Writes of whole documents. *)
Definition save_session (id : string) (s : ExamSession) (db : DB) : DB :=
  {| db_sessions := <[id := s]> (db_sessions db);
     db_assignments := db_assignments db; db_exams := db_exams db;
     db_questions := db_questions db; db_answers := db_answers db |}.

Definition save_assignment (id : string) (a : ExamAssignment) (db : DB) : DB :=
  {| db_sessions := db_sessions db;
     db_assignments := <[id := a]> (db_assignments db); db_exams := db_exams db;
     db_questions := db_questions db; db_answers := db_answers db |}.

Definition set_answers (l : list SubmittedAnswer) (db : DB) : DB :=
  {| db_sessions := db_sessions db;
     db_assignments := db_assignments db; db_exams := db_exams db;
     db_questions := db_questions db; db_answers := l |}.

(** ** Replies *)

(** [res.status(c).json({success: true, ...})], an error reply
    [res.status(c).json({success: false, message})] sent by the handler
    itself, or the [catch] branch that answers 500 with the message of
    the thrown error. *)
Inductive Reply (A : Type) :=
  | Json (code : nat) (body : A)
  | Fail (code : nat) (message : string)
  | Thrown.

Arguments Json {A} code body.
Arguments Fail {A} code message.
Arguments Thrown {A}.

(** The error kinds of the specification, read off the replies the
    routes send. *)
Inductive ErrorKind :=
  | InvalidInput | NotFound | Forbidden | NotEligible | Conflict | Internal.

Definition error_kind {A : Type} (r : Reply A) : option ErrorKind :=
  match r with
  | Json _ _ => None
  | Thrown => Some Internal
  | Fail code message =>
      if Nat.eqb code 404 then Some NotFound
      else if Nat.eqb code 403 then Some Forbidden
      else if String.eqb message "Exam already submitted" then Some Conflict
      else if String.eqb message "Assignment is not active" then Some NotEligible
      else if String.eqb message "No attempts remaining" then Some NotEligible
      else if String.eqb message "Exam not available at this time" then Some NotEligible
      else Some InvalidInput
  end.

(** ** Shared reads *)

(** [populate("questions")]: the exam's references in their stored
    order, each with its document; a reference without a document is
    dropped. *)
Definition populate_questions (db : DB) (e : Exam) : list (string * Question) :=
  omap (fun id => (fun q => (id, q)) <$> db_questions db !! id) (questions e).

(** [assignment.examId.questions] behind a populated session;
    [None] when the assignment or the exam is missing, where the
    property access throws. *)
Definition exam_questions (db : DB) (a : option ExamAssignment)
  : option (list (string * Question)) :=
  a ≫= fun a => populate_questions db <$> db_exams db !! examId a.

(** The ownership check
    [req.user.role === "student" && assignment.studentId.toString() !== req.userId]. *)
Inductive Access := Granted | Denied | Broken.

Definition ownership (req : Caller) (a : option ExamAssignment) : Access :=
  match role req with
  | admin => Granted
  | student =>
      match a with
      | None => Broken
      | Some a => if String.eqb (studentId a) (userId req) then Granted else Denied
      end
  end.

(** [SubmittedAnswer.find({ sessionId })] and
    [SubmittedAnswer.findOne({ sessionId, questionId })]. *)
Definition answers_of (sid : string) (db : DB) : list SubmittedAnswer :=
  List.filter (fun a => String.eqb (sessionId a) sid) (db_answers db).

Definition answer_for (sid qid : string) (db : DB) : option SubmittedAnswer :=
  List.find (fun a => String.eqb (sessionId a) sid && String.eqb (questionId a) qid)
            (db_answers db).

(** [findIndex(q => !answeredQuestionIds.includes(q._id.toString()))]. *)
Definition next_index (qs : list (string * Question)) (answered : list string)
  : option nat :=
  findIndex (fun q => negb (includes answered (fst q))) qs.

(** The body of the answer-submission reply. *)
Record AnswerBody := {
  r_isCorrect : bool;
  r_gradeChange : float;
  currentGrade : float;
  nextQuestion : option (string * Question);
  nextQuestionIndex : option nat;
  totalQuestions : nat;
  answeredCount : nat;
  isLastQuestion : bool;
  examCompleted : bool;
}.

(** ** routes/submittedAnswers.js, first generation
    (src/routes/submittedAnswers.js, lines 1-224) *)
Module SubmittedAnswersFirst.

(** Lines 82-96. *)
Definition is_correct (question : Question) (v : jsvalue) : bool :=
  match type question with
  | mcq => String.eqb (toStr v) (toStr (correctAnswer question))
  | short =>
      let sub := toNum v in
      let correct := toNum (correctAnswer question) in
      let plus := or_zero (Number_field (plusT question)) in
      let minus := or_zero (Number_field (minusT question)) in
      js_ge sub (js_sub correct minus) && js_le sub (js_add correct plus)
  end.

(** [router.post("/")], lines 8-158.  [answer.save()] fails the
    [required] validator of [submittedValue] when the value is [null],
    before anything is written; [session.save()] fails when the new
    grade is [NaN], after the answer is stored. *)
Definition post (now : Z) (newId : string) (req : Caller)
    (sid qid : string) (submitted : option jsvalue) (db : DB)
  : Reply AnswerBody * DB :=
  match submitted with
  | None => (Fail 400 "sessionId, questionId, and submittedValue required", db)
  | Some v =>
  if negb (present sid) || negb (present qid)
  then (Fail 400 "sessionId, questionId, and submittedValue required", db)
  else
  match db_sessions db !! sid with
  | None => (Fail 404 "Session not found", db)
  | Some session =>
  let assignment := db_assignments db !! assignmentId session in
  match ownership req assignment with
  | Broken => (Thrown, db)
  | Denied => (Fail 403 "Access denied", db)
  | Granted =>
  match submittedAt session with
  | Some _ => (Fail 400 "Exam already submitted", db)
  | None =>
  match db_questions db !! qid with
  | None => (Fail 404 "Question not found", db)
  | Some question =>
  match exam_questions db assignment with
  | None => (Thrown, db)
  | Some qs =>
  if negb (includes (fst <$> qs) qid)
  then (Fail 400 "Question not part of this exam", db)
  else
  match answer_for sid qid db with
  | Some _ => (Fail 400 "Question already answered", db)
  | None =>
  let correct := is_correct question v in
  if negb (required v) then (Thrown, db)
  else
  let answer := {| answer_id := newId; sessionId := sid; questionId := qid;
                   submittedValue := v; isCorrect := correct |} in
  let db1 := set_answers (db_answers db ++ [answer]) db in
  let gradeChange := if correct then marks question else 0%float in
  match save_grade (grade session + gradeChange) session with
  | None => (Thrown, db1)
  | Some session1 =>
  let db2 := save_session sid session1 db1 in
  let allAnswers := answers_of sid db2 in
  let answeredQuestionIds := questionId <$> allAnswers in
  let idx := next_index qs answeredQuestionIds in
  let db3 :=
    match idx with
    | Some _ => db2
    | None =>
        save_session sid
          (set_submittedAt (Some (EpochSeconds (now / 1000))) session1) db2
    end in
  (Json 201
     {| r_isCorrect := correct;
        r_gradeChange := gradeChange;
        currentGrade := grade session1;
        nextQuestion := idx ≫= fun i => qs !! i;
        nextQuestionIndex := idx;
        totalQuestions := length qs;
        answeredCount := length allAnswers;
        isLastQuestion := bool_decide (idx = None);
        examCompleted := bool_decide (idx = None) |},
   db3)
  end end end end end end end
  end.

End SubmittedAnswersFirst.

(** ** routes/submittedAnswers.js, second generation
    (src/unnamed/part_001, lines 18-391) *)
Module SubmittedAnswers.

(** Lines 87-101. *)
Definition is_correct (question : Question) (v : jsvalue) : bool :=
  match type question with
  | mcq => String.eqb (toStr v) (toStr (correctAnswer question))
  | short =>
      let sub := toNum v in
      let correct := toNum (correctAnswer question) in
      let plus := or_zero (Number_field (plusT question)) in
      let minus := or_zero (Number_field (minusT question)) in
      if negb (isNaN sub) && negb (isNaN correct)
      then js_ge sub (js_sub correct minus) && js_le sub (js_add correct plus)
      else false
  end.

(** [answer.save()] of a document that is already stored. *)
Definition update_answer (a : SubmittedAnswer) (l : list SubmittedAnswer)
  : list SubmittedAnswer :=
  (fun b => if String.eqb (answer_id b) (answer_id a) then a else b) <$> l.

(** [router.post("/")], lines 24-184.  [answer.isNew] is read after
    [answer.save()], when Mongoose has cleared it, so the reply code
    is 200 and the reported change takes the branch of an update.
    [session.lastAnsweredAt] is not a path of the session schema and
    is not stored.  [answer.save()], the first write of either branch,
    fails the [required] validator of [submittedValue] when the value
    is [null]; [session.save()] fails when the grade was set to
    [NaN], after the answer is stored. *)
Definition post (now : Z) (newId : string) (req : Caller)
    (sid qid : string) (submitted : option jsvalue) (db : DB)
  : Reply AnswerBody * DB :=
  match submitted with
  | None => (Fail 400 "sessionId, questionId, and submittedValue required", db)
  | Some v =>
  if negb (present sid) || negb (present qid)
  then (Fail 400 "sessionId, questionId, and submittedValue required", db)
  else
  match db_sessions db !! sid with
  | None => (Fail 404 "Session not found", db)
  | Some session =>
  let assignment := db_assignments db !! assignmentId session in
  match ownership req assignment with
  | Broken => (Thrown, db)
  | Denied => (Fail 403 "Access denied", db)
  | Granted =>
  match submittedAt session with
  | Some _ => (Fail 400 "Exam already submitted", db)
  | None =>
  match db_questions db !! qid with
  | None => (Fail 404 "Question not found", db)
  | Some question =>
  match exam_questions db assignment with
  | None => (Thrown, db)
  | Some qs =>
  if negb (includes (fst <$> qs) qid)
  then (Fail 400 "Question not part of this exam", db)
  else
  let correct := is_correct question v in
  let gradeChange := if correct then marks question else 0%float in
  if negb (required v) then (Thrown, db)
  else
  let '(previousGradeContribution, saved, db1) :=
    match answer_for sid qid db with
    | Some answer =>
        let previousCorrect := isCorrect answer in
        let previousGradeContribution :=
          if previousCorrect then marks question else 0%float in
        let answer1 := {| answer_id := answer_id answer;
                          sessionId := sessionId answer;
                          questionId := questionId answer;
                          submittedValue := v; isCorrect := correct |} in
        let db1 := set_answers (update_answer answer1 (db_answers db)) db in
        let saved :=
          if previousCorrect && negb correct
          then save_grade (grade session - previousGradeContribution) session
          else if negb previousCorrect && correct
          then save_grade (grade session + gradeChange) session
          else Some session in
        (previousGradeContribution, saved, db1)
    | None =>
        let answer := {| answer_id := newId; sessionId := sid; questionId := qid;
                         submittedValue := v; isCorrect := correct |} in
        let db1 := set_answers (db_answers db ++ [answer]) db in
        let saved :=
          save_grade (grade session + gradeChange)
            (set_answeredQuestions (answeredQuestions session ++ [newId]) session) in
        (0%float, saved, db1)
    end in
  match saved with
  | None => (Thrown, db1)
  | Some session1 =>
  let db2 := save_session sid session1 db1 in
  let allAnswers := answers_of sid db2 in
  let answeredQuestionIds := questionId <$> allAnswers in
  let idx := next_index qs answeredQuestionIds in
  (Json 200
     {| r_isCorrect := correct;
        r_gradeChange :=
          if correct then gradeChange
          else or_zero (- previousGradeContribution);
        currentGrade := grade session1;
        nextQuestion := idx ≫= fun i => qs !! i;
        nextQuestionIndex := idx;
        totalQuestions := length qs;
        answeredCount := length allAnswers;
        isLastQuestion := bool_decide (idx = None);
        examCompleted := bool_decide (idx = None) |},
   db2)
  end end end end end end
  end.

End SubmittedAnswers.

(** ** Session routes: shared pieces *)

(** [new ExamSession({ assignmentId, grade: 0, submittedAt: null })]
    with the schema defaults. *)
Definition new_session (aid : string) : ExamSession :=
  {| assignmentId := aid; grade := 0%float; submittedAt := None;
     isRunning := false; runAt := None; pausedAt := None;
     totalTimeConsumed := 0%Z;
     answeredQuestions := []; bookmarkedQuestions := [] |}.

(** [now < assignment.opensAt || now > assignment.closesAt]; a bound
    that is not a number compares false. *)
Definition outside_window (now : Z) (a : ExamAssignment) : bool :=
  match opensAt a with Some o => (now <? o)%Z | None => false end
  || match closesAt a with Some c => (c <? now)%Z | None => false end.

Definition is_active (a : ExamAssignment) : bool :=
  match status a with active => true | disabled => false end.

(** The eligibility checks shared by both generations of
    [router.post("/start")]; [None] lets the request through.
    The populated [studentId] is compared by its identifier. *)
Definition start_refusal {A : Type} (now : Z) (req : Caller)
    (a : ExamAssignment) : option (Reply A) :=
  match role req, String.eqb (studentId a) (userId req) with
  | student, false => Some (Fail 403 "Access denied")
  | _, _ =>
      if negb (is_active a) then Some (Fail 400 "Assignment is not active")
      else if (allowedAttempts a <=? attemptsUsed a)%Z
      then Some (Fail 400 "No attempts remaining")
      else if outside_window (now / 1000) a
      then Some (Fail 400 "Exam not available at this time")
      else None
  end.

(** ** routes/examSessions.js, first generation (src/routes/examSessions.js) *)
Module ExamSessionsFirst.

(** [calculateRemainingTime], lines 14-53, on a session whose
    assignment and exam are populated; [None] is [null].
    [session.resumedAt] and [session.timeConsumedBeforeResume] are not
    paths of the session schema: on a session read from the database,
    and on a session just constructed, both are [undefined] ([None]
    below).  Arithmetic on [undefined] gives [NaN], also [None] below,
    and [NaN > 0] is false. *)
Definition calculateRemainingTime (nowMs : Z) (exam : Exam) (session : ExamSession)
  : option Q :=
  match exam_type exam with
  | untimed => None
  | timed =>
      let totalDuration := duration exam in
      let now := (nowMs / 1000)%Z in
      match submittedAt session with
      | Some _ => Some 0%Q
      | None =>
          let resumedAt : option Z := None in
          let timeConsumedBeforeResume : option Z := None in
          let consumed : option Z :=
            match resumedAt with
            | Some r => (fun t => t + (now - r))%Z <$> timeConsumedBeforeResume
            | None => timeConsumedBeforeResume
            end in
          let remaining : option Q :=
            (fun c => totalDuration - inject_Z c)%Q <$> consumed in
          Some match remaining with
               | Some r => if Qpos_bool r then r else 0%Q
               | None => 0%Q
               end
      end
  end.

Record StartBody := {
  started : string;   (* the identifier of [session] *)
  currentQuestion : option (string * Question);
  currentQuestionIndex : nat;
  start_totalQuestions : nat;
  remainingTime : option Q;
}.

(** [router.post("/start")], lines 85-176.  The session is saved
    before the exam is read, so a missing exam throws after the write. *)
Definition start (nowMs : Z) (newId : string) (req : Caller) (aid : string)
    (db : DB) : Reply StartBody * DB :=
  if negb (present aid) then (Fail 400 "assignmentId is required", db)
  else
  match db_assignments db !! aid with
  | None => (Fail 404 "Assignment not found", db)
  | Some assignment =>
  match start_refusal nowMs req assignment with
  | Some refusal => (refusal, db)
  | None =>
  let session := new_session aid in
  let db1 := save_session newId session db in
  match db_exams db !! examId assignment with
  | None => (Thrown, db1)
  | Some exam =>
  let qs := populate_questions db exam in
  (Json 201
     {| started := newId;
        currentQuestion := qs !! 0%nat;
        currentQuestionIndex := 0;
        start_totalQuestions := length qs;
        remainingTime := calculateRemainingTime nowMs exam session |},
   db1)
  end end end.

Record ResumeBody := {
  resumed : ExamSession;
  resume_currentQuestion : option (string * Question);
  resume_currentQuestionIndex : nat;
  resume_totalQuestions : nat;
  resume_answeredCount : nat;
}.

(** [router.post("/resume/:sessionId")], lines 179-256.
    [session.resumedAt = now] sets a property that is not a path of
    the schema, so [session.save()] has nothing to store and the
    session of the reply is serialized as it was read; the
    [remainingTime] that [attachRemainingTime] puts on the document is
    not serialized either. *)
Definition resume (nowMs : Z) (req : Caller) (sid : string) (db : DB)
  : Reply ResumeBody * DB :=
  match db_sessions db !! sid with
  | None => (Fail 404 "Session not found", db)
  | Some session =>
  let assignment := db_assignments db !! assignmentId session in
  match ownership req assignment with
  | Broken => (Thrown, db)
  | Denied => (Fail 403 "Access denied", db)
  | Granted =>
  match submittedAt session with
  | Some _ => (Fail 400 "Exam already submitted", db)
  | None =>
  let submittedAnswers := answers_of sid db in
  let answeredQuestionIds := questionId <$> submittedAnswers in
  match assignment ≫= fun a => db_exams db !! examId a with
  | None => (Thrown, db)
  | Some exam =>
  let qs := populate_questions db exam in
  match next_index qs answeredQuestionIds with
  | None => (Fail 400 "All questions answered", db)
  | Some nextQuestionIndex =>
  (Json 200
     {| resumed := session;
        resume_currentQuestion := qs !! nextQuestionIndex;
        resume_currentQuestionIndex := nextQuestionIndex;
        resume_totalQuestions := length qs;
        resume_answeredCount := length submittedAnswers |},
   db)
  end end end end end.

End ExamSessionsFirst.

(** ** routes/examSessions.js, second generation
    (src/routes/submittedAnswers.js, lines 225-682) *)
Module ExamSessions.

Definition is_open (s : ExamSession) : bool :=
  match submittedAt s with None => true | Some _ => false end.

(** [ExamSession.findOne({ assignmentId, submittedAt: null })]. *)
Definition find_open (aid : string) (db : DB) : option (string * ExamSession) :=
  List.find (fun p => String.eqb (assignmentId (snd p)) aid && is_open (snd p))
            (map_to_list (db_sessions db)).

(** [router.post("/start")], lines 232-328; the body is
    [session: { id }]. *)
Definition start (nowMs : Z) (newId : string) (req : Caller) (aid : string)
    (db : DB) : Reply string * DB :=
  if negb (present aid) then (Fail 400 "assignmentId is required", db)
  else
  match db_assignments db !! aid with
  | None => (Fail 404 "Assignment not found", db)
  | Some assignment =>
  match start_refusal nowMs req assignment with
  | Some refusal => (refusal, db)
  | None =>
  match find_open aid db with
  | Some existing => (Json 200 (fst existing), db)
  | None => (Json 201 newId, save_session newId (new_session aid) db)
  end end end.

Record RemainingBody := {
  remainingTime : option Z;
  remaining_type : string;
}.

(** [router.get("/remaining-time/:sessionId")], lines 419-479. *)
Definition remaining_time (req : Caller) (sid : string) (db : DB)
  : Reply RemainingBody :=
  match db_sessions db !! sid with
  | None => Fail 404 "Session not found"
  | Some session =>
  let assignment := db_assignments db !! assignmentId session in
  match ownership req assignment with
  | Broken => Thrown
  | Denied => Fail 403 "Access denied"
  | Granted =>
  match assignment ≫= fun a => db_exams db !! examId a with
  | None => Thrown
  | Some exam =>
  match exam_type exam with
  | untimed => Json 200 {| remainingTime := None; remaining_type := "untimed" |}
  | timed =>
  match submittedAt session with
  | Some _ => Json 200 {| remainingTime := Some 0%Z; remaining_type := "submitted" |}
  | None =>
  let timeConsumed :=
    if (totalTimeConsumed session =? 0)%Z then 0%Z else totalTimeConsumed session in
  let remaining := (duration exam - inject_Z timeConsumed)%Q in
  Json 200
    {| remainingTime := Some (if Qpos_bool remaining then Qfloor remaining else 0%Z);
       remaining_type := "timed" |}
  end end end end end.

Record BookmarkBody := {
  action : string;
  bookmarked : list string;
}.

(** The write at the end of the bookmark route, lines 596-618. *)
Definition toggle (qid : string) (bookmarks : list string) : string * list string :=
  match findIndex (fun id => String.eqb id qid) bookmarks with
  | None => ("bookmarked", (bookmarks ++ [qid])%list)
  | Some bookmarkIndex => ("unbookmarked", splice1 bookmarkIndex bookmarks)
  end.

(** [router.post("/:sessionId/bookmark/:questionId")], lines 546-624.
    The second [populate], on the path [assignmentId.examId], leaves
    [questions] as the stored references, and [q._id] of a reference
    is the reference: the membership test is on the exam's stored
    list, with or without a document behind each entry. *)
Definition bookmark (req : Caller) (sid qid : string) (db : DB)
  : Reply BookmarkBody * DB :=
  match db_sessions db !! sid with
  | None => (Fail 404 "Session not found", db)
  | Some session =>
  let assignment := db_assignments db !! assignmentId session in
  match ownership req assignment with
  | Broken => (Thrown, db)
  | Denied => (Fail 403 "Access denied", db)
  | Granted =>
  match submittedAt session with
  | Some _ => (Fail 400 "Exam already submitted", db)
  | None =>
  match assignment ≫= fun a => db_exams db !! examId a with
  | None => (Thrown, db)
  | Some exam =>
  if negb (existsb (fun q => String.eqb q qid) (questions exam))
  then (Fail 400 "Invalid question for this exam", db)
  else
  let '(act, bookmarks) := toggle qid (bookmarkedQuestions session) in
  (Json 200 {| action := act; bookmarked := bookmarks |},
   save_session sid (set_bookmarkedQuestions bookmarks session) db)
  end end end end.

(** [router.post("/:sessionId/submit")], lines 627-680; the body is
    the new [submittedAt].  The session is saved before the assignment
    is touched: when the assignment is gone (an operator's request, a
    student's has failed the ownership check before),
    [assignment.attemptsUsed] throws after the session is stored as
    submitted. *)
Definition submit (nowMs : Z) (req : Caller) (sid : string) (db : DB)
  : Reply timestamp * DB :=
  match db_sessions db !! sid with
  | None => (Fail 404 "Session not found", db)
  | Some session =>
  let assignment := db_assignments db !! assignmentId session in
  match ownership req assignment with
  | Broken => (Thrown, db)
  | Denied => (Fail 403 "Access denied", db)
  | Granted =>
  match submittedAt session with
  | Some _ => (Fail 400 "Exam already submitted", db)
  | None =>
  let session1 :=
    set_timer false None None (set_submittedAt (Some (IsoString nowMs)) session) in
  let db1 := save_session sid session1 db in
  match assignment with
  | None => (Thrown, db1)
  | Some assignment =>
  let assignment1 := set_attemptsUsed (attemptsUsed assignment + 1) assignment in
  (Json 200 (IsoString nowMs),
   save_assignment (assignmentId session) assignment1 db1)
  end end end end.

End ExamSessions.

(** ** server.js: the WebSocket server (src/unnamed/part_007) *)
Module Server.

(** What the connection handler does to the socket. *)
Inductive Socket :=
  | Closed (code : nat) (reason : string)
  | Connected.

(** [wss.on("connection")], lines 53-89.  [isValid] is
    [mongoose.Types.ObjectId.isValid]; [sessionId] is the query
    parameter, [None] when absent. *)
Definition connection (isValid : string -> bool) (nowMs : Z)
    (sessionId : option string) (db : DB) : Socket * DB :=
  match sessionId with
  | None => (Closed 1008 "Invalid sessionId", db)
  | Some sid =>
  if negb (present sid) || negb (isValid sid)
  then (Closed 1008 "Invalid sessionId", db)
  else
  match db_sessions db !! sid with
  | None => (Closed 1008 "Session not found", db)
  | Some session =>
      (Connected, save_session sid (set_timer true (Some nowMs) None session) db)
  end
  end.

(** [ws.on("close")], lines 118-148. *)
Definition close (nowMs : Z) (sid : string) (db : DB) : DB :=
  match db_sessions db !! sid with
  | None => db
  | Some session =>
      let runAtTime := match runAt session with Some t => t | None => nowMs end in
      let timeInThisRun := ((nowMs - runAtTime) / 1000)%Z in
      let total := (totalTimeConsumed session + timeInThisRun)%Z in
      save_session sid
        (set_totalTimeConsumed total
           (set_timer false (runAt session) (Some nowMs) session)) db
  end.

End Server.


(** * The other routes and the middleware *)

From stdpp Require Import pretty.

(** ** middleware/auth.js (src/middleware/auth.js) *)
Module Auth.

(** What a middleware does with the request: hand it on with
    [req.user] and [req.userId] set, or answer it. *)
Inductive Passed :=
  | Next (req : Caller)
  | Stop (code : nat) (message : string).

(** The rest of [s] after the prefix [pat], if [s] starts with it. *)
Fixpoint strip_prefix (pat s : string) : option string :=
  match pat, s with
  | EmptyString, _ => Some s
  | String a pat', String b s' =>
      if Ascii.eqb a b then strip_prefix pat' s' else None
  | String _ _, EmptyString => None
  end.

(** [s.replace(pat, rep)] with a string pattern: the first occurrence
    of [pat] is replaced. *)
Fixpoint replace_first (pat rep s : string) : string :=
  match strip_prefix pat s with
  | Some rest => rep +:+ rest
  | None =>
      match s with
      | EmptyString => EmptyString
      | String c s' => String c (replace_first pat rep s')
      end
  end.

(** [authenticate], lines 4-28.  [verify] is [jwt.verify] with the
    secret of the server followed by [.userId]: [None] when it throws.
    [users] is the user collection, by role; [header] is
    [req.header("Authorization")], [None] when absent.  Identifiers
    are taken well formed: a lookup that throws is answered 401 by the
    catch clause as well, with the message of an invalid token. *)
Definition authenticate (verify : string -> option string)
    (users : gmap string Role) (header : option string) : Passed :=
  match replace_first "Bearer " "" <$> header with
  | None => Stop 401 "Authentication required"
  | Some token =>
      if negb (present token) then Stop 401 "Authentication required"
      else
        match verify token with
        | None => Stop 401 "Invalid token"
        | Some uid =>
            match users !! uid with
            | None => Stop 401 "User not found"
            | Some r => Next {| role := r; userId := uid |}
            end
        end
  end.

(** [adminOnly], lines 30-37. *)
Definition adminOnly (req : Caller) : Passed :=
  match role req with
  | admin => Next req
  | student => Stop 403 "Admin access required"
  end.

(** A route mounted behind [authenticate, adminOnly]. *)
Definition admin_route {A : Type} (verify : string -> option string)
    (users : gmap string Role) (header : option string)
    (handler : Caller -> DB -> Reply A * DB) (db : DB) : Reply A * DB :=
  match authenticate verify users header with
  | Stop code message => (Fail code message, db)
  | Next req =>
      match adminOnly req with
      | Stop code message => (Fail code message, db)
      | Next req' => handler req' db
      end
  end.

End Auth.

(** ** routes/examSessions.js, second generation: the listing and
    the fetch route (src/routes/submittedAnswers.js, lines 330-416) *)
Module ExamSessionsRoutes.

(** [ExamAssignment.find({ studentId: req.userId })], identifiers only. *)
Definition assignments_of (uid : string) (db : DB) : list string :=
  fst <$> List.filter (fun p => String.eqb (studentId (snd p)) uid)
            (map_to_list (db_assignments db)).

(** [router.get("/")], lines 331-375: the sessions of the reply. *)
Definition list_sessions (req : Caller) (db : DB) : list (string * ExamSession) :=
  match role req with
  | admin => map_to_list (db_sessions db)
  | student =>
      let assignmentIds := assignments_of (userId req) db in
      List.filter (fun p => includes assignmentIds (assignmentId (snd p)))
        (map_to_list (db_sessions db))
  end.

(** The ownership check behind a populated student,
    [req.user.role === "student" &&
     session.assignmentId.studentId._id.toString() !== req.userId]:
    [users] is the user collection, and the property access throws when
    the assignment or its student is missing. *)
Definition ownership_populated (users : gmap string Role) (req : Caller)
    (a : option ExamAssignment) : Access :=
  match role req with
  | admin => Granted
  | student =>
      match a with
      | None => Broken
      | Some a =>
          match users !! studentId a with
          | None => Broken
          | Some _ =>
              if String.eqb (studentId a) (userId req) then Granted else Denied
          end
      end
  end.

(** [router.get("/:id")], lines 378-416. *)
Definition get_session (users : gmap string Role) (req : Caller) (id : string)
    (db : DB) : Reply ExamSession :=
  match db_sessions db !! id with
  | None => Fail 404 "Session not found"
  | Some session =>
      match ownership_populated users req
              (db_assignments db !! assignmentId session) with
      | Broken => Thrown
      | Denied => Fail 403 "Access denied"
      | Granted => Json 200 session
      end
  end.

End ExamSessionsRoutes.

(** ** routes/examSessions.js, first generation: the other routes
    (src/routes/examSessions.js, lines 55-82 and 258-345) *)
Module ExamSessionsFirstRoutes.

(** [calculateRemainingTime] on a stored session: the populate step of
    lines 17-27 reads the assignment and the exam; [None] when one of
    them is missing, where the property access throws. *)
Definition remaining_of (nowMs : Z) (db : DB) (session : ExamSession)
  : option (option Q) :=
  (db_assignments db !! assignmentId session ≫= fun a => db_exams db !! examId a)
  ≫= fun exam => Some (ExamSessionsFirst.calculateRemainingTime nowMs exam session).

(** [attachRemainingTime], lines 58-82, on an array of sessions: each
    session with its [remainingTime], in the order of the input; given
    one session the caller passes it alone and still receives an array. *)
Definition attachRemainingTime (nowMs : Z) (db : DB)
    (sessions : list (string * ExamSession))
  : option (list (string * ExamSession * option Q)) :=
  mapM (fun p => (fun r => (p, r)) <$> remaining_of nowMs db (snd p)) sessions.

(** [router.get("/")], lines 259-305: the sessions of the reply, in
    the array that [attachRemainingTime] returns. *)
Definition list_sessions (nowMs : Z) (req : Caller) (db : DB)
  : Reply (list (string * ExamSession)) :=
  match attachRemainingTime nowMs db (ExamSessionsRoutes.list_sessions req db) with
  | None => Thrown
  | Some sessions => Json 200 (fst <$> sessions)
  end.

End ExamSessionsFirstRoutes.

(** ** routes/submittedAnswers.js, second generation: the other routes
    (src/unnamed/part_001, lines 186-288) *)
Module SubmittedAnswersRoutes.

Record LastBody := {
  answer : option SubmittedAnswer;
  last_isCorrect : option bool;
  last_gradeChange : float;
  last_currentGrade : float;
  last_nextQuestion : option (string * Question);
  last_nextQuestionIndex : option nat;
  last_totalQuestions : nat;
  last_answeredCount : nat;
  last_isLastQuestion : bool;
  last_examCompleted : bool;
}.

(** [SubmittedAnswer.findOne({ sessionId }).sort({ createdAt: -1 })]:
    the answer of the session that was created last. *)
Definition last_answer (sid : string) (db : DB) : option SubmittedAnswer :=
  last (answers_of sid db).

(** [router.get("/session/:sessionId/last")], lines 187-288. *)
Definition last_submitted (req : Caller) (sid : string) (db : DB) : Reply LastBody :=
  match db_sessions db !! sid with
  | None => Fail 404 "Session not found"
  | Some session =>
  let assignment := db_assignments db !! assignmentId session in
  match ownership req assignment with
  | Broken => Thrown
  | Denied => Fail 403 "Access denied"
  | Granted =>
  match submittedAt session with
  | Some _ => Fail 400 "Exam already submitted"
  | None =>
  match last_answer sid db with
  | None =>
      match exam_questions db assignment with
      | None => Thrown
      | Some qs =>
          Json 200
            {| answer := None;
               last_isCorrect := None;
               last_gradeChange := 0%float;
               last_currentGrade := or_zero (grade session);
               last_nextQuestion := qs !! 0%nat;
               last_nextQuestionIndex := Some 0%nat;
               last_totalQuestions := length qs;
               last_answeredCount := 0;
               last_isLastQuestion := Nat.eqb (length qs) 0;
               last_examCompleted := false |}
      end
  | Some lastAnswer =>
      let allAnswers := answers_of sid db in
      let answeredQuestionIds := questionId <$> allAnswers in
      match exam_questions db assignment with
      | None => Thrown
      | Some qs =>
          let idx := next_index qs answeredQuestionIds in
          let gradeChange :=
            if isCorrect lastAnswer
            then marks <$> db_questions db !! questionId lastAnswer
            else Some 0%float in
          match gradeChange with
          | None => Thrown
          | Some change =>
              Json 200
                {| answer := Some lastAnswer;
                   last_isCorrect := Some (isCorrect lastAnswer);
                   last_gradeChange := change;
                   last_currentGrade := grade session;
                   last_nextQuestion := idx ≫= fun i => qs !! i;
                   last_nextQuestionIndex := idx;
                   last_totalQuestions := length qs;
                   last_answeredCount := length allAnswers;
                   last_isLastQuestion := bool_decide (idx = None);
                   last_examCompleted := bool_decide (idx = None) |}
          end
      end
  end end end end.

End SubmittedAnswersRoutes.

(** ** routes/exams.js: deletion (src/unnamed/part_004, lines 165-223) *)
Module Exams.

(** [ExamAssignment.find({ examId })], identifiers only. *)
Definition assignments_of_exam (eid : string) (db : DB) : list string :=
  fst <$> List.filter (fun p => String.eqb (examId (snd p)) eid)
            (map_to_list (db_assignments db)).

(** [router.delete("/:id")] behind [adminOnly]: the sessions of the
    exam's assignments, the assignments and the exam are deleted in one
    transaction. *)
Definition delete (req : Caller) (eid : string) (db : DB) : Reply string * DB :=
  match Auth.adminOnly req with
  | Auth.Stop code message => (Fail code message, db)
  | Auth.Next _ =>
      match db_exams db !! eid with
      | None => (Fail 404 "Exam not found", db)
      | Some _ =>
          let assignmentIds := assignments_of_exam eid db in
          (Json 200 "Exam and all related assignments and sessions deleted successfully",
           {| db_sessions :=
                filter (fun p => includes assignmentIds (assignmentId (snd p)) = false)
                  (db_sessions db);
              db_assignments :=
                filter (fun p => String.eqb (examId (snd p)) eid = false)
                  (db_assignments db);
              db_exams := base.delete eid (db_exams db);
              db_questions := db_questions db;
              db_answers := db_answers db |})
      end
  end.

End Exams.

(** ** routes/questions.js: deletion (src/unnamed/part_002, lines 151-173) *)
Module Questions.

(** [Exam.countDocuments({ questions: id })]. *)
Definition exams_with (qid : string) (db : DB) : nat :=
  length (List.filter (fun p => includes (questions (snd p)) qid)
            (map_to_list (db_exams db))).

(** [router.delete("/:id")] behind [adminOnly]. *)
Definition delete (req : Caller) (qid : string) (db : DB) : Reply string * DB :=
  match Auth.adminOnly req with
  | Auth.Stop code message => (Fail code message, db)
  | Auth.Next _ =>
      let examsCount := exams_with qid db in
      if Nat.ltb 0 examsCount
      then (Fail 400 ("Cannot delete question associated with exams: "
                      +:+ pretty examsCount +:+ " exam(s) found."), db)
      else
        match db_questions db !! qid with
        | None => (Fail 404 "Question not found", db)
        | Some _ =>
            (Json 200 "Question deleted successfully",
             {| db_sessions := db_sessions db;
                db_assignments := db_assignments db;
                db_exams := db_exams db;
                db_questions := base.delete qid (db_questions db);
                db_answers := db_answers db |})
        end
  end.

End Questions.

(** ** routes/examAssignments.js: the listing
    (src/unnamed/part_005, lines 185-225) *)
Module ExamAssignments.

(** [ExamAssignment.find(query)]: every assignment, or those of the
    student who asks. *)
Definition visible (req : Caller) (db : DB) : list (string * ExamAssignment) :=
  match role req with
  | student =>
      List.filter (fun p => String.eqb (studentId (snd p)) (userId req))
        (map_to_list (db_assignments db))
  | admin => map_to_list (db_assignments db)
  end.

(** [ExamSession.findOne({ assignmentId: { $in: ids }, submittedAt: null })]. *)
Definition session_to_resume (ids : list string) (db : DB)
  : option (string * ExamSession) :=
  List.find (fun p => includes ids (assignmentId (snd p))
                      && ExamSessions.is_open (snd p))
            (map_to_list (db_sessions db)).

(** [router.get("/")], lines 186-225: each assignment with its
    [sessionToResume]. *)
Definition list_assignments (req : Caller) (db : DB)
  : list (string * ExamAssignment * option (string * ExamSession)) :=
  let assignments := visible req db in
  let sessionToResume := session_to_resume (fst <$> assignments) db in
  (fun p =>
     (p,
      match sessionToResume with
      | Some s =>
          if String.eqb (assignmentId (snd s)) (fst p) then Some s else None
      | None => None
      end)) <$> assignments.

End ExamAssignments.

(** * Specification-side definitions and sample data *)

(** The tolerance of the specification: the stored value, zero when absent. *)
Definition tolerance (f : option float) : float :=
  match f with
  | Some q => q
  | None => 0%float
  end.

(** A stored tolerance is a number, and not the negative zero. *)
Definition stored_tolerance (f : option float) : Prop :=
  match f with
  | Some q => PrimFloat.is_nan q = false /\ q <> (-0)%float
  | None => True
  end.

(** The two ends of the band of a short-answer question, in the
    arithmetic of the graders: the difference and the sum are rounded
    to binary64. *)
Definition band_low (question : Question) : float :=
  (toNum (correctAnswer question) - tolerance (minusT question))%float.

Definition band_high (question : Question) : float :=
  (toNum (correctAnswer question) + tolerance (plusT question))%float.

(** The reconciliation table of the specification, applied to the
    grade [g]: previous state of the (session, question) pair, new
    correctness, marks of the question.  The entries [+marks] and
    [-marks] are an addition and a subtraction of binary64 numbers;
    for a first answer that is incorrect the handlers add zero, and on
    an update without a change of correctness they leave the grade. *)
Definition grade_after (g : float) (previous : option bool) (correct : bool)
    (m : float) : float :=
  match previous, correct with
  | None, true => g + m
  | None, false => g + 0
  | Some true, true => g
  | Some true, false => g - m
  | Some false, true => g + m
  | Some false, false => g
  end%float.

(** The question identifiers that have a recorded answer in a session. *)
Definition answered (sid : string) (db : DB) (x : string) : Prop :=
  exists a, a ∈ db_answers db /\ sessionId a = sid /\ questionId a = x.

(** The sequencer of the specification: [r] is the position of the
    first element of the ordered list [qs] whose identifier is not in
    the answered set [A], and is absent when every element is answered. *)
Definition first_unanswered (qs : list (string * Question)) (A : string -> Prop)
    (r : option nat) : Prop :=
  match r with
  | Some i =>
      exists q, qs !! i = Some q /\ ~ A (fst q)
                /\ forall j q', (j < i)%nat -> qs !! j = Some q' -> A (fst q')
  | None => forall q, q ∈ qs -> A (fst q)
  end.

(** At most one open session per assignment. *)
Definition one_open_session (db : DB) : Prop :=
  forall i j s t,
    db_sessions db !! i = Some s -> db_sessions db !! j = Some t ->
    assignmentId s = assignmentId t ->
    submittedAt s = None -> submittedAt t = None -> i = j.

(** The elapsed whole seconds of the run that a disconnect closes. *)
Definition run_seconds (nowMs : Z) (session : ExamSession) : Z :=
  match runAt session with
  | Some r => ((nowMs - r) / 1000)%Z
  | None => 0%Z
  end.

(** The bookmark lists that the toggle can produce from the empty list
    of a new session. *)
Inductive toggled_from_empty : list string -> Prop :=
  | toggled_nil : toggled_from_empty []
  | toggled_step (qid : string) (l : list string) :
      toggled_from_empty l ->
      toggled_from_empty (snd (ExamSessions.toggle qid l)).

(** ** Sample data *)
Module Sample.

Definition num (q : float) (s : string) : jsvalue := JValue s q.

(** A short-answer question: 100, accepted from 98 to 105, 5 marks. *)
Definition q_short : Question :=
  {| type := short; marks := 5%float; correctAnswer := num 100 "100";
     plusT := Some 5%float; minusT := Some 2%float |}.

(** A question whose upper tolerance was entered as -1. *)
Definition q_inverted : Question :=
  {| type := short; marks := 5%float; correctAnswer := num 100 "100";
     plusT := Some (-1)%float; minusT := None |}.

(** A question at the end of the exact integers: 2^53, no tolerance. *)
Definition q_large : Question :=
  {| type := short; marks := 1%float;
     correctAnswer := num 9007199254740992 "9007199254740992";
     plusT := None; minusT := None |}.

(** A question in tenths: 0.7, accepted up to 0.1 above. *)
Definition q_tenths : Question :=
  {| type := short; marks := 1%float; correctAnswer := num 0.7 "0.7";
     plusT := Some 0.1%float; minusT := None |}.

Definition q_mcq : Question :=
  {| type := mcq; marks := 5%float;
     correctAnswer := JValue "B" nan;
     plusT := None; minusT := None |}.

Definition Q1 := "650000000000000000000a01".
Definition Q2 := "650000000000000000000a02".
Definition E1 := "650000000000000000000e01".
Definition E2 := "650000000000000000000e02".
Definition A1 := "650000000000000000000b01".
Definition A2 := "650000000000000000000b02".
Definition S1 := "650000000000000000000c01".
Definition S2 := "650000000000000000000c02".
Definition S3 := "650000000000000000000c03".
Definition U1 := "650000000000000000000d01".
Definition N1 := "650000000000000000000f01".

Definition alice : Caller := {| role := student; userId := U1 |}.

Definition exam_timed : Exam :=
  {| exam_type := timed; duration := 3600%Q; questions := [Q1; Q2] |}.

Definition exam_untimed : Exam :=
  {| exam_type := untimed; duration := 3600%Q; questions := [Q1; Q2] |}.

Definition assignment1 : ExamAssignment :=
  {| examId := E1; studentId := U1; allowedAttempts := 2; attemptsUsed := 1;
     opensAt := Some 0%Z; closesAt := Some 4000000000%Z; status := active |}.

Definition assignment2 : ExamAssignment :=
  {| examId := E2; studentId := U1; allowedAttempts := 2; attemptsUsed := 0;
     opensAt := Some 0%Z; closesAt := Some 4000000000%Z; status := active |}.

(** An open, paused session of [assignment1] with one minute consumed. *)
Definition session_open : ExamSession :=
  {| assignmentId := A1; grade := 0%float; submittedAt := None;
     isRunning := false; runAt := Some 1700000000000%Z;
     pausedAt := Some 1700000060000%Z; totalTimeConsumed := 60%Z;
     answeredQuestions := []; bookmarkedQuestions := [] |}.

(** A session of [assignment1] finalized by the submit route. *)
Definition session_done : ExamSession :=
  {| assignmentId := A1; grade := 5%float;
     submittedAt := Some (IsoString 1700000100000);
     isRunning := false; runAt := None; pausedAt := None;
     totalTimeConsumed := 60%Z;
     answeredQuestions := []; bookmarkedQuestions := [] |}.

(** A finalized session of the untimed [assignment2]. *)
Definition session_done_untimed : ExamSession :=
  {| assignmentId := A2; grade := 5%float;
     submittedAt := Some (IsoString 1700000100000);
     isRunning := false; runAt := None; pausedAt := None;
     totalTimeConsumed := 60%Z;
     answeredQuestions := []; bookmarkedQuestions := [] |}.

Definition db0 : DB :=
  {| db_sessions :=
       <[S1 := session_open]> (<[S2 := session_done]>
         (<[S3 := session_done_untimed]> ∅));
     db_assignments := <[A1 := assignment1]> (<[A2 := assignment2]> ∅);
     db_exams := <[E1 := exam_timed]> (<[E2 := exam_untimed]> ∅);
     db_questions := <[Q1 := q_short]> (<[Q2 := q_mcq]> ∅);
     db_answers := [] |}.

Definition now0 : Z := 1700000200000.

Definition questions1 : list (string * Question) := [(Q1, q_short); (Q2, q_mcq)].

(** [db0] after a correct answer of 100 to [Q1] in session [S1]. *)
Definition answer1 : SubmittedAnswer :=
  {| answer_id := N1; sessionId := S1; questionId := Q1;
     submittedValue := num 100 "100"; isCorrect := true |}.

Definition session_answered : ExamSession :=
  set_grade 5 (set_answeredQuestions [N1] session_open).

Definition db1 : DB := save_session S1 session_answered (set_answers [answer1] db0).

Definition N2 := "650000000000000000000f02".

End Sample.

(** ** Invariants of the stored data *)

(** A reply of the [success: true] kind. *)
Definition is_success {A : Type} (r : Reply A) : bool :=
  match r with
  | Json _ _ => true
  | _ => false
  end.

(** The (session, question) pair an answer belongs to. *)
Definition pair_of (a : SubmittedAnswer) : string * string :=
  (sessionId a, questionId a).

(** Answer identifiers are distinct, and a (session, question) pair has
    at most one answer. *)
Definition answers_wf (db : DB) : Prop :=
  NoDup (answer_id <$> db_answers db) /\ NoDup (pair_of <$> db_answers db).

(** Every question reference of a stored exam has its document. *)
Definition exams_closed (db : DB) : Prop :=
  forall eid e qid,
    db_exams db !! eid = Some e -> qid ∈ questions e ->
    is_Some (db_questions db !! qid).

(** Every session refers to a stored assignment, and every assignment
    to a stored exam. *)
Definition sessions_attached (db : DB) : Prop :=
  forall sid s, db_sessions db !! sid = Some s ->
                is_Some (db_assignments db !! assignmentId s).

Definition assignments_attached (db : DB) : Prop :=
  forall aid a, db_assignments db !! aid = Some a ->
                is_Some (db_exams db !! examId a).

(** The assignment of a session and the exam of that assignment are
    both stored. *)
Definition has_exam (db : DB) (s : ExamSession) : bool :=
  match db_assignments db !! assignmentId s ≫= fun a => db_exams db !! examId a with
  | Some _ => true
  | None => false
  end.

(** An operator, the user collection and a token check for the sample
    data. *)
Module Staff.

Definition U2 := "650000000000000000000d02".

Definition bob : Caller := {| role := admin; userId := U2 |}.

Definition users : gmap string Role :=
  {[ Sample.U1 := student; U2 := admin ]}.

Definition verify (token : string) : option string :=
  if String.eqb token "alice.token" then Some Sample.U1
  else if String.eqb token "bob.token" then Some U2
  else None.

End Staff.

(** A space occurs in the string. *)
Fixpoint has_space (s : string) : bool :=
  match s with
  | EmptyString => false
  | String c s' => Ascii.eqb c Ascii.Space || has_space s'
  end.

(** A reply sent by the handler itself with an error status, as
    opposed to the [catch] branch. *)
Definition is_refusal {A : Type} (r : Reply A) : bool :=
  match r with
  | Fail _ _ => true
  | _ => false
  end.

(** A session whose assignment has been deleted. *)
Module Orphan.

Definition S4 := "650000000000000000000c04".
Definition A9 := "650000000000000000000b09".

Definition session : ExamSession :=
  {| assignmentId := A9; grade := 0%float; submittedAt := None;
     isRunning := false; runAt := None; pausedAt := None;
     totalTimeConsumed := 0%Z;
     answeredQuestions := []; bookmarkedQuestions := [] |}.

Definition db : DB := save_session S4 session Sample.db0.

End Orphan.
(** * Properties *)

(** ** Binary64 numbers *)

Lemma SFcompare_refl (x : spec_float) :
  x <> S754_nan -> SFcompare x x = Some Eq.
Proof.
  destruct x as [s|s| |s m e]; intros H; simpl;
    [reflexivity | now destruct s | congruence |].
  destruct s; rewrite Z.compare_refl, Pos.compare_cont_refl; reflexivity.
Qed.

Lemma is_nan_spec (x : float) :
  PrimFloat.is_nan x = true <-> Prim2SF x = S754_nan.
Proof.
  unfold PrimFloat.is_nan. rewrite FloatAxioms.eqb_spec. unfold SFeqb. split.
  - intros H. apply negb_true_iff in H.
    destruct (Prim2SF x) eqn:E; try reflexivity;
      rewrite SFcompare_refl in H by discriminate; discriminate.
  - intros ->. reflexivity.
Qed.

Lemma is_nan_false (x : float) :
  PrimFloat.is_nan x = false <-> Prim2SF x <> S754_nan.
Proof.
  rewrite <- is_nan_spec. destruct (PrimFloat.is_nan x); split; congruence.
Qed.

(** Every comparison with [NaN] is false. *)
Lemma leb_nan_l (x y : float) :
  PrimFloat.is_nan x = true -> PrimFloat.leb x y = false.
Proof.
  intros H. apply is_nan_spec in H. rewrite FloatAxioms.leb_spec, H. reflexivity.
Qed.

Lemma leb_nan_r (x y : float) :
  PrimFloat.is_nan y = true -> PrimFloat.leb x y = false.
Proof.
  intros H. apply is_nan_spec in H. rewrite FloatAxioms.leb_spec, H.
  unfold SFleb. now destruct (Prim2SF x) as [[|]|[|]| |[|] ? ?].
Qed.

Lemma leb_refl (x : float) :
  PrimFloat.is_nan x = false -> PrimFloat.leb x x = true.
Proof.
  intros H. apply is_nan_false in H. rewrite FloatAxioms.leb_spec. unfold SFleb.
  now rewrite SFcompare_refl.
Qed.

Lemma leb_numbers (x y : float) :
  PrimFloat.leb x y = true ->
  PrimFloat.is_nan x = false /\ PrimFloat.is_nan y = false.
Proof.
  intros H. split.
  - destruct (PrimFloat.is_nan x) eqn:E; [|reflexivity].
    rewrite (leb_nan_l x y E) in H. discriminate.
  - destruct (PrimFloat.is_nan y) eqn:E; [|reflexivity].
    rewrite (leb_nan_r x y E) in H. discriminate.
Qed.

Lemma sub_nan_l (x y : float) :
  PrimFloat.is_nan x = true -> PrimFloat.is_nan (x - y) = true.
Proof.
  intros H. apply is_nan_spec in H. apply is_nan_spec.
  rewrite FloatAxioms.sub_spec, H. reflexivity.
Qed.

(** Adding zero leaves every number but the negative zero as it is. *)
Lemma add_zero (g : float) : g <> (-0)%float -> (g + 0)%float = g.
Proof.
  intros H. apply Prim2SF_inj. rewrite FloatAxioms.add_spec.
  change (Prim2SF 0%float) with (S754_zero false).
  unfold SF64add, SFadd. destruct (Prim2SF g) as [[|]| | |] eqn:E; try reflexivity.
  exfalso. apply H. apply Prim2SF_inj. rewrite E. reflexivity.
Qed.

Lemma eqb_zero (q : float) :
  PrimFloat.eqb q 0 = true -> q <> (-0)%float -> q = 0%float.
Proof.
  rewrite FloatAxioms.eqb_spec. change (Prim2SF 0%float) with (S754_zero false).
  intros H Hn. apply Prim2SF_inj. change (Prim2SF 0%float) with (S754_zero false).
  destruct (Prim2SF q) as [[|]|[|]| |[|] ? ?] eqn:E;
    try discriminate; try reflexivity.
  exfalso. apply Hn. apply Prim2SF_inj. rewrite E. reflexivity.
Qed.

Lemma float_neq (x y : float) : Prim2SF x <> Prim2SF y -> x <> y.
Proof. intros H ->. now apply H. Qed.

(** ** Grading *)

(** [Number(t) || 0] is the tolerance of the specification. *)
Lemma or_zero_tolerance (f : option float) :
  stored_tolerance f -> or_zero (Number_field f) = tolerance f.
Proof.
  destruct f as [q|]; simpl; [|reflexivity].
  intros [Hnan Hnz]. unfold or_zero. rewrite Hnan. simpl.
  destruct (PrimFloat.eqb q 0) eqn:E; [|reflexivity].
  now rewrite (eqb_zero q E Hnz).
Qed.

(** The two generations of the grader agree: the test for [NaN] of
    the second one only repeats what the comparisons do. *)
Lemma generations_agree (question : Question) (v : jsvalue) :
  SubmittedAnswersFirst.is_correct question v = SubmittedAnswers.is_correct question v.
Proof.
  unfold SubmittedAnswers.is_correct, SubmittedAnswersFirst.is_correct.
  destruct (type question); [reflexivity|].
  unfold isNaN, js_ge, js_le, js_sub, js_add.
  destruct (PrimFloat.is_nan (toNum v)) eqn:Hv.
  - simpl. now rewrite (leb_nan_r _ _ Hv).
  - destruct (PrimFloat.is_nan (toNum (correctAnswer question))) eqn:Hc;
      [|reflexivity].
    simpl. now rewrite (leb_nan_l _ _ (sub_nan_l _ _ Hc)).
Qed.

(** A multiple-choice answer is compared as text. *)
Lemma mcq_exact_match (question : Question) (v : jsvalue) :
  type question = mcq ->
  SubmittedAnswers.is_correct question v = true
  <-> toStr v = toStr (correctAnswer question).
Proof.
  unfold SubmittedAnswers.is_correct. intros ->. apply String.eqb_eq.
Qed.

(** ** Time accounting *)

Lemma Qpos_bool_true (x : Q) : Qpos_bool x = true <-> (0 < x)%Q.
Proof.
  unfold Qpos_bool. rewrite negb_true_iff.
  destruct (Qle_bool x 0) eqn:E.
  - apply Qle_bool_iff in E. split; [discriminate|]. intros H. lra.
  - split; [|reflexivity]. intros _.
    destruct (Qlt_le_dec 0 x) as [H|H]; [exact H|].
    apply Qle_bool_iff in H. congruence.
Qed.

Lemma clamp_nonneg (x : Q) : (0 <= (if Qpos_bool x then x else 0))%Q.
Proof.
  destruct (Qpos_bool x) eqn:E; [|lra].
  apply Qpos_bool_true in E. lra.
Qed.

Lemma clamp_floor_nonneg (x : Q) : (0 <= (if Qpos_bool x then Qfloor x else 0))%Z.
Proof.
  destruct (Qpos_bool x) eqn:E; [|lia].
  apply Qpos_bool_true in E.
  change 0%Z with (Qfloor 0). apply Qfloor_resp_le. lra.
Qed.

(** ** Bookmarks and sequencing: array helpers *)

Lemma findIndex_None {A : Type} (p : A -> bool) (l : list A) :
  findIndex p l = None <-> forall x, x ∈ l -> p x = false.
Proof.
  induction l as [|a l IH]; simpl.
  - split; [|reflexivity]. intros _ x Hx. inversion Hx.
  - destruct (p a) eqn:E.
    + split; [discriminate|]. intros H.
      specialize (H a (list_elem_of_here _ _)). congruence.
    + rewrite fmap_None, IH. split.
      * intros H x Hx. apply elem_of_cons in Hx as [->|Hx]; auto.
      * intros H x Hx. apply H. now apply list_elem_of_further.
Qed.

(** [findIndex] returns the least position whose element passes. *)
Lemma findIndex_Some {A : Type} (p : A -> bool) (l : list A) (i : nat) :
  findIndex p l = Some i <->
  (exists x, l !! i = Some x /\ p x = true)
  /\ (forall j y, (j < i)%nat -> l !! j = Some y -> p y = false).
Proof.
  revert i. induction l as [|a l IH]; intros i; simpl.
  - split; [discriminate|]. intros [(x & Hx & _) _]. discriminate.
  - destruct (p a) eqn:E.
    + split.
      * intros [= <-]. split; [exists a; auto|]. intros j y Hj. lia.
      * intros [(x & Hx & Hpx) Hmin]. destruct i as [|i]; [reflexivity|].
        specialize (Hmin 0%nat a ltac:(lia) eq_refl). congruence.
    + rewrite fmap_Some. split.
      * intros (k & Hk & ->). apply IH in Hk as [(x & Hx & Hpx) Hmin].
        split; [exists x; auto|].
        intros [|j] y Hj Hy; simpl in Hy; [congruence|].
        apply (Hmin j y); [lia|exact Hy].
      * intros [(x & Hx & Hpx) Hmin]. destruct i as [|i].
        { simpl in Hx. congruence. }
        exists i. split; [|reflexivity]. apply IH.
        split; [exists x; auto|].
        intros j y Hj Hy. apply (Hmin (S j) y); [lia|exact Hy].
Qed.

(** ** C4: the tolerance band of short numeric answers *)

(** C4, as stated, fails at the ends of the band.  The graders add and
    subtract in binary64: for the correct value 0.7 with upper
    tolerance 0.1 the computed upper end is below 0.8, and the answer
    0.8 is graded incorrect by both generations.  With the correct
    value 2^53 and no tolerance, the answer one above reads as the
    number 2^53 and is graded correct.  The routes that store questions
    accept any number as a tolerance: with [plusT = -1] and no [minusT]
    the band is empty, and its lower end 100 and its upper end 99 are
    both graded incorrect. *)
Lemma ends_of_band_are_graded_incorrect :
  (type Sample.q_tenths = short
   /\ toNum (correctAnswer Sample.q_tenths) = 0.7%float
   /\ tolerance (plusT Sample.q_tenths) = 0.1%float
   /\ PrimFloat.ltb (band_high Sample.q_tenths) 0.8 = true
   /\ SubmittedAnswers.is_correct Sample.q_tenths (Sample.num 0.8 "0.8") = false
   /\ SubmittedAnswersFirst.is_correct Sample.q_tenths (Sample.num 0.8 "0.8") = false)
  /\ (type Sample.q_large = short
      /\ toNum (correctAnswer Sample.q_large) = 9007199254740992%float
      /\ tolerance (plusT Sample.q_large) = 0%float
      /\ SubmittedAnswers.is_correct Sample.q_large
           (Sample.num (9007199254740992 + 0 + 1) "9007199254740993") = true
      /\ SubmittedAnswersFirst.is_correct Sample.q_large
           (Sample.num (9007199254740992 + 0 + 1) "9007199254740993") = true)
  /\ (type Sample.q_inverted = short
      /\ toNum (correctAnswer Sample.q_inverted) = 100%float
      /\ tolerance (minusT Sample.q_inverted) = 0%float
      /\ tolerance (plusT Sample.q_inverted) = (-1)%float
      /\ SubmittedAnswers.is_correct Sample.q_inverted (Sample.num (100 - 0) "100")
         = false
      /\ SubmittedAnswers.is_correct Sample.q_inverted (Sample.num (100 + -1) "99")
         = false
      /\ SubmittedAnswersFirst.is_correct Sample.q_inverted (Sample.num (100 - 0) "100")
         = false
      /\ SubmittedAnswersFirst.is_correct Sample.q_inverted (Sample.num (100 + -1) "99")
         = false).
Proof. repeat split. Qed.

(** The band check of the graders, on the two ends of the specification. *)
Lemma band_check (question : Question) (x : float) :
  stored_tolerance (minusT question) -> stored_tolerance (plusT question) ->
  js_ge x (js_sub (toNum (correctAnswer question))
             (or_zero (Number_field (minusT question))))
  && js_le x (js_add (toNum (correctAnswer question))
                (or_zero (Number_field (plusT question)))) = true
  <-> PrimFloat.leb (band_low question) x = true
      /\ PrimFloat.leb x (band_high question) = true.
Proof.
  intros Hl Hu. rewrite (or_zero_tolerance _ Hl), (or_zero_tolerance _ Hu).
  apply andb_true_iff.
Qed.

(** C4, amended. For a short-answer question whose stored tolerances
    are numbers (zero when absent), both generations of the grader
    agree; a submitted value that does not read as a number is
    incorrect; a value that reads as [x] is correct exactly when
    [lo <= x <= hi], where [lo] and [hi] are the difference [C - L] and
    the sum [C + U] as binary64 arithmetic gives them; and when
    [lo <= hi] the two computed ends are correct. *)
Theorem short_answer_tolerance_band (question : Question) (v : jsvalue) :
  type question = short ->
  stored_tolerance (minusT question) -> stored_tolerance (plusT question) ->
  SubmittedAnswersFirst.is_correct question v = SubmittedAnswers.is_correct question v
  /\ (PrimFloat.is_nan (toNum v) = true ->
      SubmittedAnswers.is_correct question v = false)
  /\ (SubmittedAnswers.is_correct question v = true
      <-> PrimFloat.leb (band_low question) (toNum v) = true
          /\ PrimFloat.leb (toNum v) (band_high question) = true)
  /\ (PrimFloat.leb (band_low question) (band_high question) = true ->
      toNum v = band_low question \/ toNum v = band_high question ->
      SubmittedAnswers.is_correct question v = true).
Proof.
  intros Ht Hl Hu.
  split; [apply generations_agree|].
  assert (Hiff : SubmittedAnswers.is_correct question v = true
                 <-> PrimFloat.leb (band_low question) (toNum v) = true
                     /\ PrimFloat.leb (toNum v) (band_high question) = true).
  { rewrite <- generations_agree. unfold SubmittedAnswersFirst.is_correct.
    rewrite Ht. apply band_check; assumption. }
  split; [|split; [exact Hiff|]].
  - intros Hnan. unfold SubmittedAnswers.is_correct, isNaN. rewrite Ht, Hnan.
    reflexivity.
  - intros Hband Hx. apply Hiff.
    destruct (leb_numbers _ _ Hband) as [Hlo Hhi].
    destruct Hx as [-> | ->].
    + split; [now apply leb_refl|exact Hband].
    + split; [exact Hband|now apply leb_refl].
Qed.

Lemma short_answer_tolerance_band_witness :
  type Sample.q_short = short
  /\ stored_tolerance (minusT Sample.q_short)
  /\ stored_tolerance (plusT Sample.q_short)
  /\ band_low Sample.q_short = 98%float
  /\ band_high Sample.q_short = 105%float
  /\ (SubmittedAnswers.is_correct Sample.q_short (Sample.num 98 "98") = true
      <-> PrimFloat.leb (band_low Sample.q_short) 98 = true
          /\ PrimFloat.leb 98 (band_high Sample.q_short) = true)
  /\ SubmittedAnswers.is_correct Sample.q_short (Sample.num 98 "98") = true
  /\ SubmittedAnswers.is_correct Sample.q_short (Sample.num 105 "105") = true.
Proof.
  assert (Hl : stored_tolerance (minusT Sample.q_short)).
  { split; [reflexivity|]. apply float_neq. discriminate. }
  assert (Hu : stored_tolerance (plusT Sample.q_short)).
  { split; [reflexivity|]. apply float_neq. discriminate. }
  split; [reflexivity|]. split; [exact Hl|]. split; [exact Hu|].
  split; [reflexivity|]. split; [reflexivity|].
  pose proof (fun v => short_answer_tolerance_band Sample.q_short v eq_refl Hl Hu)
    as H.
  split; [|split].
  - exact (proj1 (proj2 (proj2 (H (Sample.num 98 "98"))))).
  - apply (proj2 (proj2 (proj2 (H (Sample.num 98 "98"))))); [reflexivity|].
    left. reflexivity.
  - apply (proj2 (proj2 (proj2 (H (Sample.num 105 "105"))))); [reflexivity|].
    right. reflexivity.
Defined.

(** ** C9: consumed time across disconnects *)

Lemma run_seconds_nonneg (nowMs : Z) (session : ExamSession) :
  match runAt session with Some r => (r <= nowMs)%Z | None => True end ->
  (0 <= run_seconds nowMs session)%Z.
Proof.
  unfold run_seconds. destruct (runAt session) as [r|]; [|lia].
  intros H. apply Z.div_pos; lia.
Qed.

(** [run_seconds] is the floor of the elapsed milliseconds over 1000. *)
Lemma run_seconds_is_floor (nowMs r : Z) (session : ExamSession) :
  runAt session = Some r ->
  (1000 * run_seconds nowMs session <= nowMs - r
   < 1000 * run_seconds nowMs session + 1000)%Z.
Proof.
  intros Hr. unfold run_seconds. rewrite Hr.
  pose proof (Z.div_mod (nowMs - r) 1000 ltac:(lia)) as Hdm.
  pose proof (Z.mod_pos_bound (nowMs - r) 1000 ltac:(lia)) as Hb.
  lia.
Qed.

(** C9. When the channel of an existing session closes, the stored
    [totalTimeConsumed] becomes its previous value plus
    [floor((now - runAt) / 1000)], the addend being zero when [runAt]
    is null; so it does not decrease when [runAt] is not after [now];
    and opening the channel leaves [totalTimeConsumed] as it is. *)
Theorem close_accumulates_consumed_time
    (nowMs : Z) (sid : string) (db : DB) (session : ExamSession) :
  db_sessions db !! sid = Some session ->
  (exists session',
      db_sessions (Server.close nowMs sid db) !! sid = Some session'
      /\ totalTimeConsumed session'
         = (totalTimeConsumed session + run_seconds nowMs session)%Z
      /\ (runAt session = None ->
          totalTimeConsumed session' = totalTimeConsumed session)
      /\ (match runAt session with Some r => (r <= nowMs)%Z | None => True end ->
          (totalTimeConsumed session <= totalTimeConsumed session')%Z))
  /\ (forall isValid q,
        exists session',
          db_sessions (snd (Server.connection isValid nowMs q db)) !! sid
            = Some session'
          /\ totalTimeConsumed session' = totalTimeConsumed session).
Proof.
  intros Hs. split.
  - unfold Server.close. rewrite Hs. simpl. rewrite lookup_insert_eq.
    eexists. split; [reflexivity|]. simpl.
    assert (Hrun : ((nowMs - match runAt session with
                              | Some t => t | None => nowMs end) / 1000
                    = run_seconds nowMs session)%Z).
    { unfold run_seconds. destruct (runAt session); [reflexivity|].
      now rewrite Z.sub_diag. }
    rewrite Hrun. split; [reflexivity|]. split.
    + intros Hnull. unfold run_seconds. rewrite Hnull. lia.
    + intros Hle. pose proof (run_seconds_nonneg nowMs session Hle). lia.
  - intros isValid q. unfold Server.connection.
    destruct q as [sid'|]; [|eauto].
    destruct (negb (present sid') || negb (isValid sid')); [eauto|].
    destruct (db_sessions db !! sid') as [s'|] eqn:Hs'; [|eauto].
    simpl. destruct (decide (sid' = sid)) as [->|Hne].
    + rewrite lookup_insert_eq. rewrite Hs in Hs'. injection Hs' as <-. eauto.
    + rewrite lookup_insert_ne by done. eauto.
Qed.

Lemma close_accumulates_consumed_time_witness :
  db_sessions Sample.db0 !! Sample.S1 = Some Sample.session_open
  /\ exists session',
      db_sessions (Server.close Sample.now0 Sample.S1 Sample.db0) !! Sample.S1
        = Some session'
      /\ totalTimeConsumed session' = 260%Z.
Proof.
  split; [reflexivity|].
  destruct (close_accumulates_consumed_time Sample.now0 Sample.S1 Sample.db0
              Sample.session_open eq_refl) as [(s' & Hs' & Ht & _) _].
  exists s'. split; [exact Hs'|]. rewrite Ht. reflexivity.
Defined.

(** ** C3: remaining time *)

(** C3, as stated, fails on a finalized session of an untimed exam:
    [calculateRemainingTime] and the remaining-time route test the exam
    type first and answer [null], not zero. *)
Lemma finalized_untimed_session_has_null_remaining_time :
  is_Some (submittedAt Sample.session_done_untimed)
  /\ ExamSessionsFirst.calculateRemainingTime
       Sample.now0 Sample.exam_untimed Sample.session_done_untimed = None
  /\ ExamSessionsFirst.calculateRemainingTime
       Sample.now0 Sample.exam_untimed Sample.session_done_untimed <> Some 0%Q
  /\ ExamSessions.remaining_time Sample.alice Sample.S3 Sample.db0
     = Json 200 {| ExamSessions.remainingTime := None;
                   ExamSessions.remaining_type := "untimed" |}.
Proof.
  split; [eexists; reflexivity|].
  split; [reflexivity|]. split; [discriminate|]. reflexivity.
Qed.

(** C3, amended. For a session of a timed exam, [calculateRemainingTime]
    and the remaining-time route return a number that is never negative
    and is exactly zero once [submittedAt] is set; for a session of an
    untimed exam both return [null], finalized or not. *)
Theorem remaining_time_of_timed_exam
    (nowMs : Z) (req : Caller) (sid : string) (db : DB)
    (session : ExamSession) (assignment : ExamAssignment) (exam : Exam) :
  db_sessions db !! sid = Some session ->
  db_assignments db !! assignmentId session = Some assignment ->
  db_exams db !! examId assignment = Some exam ->
  ownership req (Some assignment) = Granted ->
  match exam_type exam with
  | untimed =>
      ExamSessionsFirst.calculateRemainingTime nowMs exam session = None
      /\ ExamSessions.remaining_time req sid db
         = Json 200 {| ExamSessions.remainingTime := None;
                       ExamSessions.remaining_type := "untimed" |}
  | timed =>
      (exists r : Q,
          ExamSessionsFirst.calculateRemainingTime nowMs exam session = Some r
          /\ (0 <= r)%Q
          /\ (is_Some (submittedAt session) -> r = 0%Q))
      /\ (exists (z : Z) (kind : string),
          ExamSessions.remaining_time req sid db
          = Json 200 {| ExamSessions.remainingTime := Some z;
                        ExamSessions.remaining_type := kind |}
          /\ (0 <= z)%Z
          /\ (is_Some (submittedAt session) -> z = 0%Z))
  end.
Proof.
  intros Hs Ha He Hown.
  unfold ExamSessionsFirst.calculateRemainingTime, ExamSessions.remaining_time.
  rewrite Hs. simpl. rewrite Ha, Hown. simpl. rewrite He.
  destruct (exam_type exam); [|split; reflexivity].
  destruct (submittedAt session) as [t|].
  - split.
    + exists 0%Q. split; [reflexivity|]. split; [lra|reflexivity].
    + exists 0%Z, "submitted". split; [reflexivity|]. split; [lia|reflexivity].
  - split.
    + exists 0%Q. split; [reflexivity|]. split; [lra|].
      intros [t Ht]. discriminate.
    + eexists _, "timed". split; [reflexivity|]. split; [apply clamp_floor_nonneg|].
      intros [t Ht]. discriminate.
Qed.

Lemma remaining_time_of_timed_exam_witness :
  db_sessions Sample.db0 !! Sample.S2 = Some Sample.session_done
  /\ db_assignments Sample.db0 !! assignmentId Sample.session_done
     = Some Sample.assignment1
  /\ db_exams Sample.db0 !! examId Sample.assignment1 = Some Sample.exam_timed
  /\ ownership Sample.alice (Some Sample.assignment1) = Granted
  /\ (exists r : Q,
        ExamSessionsFirst.calculateRemainingTime
          Sample.now0 Sample.exam_timed Sample.session_done = Some r
        /\ (0 <= r)%Q
        /\ (is_Some (submittedAt Sample.session_done) -> r = 0%Q))
  /\ (exists (z : Z) (kind : string),
        ExamSessions.remaining_time Sample.alice Sample.S2 Sample.db0
        = Json 200 {| ExamSessions.remainingTime := Some z;
                      ExamSessions.remaining_type := kind |}
        /\ (0 <= z)%Z
        /\ (is_Some (submittedAt Sample.session_done) -> z = 0%Z)).
Proof.
  split; [reflexivity|]. split; [reflexivity|].
  split; [reflexivity|]. split; [reflexivity|].
  exact (remaining_time_of_timed_exam Sample.now0 Sample.alice Sample.S2 Sample.db0
           Sample.session_done Sample.assignment1 Sample.exam_timed
           eq_refl eq_refl eq_refl eq_refl).
Defined.

(** ** C10: the bookmark toggle *)

Lemma findIndex_eqb_None (qid : string) (l : list string) :
  findIndex (fun id => String.eqb id qid) l = None <-> qid ∉ l.
Proof.
  rewrite findIndex_None. split.
  - intros H Hin. specialize (H qid Hin). now rewrite String.eqb_refl in H.
  - intros H x Hx. apply String.eqb_neq. intros ->. contradiction.
Qed.

Lemma findIndex_eqb_Some (qid : string) (l : list string) (i : nat) :
  findIndex (fun id => String.eqb id qid) l = Some i -> l !! i = Some qid.
Proof.
  intros H. apply findIndex_Some in H as [(x & Hx & Hp) _].
  apply String.eqb_eq in Hp. now subst.
Qed.

Lemma toggle_absent (qid : string) (l : list string) :
  qid ∉ l -> ExamSessions.toggle qid l = ("bookmarked", (l ++ [qid])%list).
Proof.
  intros H. unfold ExamSessions.toggle.
  now rewrite (proj2 (findIndex_eqb_None qid l) H).
Qed.

Lemma toggle_present (qid : string) (l : list string) :
  qid ∈ l -> NoDup l ->
  exists i,
    l !! i = Some qid
    /\ ExamSessions.toggle qid l = ("unbookmarked", splice1 i l)
    /\ (qid ∉ splice1 i l)
    /\ NoDup (splice1 i l)
    /\ forall x, x ∈ l <-> x = qid \/ x ∈ splice1 i l.
Proof.
  intros Hin Hnd. unfold ExamSessions.toggle.
  destruct (findIndex (fun id => String.eqb id qid) l) as [i|] eqn:E.
  - exists i. pose proof (findIndex_eqb_Some _ _ _ E) as Hi.
    split; [exact Hi|]. split; [reflexivity|].
    pose proof (take_drop_middle l i qid Hi) as Hl.
    unfold splice1. rewrite <- Hl in Hnd.
    apply NoDup_app in Hnd as (Hnd1 & Hdisj & Hnd2).
    apply NoDup_cons in Hnd2 as [Hnotin Hnd2].
    split; [|split].
    + rewrite elem_of_app. intros [H|H]; [|contradiction].
      apply (Hdisj qid H). apply list_elem_of_here.
    + apply NoDup_app. split; [exact Hnd1|]. split; [|exact Hnd2].
      intros x Hx Hx'. apply (Hdisj x Hx). now apply list_elem_of_further.
    + intros x. rewrite <- Hl at 1.
      rewrite !elem_of_app, elem_of_cons. tauto.
  - apply findIndex_eqb_None in E. contradiction.
Qed.

Lemma toggle_keeps_NoDup (qid : string) (l : list string) :
  NoDup l -> NoDup (snd (ExamSessions.toggle qid l)).
Proof.
  intros Hnd. destruct (decide (qid ∈ l)) as [Hin|Hout].
  - destruct (toggle_present qid l Hin Hnd) as (i & _ & -> & _ & H & _). exact H.
  - rewrite toggle_absent by exact Hout. simpl.
    apply NoDup_app. split; [exact Hnd|]. split; [|apply NoDup_singleton].
    intros x Hx Hx'. apply list_elem_of_singleton in Hx'. now subst.
Qed.

(** Every list written by the route since the session was created is
    free of duplicates. *)
Lemma toggled_from_empty_NoDup (l : list string) :
  toggled_from_empty l -> NoDup l.
Proof.
  induction 1 as [|qid l _ IH]; [apply NoDup_nil_2|].
  now apply toggle_keeps_NoDup.
Qed.

Lemma toggle_twice (qid : string) (l : list string) :
  NoDup l ->
  forall x, x ∈ snd (ExamSessions.toggle qid (snd (ExamSessions.toggle qid l)))
            <-> x ∈ l.
Proof.
  intros Hnd x. destruct (decide (qid ∈ l)) as [Hin|Hout].
  - destruct (toggle_present qid l Hin Hnd) as (i & _ & -> & Hgone & _ & Hmem).
    simpl. rewrite toggle_absent by exact Hgone. simpl.
    rewrite elem_of_app, list_elem_of_singleton, Hmem. tauto.
  - rewrite (toggle_absent qid l Hout). simpl.
    assert (Hin : qid ∈ (l ++ [qid])%list).
    { apply elem_of_app. right. apply list_elem_of_here. }
    assert (Hnd' : NoDup (l ++ [qid])%list).
    { pose proof (toggle_keeps_NoDup qid l Hnd) as H.
      now rewrite toggle_absent in H by exact Hout. }
    destruct (toggle_present qid _ Hin Hnd') as (i & _ & -> & Hgone & _ & Hmem).
    simpl. specialize (Hmem x). rewrite elem_of_app, list_elem_of_singleton in Hmem.
    split.
    + intros Hx. destruct Hmem as [_ Hmem].
      destruct (Hmem (or_intror Hx)) as [H| ->]; [exact H|contradiction].
    + intros Hx. destruct Hmem as [Hmem _].
      destruct (Hmem (or_introl Hx)) as [->|H]; [contradiction|exact H].
Qed.

Lemma existsb_question (qid : string) (qs : list (string * Question)) :
  qid ∈ (fst <$> qs) -> existsb (fun q => String.eqb (fst q) qid) qs = true.
Proof.
  intros H. apply list_elem_of_fmap in H as (q & -> & Hq).
  apply existsb_exists. exists q. split; [now apply list_elem_of_In|].
  apply String.eqb_refl.
Qed.

(** A populated question is one of the exam's stored references. *)
Lemma populated_reference (db : DB) (exam : Exam) (qid : string) :
  qid ∈ (fst <$> populate_questions db exam) -> qid ∈ questions exam.
Proof.
  unfold populate_questions. intros H.
  apply list_elem_of_fmap in H as ([k q] & -> & H).
  apply list_elem_of_omap in H as (x & Hx & Hf). simpl.
  destruct (db_questions db !! x); simpl in Hf; [|discriminate].
  now injection Hf as <- _.
Qed.

Lemma existsb_reference (qid : string) (l : list string) :
  qid ∈ l -> existsb (fun q => String.eqb q qid) l = true.
Proof.
  intros H. apply existsb_exists. exists qid.
  split; [now apply list_elem_of_In|apply String.eqb_refl].
Qed.

(** What the bookmark route does on an open session of the caller. *)
Lemma bookmark_run (req : Caller) (sid qid : string) (db : DB)
    (session : ExamSession) (assignment : ExamAssignment)
    (qs : list (string * Question)) :
  db_sessions db !! sid = Some session ->
  db_assignments db !! assignmentId session = Some assignment ->
  ownership req (Some assignment) = Granted ->
  submittedAt session = None ->
  exam_questions db (Some assignment) = Some qs ->
  qid ∈ (fst <$> qs) ->
  ExamSessions.bookmark req sid qid db
  = (Json 200
       {| ExamSessions.action :=
            fst (ExamSessions.toggle qid (bookmarkedQuestions session));
          ExamSessions.bookmarked :=
            snd (ExamSessions.toggle qid (bookmarkedQuestions session)) |},
     save_session sid
       (set_bookmarkedQuestions
          (snd (ExamSessions.toggle qid (bookmarkedQuestions session))) session) db).
Proof.
  intros Hs Ha Hown Hopen Hqs Hq. unfold ExamSessions.bookmark.
  rewrite Hs. simpl. rewrite Ha, Hown, Hopen. simpl.
  unfold exam_questions in Hqs. simpl in Hqs.
  destruct (db_exams db !! examId assignment) as [exam|]; [|discriminate].
  simpl in Hqs. injection Hqs as <-.
  rewrite (existsb_reference qid _ (populated_reference db exam qid Hq)). simpl.
  now destruct (ExamSessions.toggle qid (bookmarkedQuestions session)).
Qed.

(** C10. On an open session of the caller whose bookmark list holds no
    duplicate, and for a question of its exam, the bookmark route
    succeeds and stores the list with the question appended when it was
    absent and with the question removed when it was present; the list
    stays free of duplicates, and a second call in succession leaves a
    list with the members of the original one. *)
Theorem bookmark_toggle_involutive (req : Caller) (sid qid : string) (db : DB)
    (session : ExamSession) (assignment : ExamAssignment)
    (qs : list (string * Question)) :
  db_sessions db !! sid = Some session ->
  db_assignments db !! assignmentId session = Some assignment ->
  ownership req (Some assignment) = Granted ->
  submittedAt session = None ->
  exam_questions db (Some assignment) = Some qs ->
  qid ∈ (fst <$> qs) ->
  NoDup (bookmarkedQuestions session) ->
  exists (body1 body2 : ExamSessions.BookmarkBody) (db1 db2 : DB)
         (session1 session2 : ExamSession),
    ExamSessions.bookmark req sid qid db = (Json 200 body1, db1)
    /\ ExamSessions.bookmark req sid qid db1 = (Json 200 body2, db2)
    /\ db_sessions db1 !! sid = Some session1
    /\ db_sessions db2 !! sid = Some session2
    /\ (qid ∉ bookmarkedQuestions session ->
        bookmarkedQuestions session1 = (bookmarkedQuestions session ++ [qid])%list)
    /\ (qid ∈ bookmarkedQuestions session ->
        (qid ∉ bookmarkedQuestions session1)
        /\ forall x, x ∈ bookmarkedQuestions session1
                     <-> x ∈ bookmarkedQuestions session /\ x <> qid)
    /\ NoDup (bookmarkedQuestions session1)
    /\ (forall x, x ∈ bookmarkedQuestions session2 <-> x ∈ bookmarkedQuestions session).
Proof.
  intros Hs Ha Hown Hopen Hqs Hq Hnd.
  pose proof (bookmark_run req sid qid db session assignment qs
                Hs Ha Hown Hopen Hqs Hq) as H1.
  set (l1 := snd (ExamSessions.toggle qid (bookmarkedQuestions session))) in *.
  set (session1 := set_bookmarkedQuestions l1 session) in *.
  set (db1 := save_session sid session1 db) in *.
  assert (Hs1 : db_sessions db1 !! sid = Some session1)
    by (unfold db1; simpl; apply lookup_insert_eq).
  pose proof (bookmark_run req sid qid db1 session1 assignment qs
                Hs1 Ha Hown Hopen Hqs Hq) as H2.
  do 2 eexists. exists db1. eexists. exists session1. eexists.
  split; [exact H1|]. split; [exact H2|]. split; [exact Hs1|].
  split; [simpl; apply lookup_insert_eq|]. simpl.
  split; [|split; [|split]].
  - intros Hout. unfold l1. now rewrite toggle_absent.
  - intros Hin. unfold l1.
    destruct (toggle_present qid _ Hin Hnd) as (i & _ & -> & Hgone & _ & Hmem).
    simpl. split; [exact Hgone|]. intros x. rewrite (Hmem x). split.
    + intros Hx. split; [now right|]. intros ->. contradiction.
    + intros [[->|Hx] Hne]; [contradiction|exact Hx].
  - apply toggle_keeps_NoDup, Hnd.
  - apply toggle_twice, Hnd.
Qed.

Lemma bookmark_toggle_involutive_witness :
  db_sessions Sample.db0 !! Sample.S1 = Some Sample.session_open
  /\ db_assignments Sample.db0 !! assignmentId Sample.session_open
     = Some Sample.assignment1
  /\ ownership Sample.alice (Some Sample.assignment1) = Granted
  /\ submittedAt Sample.session_open = None
  /\ exam_questions Sample.db0 (Some Sample.assignment1) = Some Sample.questions1
  /\ Sample.Q1 ∈ (fst <$> Sample.questions1)
  /\ NoDup (bookmarkedQuestions Sample.session_open)
  /\ exists (db1 db2 : DB) (session2 : ExamSession),
      snd (ExamSessions.bookmark Sample.alice Sample.S1 Sample.Q1 Sample.db0) = db1
      /\ snd (ExamSessions.bookmark Sample.alice Sample.S1 Sample.Q1 db1) = db2
      /\ db_sessions db2 !! Sample.S1 = Some session2
      /\ forall x, x ∈ bookmarkedQuestions session2
                   <-> x ∈ bookmarkedQuestions Sample.session_open.
Proof.
  assert (Hq : Sample.Q1 ∈ (fst <$> Sample.questions1)) by apply list_elem_of_here.
  assert (Hnd : NoDup (bookmarkedQuestions Sample.session_open))
    by apply NoDup_nil_2.
  split; [reflexivity|]. split; [reflexivity|]. split; [reflexivity|].
  split; [reflexivity|]. split; [reflexivity|]. split; [exact Hq|].
  split; [exact Hnd|].
  destruct (bookmark_toggle_involutive Sample.alice Sample.S1 Sample.Q1 Sample.db0
              Sample.session_open Sample.assignment1 _
              eq_refl eq_refl eq_refl eq_refl eq_refl Hq Hnd)
    as (b1 & b2 & db1 & db2 & s1 & s2 & H1 & H2 & _ & Hs2 & _ & _ & _ & Hmem).
  exists db1, db2, s2. rewrite H1. simpl. rewrite H2. simpl.
  split; [reflexivity|]. split; [reflexivity|]. split; [exact Hs2|exact Hmem].
Defined.

(** A list that already holds a question twice loses one copy per call:
    this is why the statement asks for a duplicate-free list. *)
Example toggle_on_duplicates :
  ExamSessions.toggle Sample.Q1 [Sample.Q1; Sample.Q1] = ("unbookmarked", [Sample.Q1])
  /\ ExamSessions.toggle Sample.Q1 [Sample.Q1] = ("unbookmarked", []).
Proof. split; reflexivity. Qed.

(** ** The question sequencer *)

Lemma includes_true (l : list string) (x : string) : x ∈ l -> includes l x = true.
Proof. intros H. unfold includes. now apply bool_decide_eq_true. Qed.

Lemma includes_false (l : list string) (x : string) :
  includes l x = false <-> x ∉ l.
Proof. unfold includes. apply bool_decide_eq_false. Qed.

Lemma next_index_spec (qs : list (string * Question)) (answered : list string) :
  match next_index qs answered with
  | Some i =>
      exists q, qs !! i = Some q /\ (fst q ∉ answered)
                /\ forall j q', (j < i)%nat -> qs !! j = Some q' -> fst q' ∈ answered
  | None => forall q, q ∈ qs -> fst q ∈ answered
  end.
Proof.
  unfold next_index.
  destruct (findIndex _ qs) as [i|] eqn:E.
  - apply findIndex_Some in E as [(q & Hq & Hp) Hmin].
    exists q. split; [exact Hq|]. split.
    + apply includes_false. now apply negb_true_iff.
    + intros j q' Hj Hq'. specialize (Hmin j q' Hj Hq').
      apply negb_false_iff in Hmin. unfold includes in Hmin.
      now apply bool_decide_eq_true in Hmin.
  - intros q Hq. apply (proj1 (findIndex_None _ _) E) in Hq.
    apply negb_false_iff in Hq. unfold includes in Hq.
    now apply bool_decide_eq_true in Hq.
Qed.

Lemma findIndex_ext {A : Type} (p p' : A -> bool) (l : list A) :
  (forall x, p x = p' x) -> findIndex p l = findIndex p' l.
Proof.
  intros H. induction l as [|a l IH]; simpl; [reflexivity|].
  now rewrite H, IH.
Qed.

(** Only the membership of the answered identifiers matters, not the
    order in which the answers were recorded. *)
Lemma next_index_order_irrelevant (qs : list (string * Question))
    (a1 a2 : list string) :
  (forall x, x ∈ a1 <-> x ∈ a2) -> next_index qs a1 = next_index qs a2.
Proof.
  intros H. unfold next_index. apply findIndex_ext. intros q. f_equal.
  unfold includes. apply bool_decide_ext, H.
Qed.

(** The end-to-end order of the specification: with three questions,
    answering the first and the third leaves the second as next. *)
Example sequencer_out_of_order (q : Question) :
  next_index [("Q1", q); ("Q2", q); ("Q3", q)] ["Q1"] = Some 1%nat
  /\ next_index [("Q1", q); ("Q2", q); ("Q3", q)] ["Q1"; "Q3"] = Some 1%nat
  /\ next_index [("Q1", q); ("Q2", q); ("Q3", q)] ["Q3"; "Q1"] = Some 1%nat
  /\ next_index [("Q1", q); ("Q2", q); ("Q3", q)] ["Q1"; "Q3"; "Q2"] = None.
Proof. repeat split. Qed.

(** ** Recorded answers *)

Lemma answer_for_Some (sid qid : string) (db : DB) (a : SubmittedAnswer) :
  answer_for sid qid db = Some a ->
  a ∈ db_answers db /\ sessionId a = sid /\ questionId a = qid.
Proof.
  unfold answer_for. intros H. apply find_some in H as [Hin Hp].
  apply andb_true_iff in Hp as [H1 H2].
  apply String.eqb_eq in H1, H2. split; [now apply list_elem_of_In|auto].
Qed.

Lemma answer_for_None (sid qid : string) (db : DB) :
  answer_for sid qid db = None ->
  (sid, qid) ∉ pair_of <$> db_answers db.
Proof.
  unfold answer_for. intros H Hin.
  apply list_elem_of_fmap in Hin as (a & Hpair & Ha).
  apply list_elem_of_In in Ha. pose proof (find_none _ _ H a Ha) as Hp.
  unfold pair_of in Hpair. injection Hpair as -> ->.
  now rewrite !String.eqb_refl in Hp.
Qed.

Lemma NoDup_fmap_elem {A B : Type} (f : A -> B) (l : list A) (x y : A) :
  NoDup (f <$> l) -> x ∈ l -> y ∈ l -> f x = f y -> x = y.
Proof.
  induction l as [|a l IH]; simpl; intros Hnd Hx Hy Hf.
  - inversion Hx.
  - apply NoDup_cons in Hnd as [Hnotin Hnd].
    apply elem_of_cons in Hx as [->|Hx], Hy as [->|Hy]; auto.
    + exfalso. apply Hnotin. rewrite Hf. now apply list_elem_of_fmap_2.
    + exfalso. apply Hnotin. rewrite <- Hf. now apply list_elem_of_fmap_2.
Qed.

(** Saving an answer keeps every identifier in place. *)
Lemma update_answer_ids (a : SubmittedAnswer) (l : list SubmittedAnswer) :
  answer_id <$> SubmittedAnswers.update_answer a l = answer_id <$> l.
Proof.
  unfold SubmittedAnswers.update_answer. rewrite <- list_fmap_compose.
  apply list_fmap_ext. intros i b _. simpl.
  destruct (String.eqb (answer_id b) (answer_id a)) eqn:E; [|reflexivity].
  apply String.eqb_eq in E. now symmetry.
Qed.

(** With distinct identifiers, saving a new version of a stored answer
    keeps the pair of every answer. *)
Lemma update_answer_pairs (a old : SubmittedAnswer) (l : list SubmittedAnswer) :
  NoDup (answer_id <$> l) -> old ∈ l ->
  answer_id a = answer_id old -> pair_of a = pair_of old ->
  pair_of <$> SubmittedAnswers.update_answer a l = pair_of <$> l.
Proof.
  intros Hnd Hold Hid Hpair. unfold SubmittedAnswers.update_answer.
  rewrite <- list_fmap_compose. apply list_fmap_ext. intros i b Hb. simpl.
  destruct (String.eqb (answer_id b) (answer_id a)) eqn:E; [|reflexivity].
  apply String.eqb_eq in E. apply list_elem_of_lookup_2 in Hb.
  rewrite (NoDup_fmap_elem answer_id l b old Hnd Hb Hold); [exact Hpair|congruence].
Qed.

(** The answer that [findOne] returns for a pair after a new version
    of the stored answer of this pair is saved. *)
Lemma find_updated (p : SubmittedAnswer -> bool) (a old : SubmittedAnswer)
    (l : list SubmittedAnswer) :
  List.find p l = Some old -> answer_id a = answer_id old -> p a = true ->
  List.find p (SubmittedAnswers.update_answer a l) = Some a.
Proof.
  intros Hfind Hid Hp. induction l as [|b l IH]; [discriminate|].
  change (SubmittedAnswers.update_answer a (b :: l))
    with ((if String.eqb (answer_id b) (answer_id a) then a else b)
          :: SubmittedAnswers.update_answer a l).
  simpl in Hfind. destruct (p b) eqn:Hb.
  - injection Hfind as ->. rewrite Hid, String.eqb_refl. simpl. now rewrite Hp.
  - destruct (String.eqb (answer_id b) (answer_id a)); simpl.
    + now rewrite Hp.
    + rewrite Hb. now apply IH.
Qed.

(** ... and after the first answer of the pair is stored. *)
Lemma find_appended (p : SubmittedAnswer -> bool) (a : SubmittedAnswer)
    (l : list SubmittedAnswer) :
  List.find p l = None -> p a = true -> List.find p (l ++ [a]) = Some a.
Proof.
  intros Hfind Hp. induction l as [|b l IH]; simpl; [now rewrite Hp|].
  simpl in Hfind. destruct (p b); [discriminate|]. now apply IH.
Qed.

(** The answered set, read off the pairs and off [find({ sessionId })]. *)
Lemma answered_pairs (sid : string) (db : DB) (x : string) :
  answered sid db x <-> (sid, x) ∈ pair_of <$> db_answers db.
Proof.
  unfold answered. rewrite list_elem_of_fmap. split.
  - intros (a & Ha & <- & <-). exists a. split; [reflexivity|exact Ha].
  - intros (a & Hp & Ha). exists a. unfold pair_of in Hp. injection Hp as -> ->.
    auto.
Qed.

Lemma answered_spec (sid : string) (db : DB) (x : string) :
  x ∈ questionId <$> answers_of sid db <-> answered sid db x.
Proof.
  unfold answered, answers_of. rewrite list_elem_of_fmap. split.
  - intros (a & -> & Ha). apply list_elem_of_In, List.filter_In in Ha as [Ha Hs].
    apply String.eqb_eq in Hs. exists a. split; [now apply list_elem_of_In|auto].
  - intros (a & Ha & Hs & <-). exists a. split; [reflexivity|].
    apply list_elem_of_In, List.filter_In. split; [now apply list_elem_of_In|].
    now apply String.eqb_eq.
Qed.

(** [next_index] over the recorded answers is the sequencer of the
    specification over the answered set. *)
Lemma next_index_first_unanswered (qs : list (string * Question)) (sid : string)
    (db : DB) :
  first_unanswered qs (answered sid db)
    (next_index qs (questionId <$> answers_of sid db)).
Proof.
  pose proof (next_index_spec qs (questionId <$> answers_of sid db)) as H.
  unfold first_unanswered.
  destruct (next_index qs (questionId <$> answers_of sid db)) as [i|].
  - destruct H as (q & Hq & Hnot & Hmin). exists q. split; [exact Hq|]. split.
    + now rewrite <- answered_spec.
    + intros j q' Hj Hq'. apply answered_spec. now apply (Hmin j q').
  - intros q Hq. apply answered_spec. now apply H.
Qed.

(** The answered set after a stored answer is saved in a new version,
    and after a first answer is stored. *)
Lemma answered_updated (sid qid : string) (db db' : DB) (a old : SubmittedAnswer)
    (x : string) :
  db_answers db' = SubmittedAnswers.update_answer a (db_answers db) ->
  NoDup (answer_id <$> db_answers db) ->
  answer_for sid qid db = Some old ->
  answer_id a = answer_id old -> pair_of a = pair_of old ->
  answered sid db' x <-> x = qid \/ answered sid db x.
Proof.
  intros Hans Hnd Hfind Hid Hpair.
  destruct (answer_for_Some _ _ _ _ Hfind) as (Hold & Hs & Hq).
  rewrite !answered_pairs, Hans, (update_answer_pairs a old _ Hnd Hold Hid Hpair).
  split; [auto|]. intros [->|H]; [|exact H].
  apply list_elem_of_fmap. exists old. split; [|exact Hold].
  unfold pair_of. now rewrite Hs, Hq.
Qed.

Lemma answered_appended (sid qid : string) (db db' : DB) (a : SubmittedAnswer)
    (x : string) :
  db_answers db' = (db_answers db ++ [a])%list ->
  pair_of a = (sid, qid) ->
  answered sid db' x <-> x = qid \/ answered sid db x.
Proof.
  intros Hans Hpair.
  rewrite !answered_pairs, Hans, fmap_app, elem_of_app. simpl.
  rewrite list_elem_of_singleton, Hpair. split.
  - intros [H|H]; [now right|]. left. now injection H.
  - intros [->|H]; [now right|now left].
Qed.

Lemma required_given (v : jsvalue) : v <> JNull -> required v = true.
Proof. now destruct v. Qed.

(** ** Answer submission and resume on an eligible request *)

Section EligibleRequest.

(** A request that passes every guard of the handlers: it names a
    stored, open session whose assignment and exam are stored, the
    caller is an operator or the owning student, the question is
    stored and belongs to the exam, and the submitted value is not
    [null]. *)
Context (now : Z) (newId : string) (req : Caller) (sid qid : string)
        (v : jsvalue) (db : DB) (session : ExamSession)
        (assignment : ExamAssignment) (question : Question)
        (qs : list (string * Question)).

Hypothesis sid_present : present sid = true.
Hypothesis qid_present : present qid = true.
Hypothesis session_stored : db_sessions db !! sid = Some session.
Hypothesis assignment_stored :
  db_assignments db !! assignmentId session = Some assignment.
Hypothesis caller_granted : ownership req (Some assignment) = Granted.
Hypothesis session_open : submittedAt session = None.
Hypothesis question_stored : db_questions db !! qid = Some question.
Hypothesis exam_populated : exam_questions db (Some assignment) = Some qs.
Hypothesis question_in_exam : qid ∈ (fst <$> qs).
Hypothesis value_given : v <> JNull.

Ltac pass_guards handler :=
  unfold handler;
  rewrite sid_present, qid_present; simpl;
  rewrite session_stored; simpl;
  rewrite assignment_stored, caller_granted, session_open, question_stored,
    exam_populated, (includes_true _ _ question_in_exam); simpl.

Ltac stored_session :=
  do 3 eexists; split; [reflexivity|]; simpl; rewrite lookup_insert_eq;
  split; [reflexivity|]; simpl.

(** The second-generation handler accepts the request when the grade
    it is to store is a number. *)
Lemma post_run :
  PrimFloat.is_nan
    (grade_after (grade session) (isCorrect <$> answer_for sid qid db)
       (SubmittedAnswers.is_correct question v) (marks question)) = false ->
  exists (body : AnswerBody) (db' : DB) (session' : ExamSession),
    SubmittedAnswers.post now newId req sid qid (Some v) db = (Json 200 body, db')
    /\ db_sessions db' !! sid = Some session'
    /\ grade session'
       = grade_after (grade session) (isCorrect <$> answer_for sid qid db)
           (SubmittedAnswers.is_correct question v) (marks question)
    /\ submittedAt session' = None
    /\ assignmentId session' = assignmentId session
    /\ r_isCorrect body = SubmittedAnswers.is_correct question v
    /\ currentGrade body = grade session'
    /\ nextQuestionIndex body = next_index qs (questionId <$> answers_of sid db')
    /\ nextQuestion body = (nextQuestionIndex body ≫= fun i => qs !! i)
    /\ examCompleted body = bool_decide (nextQuestionIndex body = None)
    /\ isLastQuestion body = examCompleted body
    /\ totalQuestions body = length qs
    /\ answeredCount body = length (answers_of sid db')
    /\ db_answers db'
       = match answer_for sid qid db with
         | Some old =>
             SubmittedAnswers.update_answer
               {| answer_id := answer_id old; sessionId := sessionId old;
                  questionId := questionId old; submittedValue := v;
                  isCorrect := SubmittedAnswers.is_correct question v |}
               (db_answers db)
         | None =>
             (db_answers db
              ++ [{| answer_id := newId; sessionId := sid; questionId := qid;
                     submittedValue := v;
                     isCorrect := SubmittedAnswers.is_correct question v |}])%list
         end
    /\ db_assignments db' = db_assignments db
    /\ db_exams db' = db_exams db
    /\ db_questions db' = db_questions db.
Proof.
  intros Hnum. pass_guards SubmittedAnswers.post.
  rewrite (required_given v value_given). simpl.
  destruct (answer_for sid qid db) as [answer|]; simpl in Hnum |- *.
  - destruct (isCorrect answer), (SubmittedAnswers.is_correct question v);
      simpl in Hnum |- *; unfold save_grade; rewrite ?Hnum;
      (stored_session;
       repeat (split; [first [reflexivity | exact session_open]|]);
       reflexivity).
  - destruct (SubmittedAnswers.is_correct question v);
      simpl in Hnum |- *; unfold save_grade; rewrite Hnum;
      (stored_session;
       repeat (split; [first [reflexivity | exact session_open]|]);
       reflexivity).
Qed.

(** After the second-generation handler, the answer recorded for the
    pair of the request carries the submitted value and its grading. *)
Lemma post_stores_answer (db' : DB) :
  db_answers db'
  = match answer_for sid qid db with
    | Some old =>
        SubmittedAnswers.update_answer
          {| answer_id := answer_id old; sessionId := sessionId old;
             questionId := questionId old; submittedValue := v;
             isCorrect := SubmittedAnswers.is_correct question v |}
          (db_answers db)
    | None =>
        (db_answers db
         ++ [{| answer_id := newId; sessionId := sid; questionId := qid;
                submittedValue := v;
                isCorrect := SubmittedAnswers.is_correct question v |}])%list
    end ->
  exists a' : SubmittedAnswer,
    answer_for sid qid db' = Some a'
    /\ isCorrect a' = SubmittedAnswers.is_correct question v
    /\ submittedValue a' = v
    /\ match answer_for sid qid db with
       | Some old => answer_id a' = answer_id old
       | None => answer_id a' = newId
       end.
Proof using Type.
  intros Hans. unfold answer_for at 1. rewrite Hans.
  destruct (answer_for sid qid db) as [old|] eqn:Hprev.
  - destruct (answer_for_Some _ _ _ _ Hprev) as (_ & Hs & Hq).
    match goal with
    | |- context [SubmittedAnswers.update_answer ?a _] => exists a
    end.
    split; [|repeat split].
    apply (find_updated _ _ old); [exact Hprev|reflexivity|].
    simpl. now rewrite Hs, Hq, !String.eqb_refl.
  - match goal with
    | |- context [(_ ++ [?a])%list] => exists a
    end.
    split; [|repeat split].
    apply find_appended; [exact Hprev|]. simpl. now rewrite !String.eqb_refl.
Qed.

(** The answered set after the second-generation handler. *)
Lemma post_answered (db' : DB) (x : string) :
  NoDup (answer_id <$> db_answers db) ->
  db_answers db'
  = match answer_for sid qid db with
    | Some old =>
        SubmittedAnswers.update_answer
          {| answer_id := answer_id old; sessionId := sessionId old;
             questionId := questionId old; submittedValue := v;
             isCorrect := SubmittedAnswers.is_correct question v |}
          (db_answers db)
    | None =>
        (db_answers db
         ++ [{| answer_id := newId; sessionId := sid; questionId := qid;
                submittedValue := v;
                isCorrect := SubmittedAnswers.is_correct question v |}])%list
    end ->
  answered sid db' x <-> x = qid \/ answered sid db x.
Proof using Type.
  intros Hnd Hans. destruct (answer_for sid qid db) as [old|] eqn:Hprev.
  - now apply (answered_updated sid qid db db' _ old x Hans Hnd Hprev).
  - now apply (answered_appended sid qid db db' _ x Hans).
Qed.

(** The first-generation handler accepts the request when the question
    has no recorded answer and the grade it is to store is a number,
    and finalizes the session when no question is left; it does not
    write to the assignment. *)
Lemma post_first_run :
  answer_for sid qid db = None ->
  PrimFloat.is_nan
    (grade_after (grade session) None
       (SubmittedAnswersFirst.is_correct question v) (marks question)) = false ->
  exists (body : AnswerBody) (db' : DB) (session' : ExamSession),
    SubmittedAnswersFirst.post now newId req sid qid (Some v) db = (Json 201 body, db')
    /\ db_sessions db' !! sid = Some session'
    /\ grade session'
       = grade_after (grade session) None
           (SubmittedAnswersFirst.is_correct question v) (marks question)
    /\ r_isCorrect body = SubmittedAnswersFirst.is_correct question v
    /\ currentGrade body = grade session'
    /\ nextQuestionIndex body = next_index qs (questionId <$> answers_of sid db')
    /\ nextQuestion body = (nextQuestionIndex body ≫= fun i => qs !! i)
    /\ examCompleted body = bool_decide (nextQuestionIndex body = None)
    /\ isLastQuestion body = examCompleted body
    /\ totalQuestions body = length qs
    /\ submittedAt session'
       = match nextQuestionIndex body with
         | Some _ => None
         | None => Some (EpochSeconds (now / 1000))
         end
    /\ assignmentId session' = assignmentId session
    /\ db_answers db'
       = (db_answers db
          ++ [{| answer_id := newId; sessionId := sid; questionId := qid;
                 submittedValue := v;
                 isCorrect := SubmittedAnswersFirst.is_correct question v |}])%list
    /\ db_assignments db' = db_assignments db.
Proof.
  intros Hnone Hnum. pass_guards SubmittedAnswersFirst.post. rewrite Hnone.
  rewrite (required_given v value_given). simpl.
  destruct (SubmittedAnswersFirst.is_correct question v);
    simpl in Hnum |- *; unfold save_grade; rewrite Hnum;
    (match goal with
     | |- context [next_index qs ?a] => destruct (next_index qs a) as [i|] eqn:Hidx
     end;
     stored_session;
     repeat (split; [first [reflexivity | exact session_open
                            | symmetry; exact Hidx]|]);
     reflexivity).
Qed.

(** The first-generation handler refuses a second answer to a question
    and leaves the database as it is. *)
Lemma post_first_refuses (answer : SubmittedAnswer) :
  answer_for sid qid db = Some answer ->
  SubmittedAnswersFirst.post now newId req sid qid (Some v) db
  = (Fail 400 "Question already answered", db).
Proof using sid_present qid_present session_stored assignment_stored
            caller_granted session_open question_stored exam_populated
            question_in_exam.
  intros Hsome. pass_guards SubmittedAnswersFirst.post. now rewrite Hsome.
Qed.

(** The resume route on the session of the request: it writes nothing. *)
Lemma resume_run :
  match next_index qs (questionId <$> answers_of sid db) with
  | Some i =>
      exists body : ExamSessionsFirst.ResumeBody,
        ExamSessionsFirst.resume now req sid db = (Json 200 body, db)
        /\ ExamSessionsFirst.resumed body = session
        /\ ExamSessionsFirst.resume_currentQuestionIndex body = i
        /\ ExamSessionsFirst.resume_currentQuestion body = qs !! i
        /\ ExamSessionsFirst.resume_totalQuestions body = length qs
  | None =>
      ExamSessionsFirst.resume now req sid db = (Fail 400 "All questions answered", db)
  end.
Proof using session_stored assignment_stored caller_granted session_open
            exam_populated.
  unfold ExamSessionsFirst.resume.
  rewrite session_stored. simpl.
  rewrite assignment_stored, caller_granted, session_open. simpl.
  pose proof exam_populated as Hqs. unfold exam_questions in Hqs. simpl in Hqs.
  destruct (db_exams db !! examId assignment) as [exam|]; [|discriminate].
  simpl in Hqs. injection Hqs as Hqs. rewrite Hqs.
  destruct (next_index _ _) as [i|]; [|reflexivity].
  eexists. split; [reflexivity|]. simpl. repeat split.
Qed.

(** C1. For an eligible answer submission to an open session, the
    second-generation handler accepts it and stores as the session's
    grade the entry of the reconciliation table [grade_after] for the
    previous correctness of the (session, question) pair (none, correct,
    incorrect) and the new correctness; the answer it leaves for the
    pair carries the submitted value and the new correctness, which is
    the previous correctness of the next submission.  The
    first-generation handler accepts only a first answer to a question,
    for which it applies the same entry, and refuses any other,
    changing nothing.  The grade to store is taken to be a number (the
    sum or difference of the stored grade and the marks). *)
Theorem grade_change_follows_reconciliation_table :
  PrimFloat.is_nan
    (grade_after (grade session) (isCorrect <$> answer_for sid qid db)
       (SubmittedAnswers.is_correct question v) (marks question)) = false ->
  (exists (body : AnswerBody) (db' : DB) (session' : ExamSession)
          (a' : SubmittedAnswer),
      SubmittedAnswers.post now newId req sid qid (Some v) db = (Json 200 body, db')
      /\ db_sessions db' !! sid = Some session'
      /\ r_isCorrect body = SubmittedAnswers.is_correct question v
      /\ currentGrade body = grade session'
      /\ grade session'
         = grade_after (grade session) (isCorrect <$> answer_for sid qid db)
             (r_isCorrect body) (marks question)
      /\ answer_for sid qid db' = Some a'
      /\ isCorrect a' = r_isCorrect body
      /\ submittedValue a' = v)
  /\ match answer_for sid qid db with
     | None =>
         exists (body : AnswerBody) (db' : DB) (session' : ExamSession)
                (a' : SubmittedAnswer),
           SubmittedAnswersFirst.post now newId req sid qid (Some v) db
           = (Json 201 body, db')
           /\ db_sessions db' !! sid = Some session'
           /\ r_isCorrect body = SubmittedAnswersFirst.is_correct question v
           /\ grade session'
              = grade_after (grade session) None (r_isCorrect body) (marks question)
           /\ answer_for sid qid db' = Some a'
           /\ isCorrect a' = r_isCorrect body
           /\ submittedValue a' = v
     | Some _ =>
         SubmittedAnswersFirst.post now newId req sid qid (Some v) db
         = (Fail 400 "Question already answered", db)
     end
  /\ (forall g m : float,
        grade_after g None true m = (g + m)%float
        /\ grade_after g None false m = (g + 0)%float
        /\ grade_after g (Some true) true m = g
        /\ grade_after g (Some true) false m = (g - m)%float
        /\ grade_after g (Some false) true m = (g + m)%float
        /\ grade_after g (Some false) false m = g
        /\ (g <> (-0)%float -> grade_after g None false m = g)).
Proof.
  intros Hnum. split; [|split].
  - destruct (post_run Hnum)
      as (body & db' & session' & Hrun & Hs' & Hgrade & _ & _ & Hc & Hcur & _ & _
          & _ & _ & _ & _ & Hans & _).
    destruct (post_stores_answer db' Hans) as (a' & Ha' & Hca & Hva & _).
    exists body, db', session', a'. rewrite Hc. auto 10.
  - destruct (answer_for sid qid db) as [answer|] eqn:Hprev.
    + exact (post_first_refuses answer Hprev).
    + simpl in Hnum. rewrite <- generations_agree in Hnum.
      destruct (post_first_run Hprev Hnum)
        as (body & db' & session' & Hrun & Hs' & Hgrade & Hc & _ & _ & _ & _ & _
            & _ & _ & _ & Hans & _).
      assert (Hans' : db_answers db'
                      = match answer_for sid qid db with
                        | Some old =>
                            SubmittedAnswers.update_answer
                              {| answer_id := answer_id old;
                                 sessionId := sessionId old;
                                 questionId := questionId old;
                                 submittedValue := v;
                                 isCorrect :=
                                   SubmittedAnswers.is_correct question v |}
                              (db_answers db)
                        | None =>
                            (db_answers db
                             ++ [{| answer_id := newId; sessionId := sid;
                                    questionId := qid; submittedValue := v;
                                    isCorrect :=
                                      SubmittedAnswers.is_correct question v |}])%list
                        end).
      { rewrite Hprev, Hans, generations_agree. reflexivity. }
      destruct (post_stores_answer db' Hans') as (a' & Ha' & Hca & Hva & _).
      rewrite <- generations_agree in Hca.
      exists body, db', session', a'. rewrite Hc. auto 10.
  - intros g m. repeat split. intros Hg. simpl. now apply add_zero.
Qed.

(** C6. Submitting again an answer that is graded correct, for a
    question whose recorded answer in this open session is correct,
    leaves the session's grade as it was: the second-generation handler
    updates the answer and keeps the grade, the first-generation handler
    refuses the request and writes nothing. *)
Theorem resubmitting_correct_answer_keeps_grade (answer : SubmittedAnswer) :
  answer_for sid qid db = Some answer ->
  isCorrect answer = true ->
  SubmittedAnswers.is_correct question v = true ->
  (exists (body : AnswerBody) (db' : DB) (session' : ExamSession)
          (a' : SubmittedAnswer),
      SubmittedAnswers.post now newId req sid qid (Some v) db = (Json 200 body, db')
      /\ db_sessions db' !! sid = Some session'
      /\ grade session' = grade session
      /\ currentGrade body = grade session
      /\ answer_for sid qid db' = Some a'
      /\ isCorrect a' = true
      /\ submittedValue a' = v)
  /\ SubmittedAnswersFirst.post now newId req sid qid (Some v) db
     = (Fail 400 "Question already answered", db).
Proof.
  intros Hprev Hwas Hnow. split.
  - assert (Hrun : exists body,
               SubmittedAnswers.post now newId req sid qid (Some v) db
               = (Json 200 body,
                  save_session sid session
                    (set_answers
                       (SubmittedAnswers.update_answer
                          {| answer_id := answer_id answer;
                             sessionId := sessionId answer;
                             questionId := questionId answer;
                             submittedValue := v;
                             isCorrect := SubmittedAnswers.is_correct question v |}
                          (db_answers db)) db))
               /\ currentGrade body = grade session).
    { pass_guards SubmittedAnswers.post.
      rewrite (required_given v value_given), Hprev. simpl.
      rewrite Hwas, Hnow. simpl. eexists. split; reflexivity. }
    destruct Hrun as (body & Hrun & Hcur).
    destruct (post_stores_answer
                (save_session sid session
                   (set_answers
                      (SubmittedAnswers.update_answer
                         {| answer_id := answer_id answer;
                            sessionId := sessionId answer;
                            questionId := questionId answer;
                            submittedValue := v;
                            isCorrect := SubmittedAnswers.is_correct question v |}
                         (db_answers db)) db)))
      as (a' & Ha' & Hca & Hva & _).
    { rewrite Hprev. reflexivity. }
    exists body. do 2 eexists. exists a'.
    split; [exact Hrun|]. split; [simpl; apply lookup_insert_eq|].
    split; [reflexivity|]. split; [exact Hcur|]. split; [exact Ha'|].
    split; [now rewrite Hca|exact Hva].
  - exact (post_first_refuses answer Hprev).
Qed.

(** C5. With [qs] the exam's ordered question list, [next_index] over
    a list of answered identifiers is the least position of [qs] whose
    identifier is not in the list, whatever the order of the list; it
    is absent exactly when every question is answered.  On an eligible
    request the answered set after either answer handler is the
    answered set before together with the question of the request; the
    handler reports the position of the first question that is not in
    this set, the question at this position, and a completion flag
    that is true exactly when there is none.  The resume route reports
    the position and the question of the first question that is not in
    the answered set, and answers "All questions answered" when there
    is none.  Answer identifiers are taken distinct, and the grade to
    store a number. *)
Theorem next_question_is_first_unanswered :
  NoDup (answer_id <$> db_answers db) ->
  PrimFloat.is_nan
    (grade_after (grade session) (isCorrect <$> answer_for sid qid db)
       (SubmittedAnswers.is_correct question v) (marks question)) = false ->
  (forall answered,
      match next_index qs answered with
      | Some i =>
          exists q, qs !! i = Some q /\ (fst q ∉ answered)
                    /\ forall j q', (j < i)%nat -> qs !! j = Some q' ->
                                    fst q' ∈ answered
      | None => forall q, q ∈ qs -> fst q ∈ answered
      end)
  /\ (forall a1 a2, (forall x, x ∈ a1 <-> x ∈ a2) ->
                    next_index qs a1 = next_index qs a2)
  /\ (exists (body : AnswerBody) (db' : DB),
        SubmittedAnswers.post now newId req sid qid (Some v) db = (Json 200 body, db')
        /\ (forall x, answered sid db' x <-> x = qid \/ answered sid db x)
        /\ first_unanswered qs (answered sid db') (nextQuestionIndex body)
        /\ nextQuestion body = (nextQuestionIndex body ≫= fun i => qs !! i)
        /\ examCompleted body = bool_decide (nextQuestionIndex body = None))
  /\ match answer_for sid qid db with
     | None =>
         exists (body : AnswerBody) (db' : DB),
           SubmittedAnswersFirst.post now newId req sid qid (Some v) db
           = (Json 201 body, db')
           /\ (forall x, answered sid db' x <-> x = qid \/ answered sid db x)
           /\ first_unanswered qs (answered sid db') (nextQuestionIndex body)
           /\ nextQuestion body = (nextQuestionIndex body ≫= fun i => qs !! i)
           /\ examCompleted body = bool_decide (nextQuestionIndex body = None)
     | Some _ =>
         SubmittedAnswersFirst.post now newId req sid qid (Some v) db
         = (Fail 400 "Question already answered", db)
     end
  /\ (exists r : option nat,
        first_unanswered qs (answered sid db) r
        /\ match r with
           | Some i =>
               exists body : ExamSessionsFirst.ResumeBody,
                 ExamSessionsFirst.resume now req sid db = (Json 200 body, db)
                 /\ ExamSessionsFirst.resume_currentQuestionIndex body = i
                 /\ ExamSessionsFirst.resume_currentQuestion body = qs !! i
           | None =>
               ExamSessionsFirst.resume now req sid db
               = (Fail 400 "All questions answered", db)
           end).
Proof.
  intros Hnd Hnum.
  split; [intros answered; apply next_index_spec|].
  split; [apply next_index_order_irrelevant|].
  split; [|split].
  - destruct (post_run Hnum)
      as (body & db' & session' & Hrun & _ & _ & _ & _ & _ & _ & Hi & Hn & Hc & _
          & _ & _ & Hans & _).
    exists body, db'. split; [exact Hrun|].
    split; [intros x; now apply post_answered|].
    split; [rewrite Hi; apply next_index_first_unanswered|auto].
  - destruct (answer_for sid qid db) as [answer|] eqn:Hprev.
    + exact (post_first_refuses answer Hprev).
    + simpl in Hnum. rewrite <- generations_agree in Hnum.
      destruct (post_first_run Hprev Hnum)
        as (body & db' & session' & Hrun & _ & _ & _ & _ & Hi & Hn & Hc & _ & _
            & _ & _ & Hans & _).
      exists body, db'. split; [exact Hrun|].
      split; [intros x; now apply (answered_appended sid qid db db' _ x Hans)|].
      split; [rewrite Hi; apply next_index_first_unanswered|auto].
  - exists (next_index qs (questionId <$> answers_of sid db)).
    split; [apply next_index_first_unanswered|].
    pose proof resume_run as Hres.
    destruct (next_index qs (questionId <$> answers_of sid db)) as [i|];
      [|exact Hres].
    destruct Hres as (body & Hrun & _ & Hi & Hcur & _).
    exists body. auto.
Qed.

End EligibleRequest.

Lemma grade_change_follows_reconciliation_table_witness :
  present Sample.S1 = true /\ present Sample.Q1 = true
  /\ db_sessions Sample.db1 !! Sample.S1 = Some Sample.session_answered
  /\ db_assignments Sample.db1 !! assignmentId Sample.session_answered
     = Some Sample.assignment1
  /\ ownership Sample.alice (Some Sample.assignment1) = Granted
  /\ submittedAt Sample.session_answered = None
  /\ db_questions Sample.db1 !! Sample.Q1 = Some Sample.q_short
  /\ exam_questions Sample.db1 (Some Sample.assignment1) = Some Sample.questions1
  /\ Sample.Q1 ∈ (fst <$> Sample.questions1)
  /\ Sample.num 90 "90" <> JNull
  /\ PrimFloat.is_nan
       (grade_after (grade Sample.session_answered)
          (isCorrect <$> answer_for Sample.S1 Sample.Q1 Sample.db1)
          (SubmittedAnswers.is_correct Sample.q_short (Sample.num 90 "90"))
          (marks Sample.q_short)) = false
  /\ exists (body : AnswerBody) (db' : DB) (session' : ExamSession)
            (a' : SubmittedAnswer),
      SubmittedAnswers.post Sample.now0 Sample.N2 Sample.alice Sample.S1 Sample.Q1
        (Some (Sample.num 90 "90")) Sample.db1 = (Json 200 body, db')
      /\ db_sessions db' !! Sample.S1 = Some session'
      /\ r_isCorrect body = false
      /\ grade Sample.session_answered = 5%float
      /\ grade session' = 0%float
      /\ answer_for Sample.S1 Sample.Q1 db' = Some a'
      /\ isCorrect a' = false.
Proof.
  assert (Hq : Sample.Q1 ∈ (fst <$> Sample.questions1)) by apply list_elem_of_here.
  assert (Hv : Sample.num 90 "90" <> JNull) by discriminate.
  do 8 (split; [reflexivity|]). split; [exact Hq|]. split; [exact Hv|].
  split; [reflexivity|].
  destruct (grade_change_follows_reconciliation_table
              Sample.now0 Sample.N2 Sample.alice Sample.S1 Sample.Q1
              (Sample.num 90 "90") Sample.db1 Sample.session_answered
              Sample.assignment1 Sample.q_short Sample.questions1
              eq_refl eq_refl eq_refl eq_refl eq_refl eq_refl eq_refl eq_refl Hq
              Hv eq_refl)
    as [(body & db' & session' & a' & Hrun & Hs' & Hc & _ & Hg & Ha' & Hca & _) _].
  exists body, db', session', a'.
  split; [exact Hrun|]. split; [exact Hs'|]. split; [exact Hc|].
  split; [reflexivity|]. split; [rewrite Hg, Hc; reflexivity|].
  split; [exact Ha'|]. rewrite Hca. exact Hc.
Defined.

Lemma resubmitting_correct_answer_keeps_grade_witness :
  present Sample.S1 = true /\ present Sample.Q1 = true
  /\ db_sessions Sample.db1 !! Sample.S1 = Some Sample.session_answered
  /\ db_assignments Sample.db1 !! assignmentId Sample.session_answered
     = Some Sample.assignment1
  /\ ownership Sample.alice (Some Sample.assignment1) = Granted
  /\ submittedAt Sample.session_answered = None
  /\ db_questions Sample.db1 !! Sample.Q1 = Some Sample.q_short
  /\ exam_questions Sample.db1 (Some Sample.assignment1) = Some Sample.questions1
  /\ Sample.Q1 ∈ (fst <$> Sample.questions1)
  /\ Sample.num 100 "100" <> JNull
  /\ answer_for Sample.S1 Sample.Q1 Sample.db1 = Some Sample.answer1
  /\ isCorrect Sample.answer1 = true
  /\ SubmittedAnswers.is_correct Sample.q_short (Sample.num 100 "100") = true
  /\ exists (body : AnswerBody) (db' : DB) (session' : ExamSession),
      SubmittedAnswers.post Sample.now0 Sample.N2 Sample.alice Sample.S1 Sample.Q1
        (Some (Sample.num 100 "100")) Sample.db1 = (Json 200 body, db')
      /\ db_sessions db' !! Sample.S1 = Some session'
      /\ grade session' = 5%float.
Proof.
  assert (Hq : Sample.Q1 ∈ (fst <$> Sample.questions1)) by apply list_elem_of_here.
  assert (Hv : Sample.num 100 "100" <> JNull) by discriminate.
  do 8 (split; [reflexivity|]). split; [exact Hq|]. split; [exact Hv|].
  do 3 (split; [reflexivity|]).
  destruct (resubmitting_correct_answer_keeps_grade
              Sample.now0 Sample.N2 Sample.alice Sample.S1 Sample.Q1
              (Sample.num 100 "100") Sample.db1 Sample.session_answered
              Sample.assignment1 Sample.q_short Sample.questions1
              eq_refl eq_refl eq_refl eq_refl eq_refl eq_refl eq_refl eq_refl Hq
              Hv Sample.answer1 eq_refl eq_refl eq_refl)
    as [(body & db' & session' & a' & Hrun & Hs' & Hg & _) _].
  exists body, db', session'. rewrite Hg. auto.
Defined.

(** The [gradeChange] field of the reply is not the change of the
    grade: on a correct resubmission of a correct answer the
    second-generation handler reports the marks of the question while
    the grade stays at 5. *)
Example reported_change_on_correct_resubmission :
  exists (body : AnswerBody) (db' : DB),
    SubmittedAnswers.post Sample.now0 Sample.N2 Sample.alice Sample.S1 Sample.Q1
      (Some (Sample.num 100 "100")) Sample.db1 = (Json 200 body, db')
    /\ grade Sample.session_answered = 5%float
    /\ currentGrade body = 5%float
    /\ r_gradeChange body = 5%float.
Proof. do 2 eexists. split; [reflexivity|]. repeat split. Qed.

(** The grade is a binary64 number: three correct first answers worth
    0.1, 0.2 and 0.3 leave a grade of 0.6000000000000001. *)
Example grade_is_rounded :
  grade_after (grade_after (grade_after 0 None true 0.1) None true 0.2) None true 0.3
  = 0.6000000000000001%float.
Proof. reflexivity. Qed.

Lemma next_question_is_first_unanswered_witness :
  present Sample.S1 = true /\ present Sample.Q2 = true
  /\ db_sessions Sample.db0 !! Sample.S1 = Some Sample.session_open
  /\ db_assignments Sample.db0 !! assignmentId Sample.session_open
     = Some Sample.assignment1
  /\ ownership Sample.alice (Some Sample.assignment1) = Granted
  /\ submittedAt Sample.session_open = None
  /\ db_questions Sample.db0 !! Sample.Q2 = Some Sample.q_mcq
  /\ exam_questions Sample.db0 (Some Sample.assignment1) = Some Sample.questions1
  /\ Sample.Q2 ∈ (fst <$> Sample.questions1)
  /\ JValue "B" nan <> JNull
  /\ NoDup (answer_id <$> db_answers Sample.db0)
  /\ PrimFloat.is_nan
       (grade_after (grade Sample.session_open)
          (isCorrect <$> answer_for Sample.S1 Sample.Q2 Sample.db0)
          (SubmittedAnswers.is_correct Sample.q_mcq (JValue "B" nan))
          (marks Sample.q_mcq)) = false
  /\ exists (body : AnswerBody) (db' : DB),
      SubmittedAnswers.post Sample.now0 Sample.N1 Sample.alice Sample.S1 Sample.Q2
        (Some (JValue "B" nan)) Sample.db0 = (Json 200 body, db')
      /\ (forall x, answered Sample.S1 db' x
                    <-> x = Sample.Q2 \/ answered Sample.S1 Sample.db0 x)
      /\ first_unanswered Sample.questions1 (answered Sample.S1 db')
           (nextQuestionIndex body)
      /\ nextQuestion body
         = (nextQuestionIndex body ≫= fun i => Sample.questions1 !! i)
      /\ examCompleted body = bool_decide (nextQuestionIndex body = None).
Proof.
  assert (Hq : Sample.Q2 ∈ (fst <$> Sample.questions1)).
  { apply list_elem_of_further, list_elem_of_here. }
  assert (Hv : JValue "B" nan <> JNull) by discriminate.
  assert (Hnd : NoDup (answer_id <$> db_answers Sample.db0)) by apply NoDup_nil_2.
  do 8 (split; [reflexivity|]). split; [exact Hq|]. split; [exact Hv|].
  split; [exact Hnd|]. split; [reflexivity|].
  exact (proj1 (proj2 (proj2
    (next_question_is_first_unanswered
       Sample.now0 Sample.N1 Sample.alice Sample.S1 Sample.Q2
       (JValue "B" nan) Sample.db0 Sample.session_open
       Sample.assignment1 Sample.q_mcq Sample.questions1
       eq_refl eq_refl eq_refl eq_refl eq_refl eq_refl eq_refl eq_refl Hq
       Hv Hnd eq_refl)))).
Defined.

(** ** C2: submitting a session twice *)

Lemma ownership_set_attemptsUsed (req : Caller) (n : Z) (a : ExamAssignment) :
  ownership req (Some (set_attemptsUsed n a)) = ownership req (Some a).
Proof. reflexivity. Qed.

(** C2. On an open session of the caller, the submit route succeeds
    once: the first call stamps [submittedAt], stops the timer fields
    and adds one to [attemptsUsed] of the assignment; a second call is
    refused with "Exam already submitted" (a Conflict) and leaves the
    whole database, hence the session and the counter, as the first
    call left it: one increment in total. *)
Theorem second_submit_is_a_conflict (t1 t2 : Z) (req : Caller) (sid : string)
    (db : DB) (session : ExamSession) (assignment : ExamAssignment) :
  db_sessions db !! sid = Some session ->
  db_assignments db !! assignmentId session = Some assignment ->
  ownership req (Some assignment) = Granted ->
  submittedAt session = None ->
  exists (db1 : DB) (session1 : ExamSession) (assignment1 : ExamAssignment),
    ExamSessions.submit t1 req sid db = (Json 200 (IsoString t1), db1)
    /\ db_sessions db1 !! sid = Some session1
    /\ submittedAt session1 = Some (IsoString t1)
    /\ isRunning session1 = false /\ runAt session1 = None /\ pausedAt session1 = None
    /\ ExamSessions.submit t2 req sid db1 = (Fail 400 "Exam already submitted", db1)
    /\ error_kind (fst (ExamSessions.submit t2 req sid db1)) = Some Conflict
    /\ db_assignments (snd (ExamSessions.submit t2 req sid db1)) !! assignmentId session
       = Some assignment1
    /\ attemptsUsed assignment1 = (attemptsUsed assignment + 1)%Z.
Proof.
  intros Hs Ha Hown Hopen.
  unfold ExamSessions.submit at 1. rewrite Hs. simpl. rewrite Ha, Hown, Hopen.
  do 3 eexists. split; [reflexivity|].
  assert (Hs1 : forall s a,
             db_sessions (save_assignment (assignmentId session) a
                            (save_session sid s db)) !! sid = Some s).
  { intros s a. simpl. apply lookup_insert_eq. }
  split; [apply Hs1|]. do 4 (split; [reflexivity|]).
  assert (Hsecond :
    ExamSessions.submit t2 req sid
      (save_assignment (assignmentId session)
         (set_attemptsUsed (attemptsUsed assignment + 1) assignment)
         (save_session sid
            (set_timer false None None
               (set_submittedAt (Some (IsoString t1)) session)) db))
    = (Fail 400 "Exam already submitted",
       save_assignment (assignmentId session)
         (set_attemptsUsed (attemptsUsed assignment + 1) assignment)
         (save_session sid
            (set_timer false None None
               (set_submittedAt (Some (IsoString t1)) session)) db))).
  { unfold ExamSessions.submit. rewrite Hs1. simpl.
    rewrite lookup_insert_eq, ownership_set_attemptsUsed, Hown. reflexivity. }
  rewrite Hsecond. simpl. split; [reflexivity|]. split; [reflexivity|].
  split; [apply lookup_insert_eq|reflexivity].
Qed.

Lemma second_submit_is_a_conflict_witness :
  db_sessions Sample.db0 !! Sample.S1 = Some Sample.session_open
  /\ db_assignments Sample.db0 !! assignmentId Sample.session_open
     = Some Sample.assignment1
  /\ ownership Sample.alice (Some Sample.assignment1) = Granted
  /\ submittedAt Sample.session_open = None
  /\ exists (db1 : DB) (assignment1 : ExamAssignment),
      ExamSessions.submit Sample.now0 Sample.alice Sample.S1 Sample.db0
      = (Json 200 (IsoString Sample.now0), db1)
      /\ ExamSessions.submit (Sample.now0 + 1) Sample.alice Sample.S1 db1
         = (Fail 400 "Exam already submitted", db1)
      /\ db_assignments db1 !! Sample.A1 = Some assignment1
      /\ attemptsUsed assignment1 = 2%Z.
Proof.
  do 4 (split; [reflexivity|]).
  destruct (second_submit_is_a_conflict Sample.now0 (Sample.now0 + 1) Sample.alice
              Sample.S1 Sample.db0 Sample.session_open Sample.assignment1
              eq_refl eq_refl eq_refl eq_refl)
    as (db1 & s1 & a1 & H1 & _ & _ & _ & _ & _ & H2 & _ & Ha1 & Hn).
  exists db1, a1. rewrite H2 in Ha1. simpl in Ha1.
  split; [exact H1|]. split; [exact H2|]. split; [exact Ha1|]. rewrite Hn. reflexivity.
Defined.

(** A session that is already finalized is refused at every call, and
    nothing is written. *)
Lemma submit_finalized (nowMs : Z) (req : Caller) (sid : string) (db : DB)
    (session : ExamSession) (assignment : ExamAssignment) (t : timestamp) :
  db_sessions db !! sid = Some session ->
  db_assignments db !! assignmentId session = Some assignment ->
  ownership req (Some assignment) = Granted ->
  submittedAt session = Some t ->
  ExamSessions.submit nowMs req sid db = (Fail 400 "Exam already submitted", db).
Proof.
  intros Hs Ha Hown Hdone. unfold ExamSessions.submit.
  rewrite Hs. simpl. now rewrite Ha, Hown, Hdone.
Qed.

(** ** C7: the run-start transition *)

(** The connection handler never reads [submittedAt]: it accepts every
    stored session and stores it as running. *)
Lemma connection_accepts_stored_session (isValid : string -> bool) (nowMs : Z)
    (sid : string) (db : DB) (session : ExamSession) :
  present sid = true -> isValid sid = true ->
  db_sessions db !! sid = Some session ->
  Server.connection isValid nowMs (Some sid) db
  = (Server.Connected,
     save_session sid (set_timer true (Some nowMs) None session) db).
Proof.
  intros Hsid Hvalid Hs. unfold Server.connection.
  rewrite Hsid, Hvalid. simpl. now rewrite Hs.
Qed.

(** C7, on the connection handler (src/unnamed/part_007, lines 53-89).
    The session [S2] is finalized.  Opening the real-time channel for
    it is accepted and stores it as running, with a new [runAt] and a
    cleared [pausedAt], where the transition is to fail with a Conflict
    and leave the finalized session as it is.  Every HTTP route that
    works on a session reads [submittedAt] first: resume, submit,
    bookmark and answer submission refuse this session with "Exam
    already submitted" (a Conflict) and write nothing.  The explicit
    resume call performs no transition on an open session either: the
    open, paused session [S1] is answered 200 and the database is left
    as it was, the session still paused. *)
Theorem channel_restarts_finalized_session :
  db_sessions Sample.db0 !! Sample.S2 = Some Sample.session_done
  /\ submittedAt Sample.session_done = Some (IsoString 1700000100000)
  /\ isRunning Sample.session_done = false
  /\ runAt Sample.session_done = None
  /\ (exists (db' : DB) (session' : ExamSession),
        Server.connection (fun _ => true) Sample.now0 (Some Sample.S2) Sample.db0
        = (Server.Connected, db')
        /\ db_sessions db' !! Sample.S2 = Some session'
        /\ submittedAt session' = Some (IsoString 1700000100000)
        /\ isRunning session' = true
        /\ runAt session' = Some Sample.now0
        /\ pausedAt session' = None
        /\ session' <> Sample.session_done)
  /\ ExamSessionsFirst.resume Sample.now0 Sample.alice Sample.S2 Sample.db0
     = (Fail 400 "Exam already submitted", Sample.db0)
  /\ error_kind (fst (ExamSessionsFirst.resume Sample.now0 Sample.alice Sample.S2
                        Sample.db0)) = Some Conflict
  /\ ExamSessions.submit Sample.now0 Sample.alice Sample.S2 Sample.db0
     = (Fail 400 "Exam already submitted", Sample.db0)
  /\ ExamSessions.bookmark Sample.alice Sample.S2 Sample.Q1 Sample.db0
     = (Fail 400 "Exam already submitted", Sample.db0)
  /\ SubmittedAnswers.post Sample.now0 Sample.N1 Sample.alice Sample.S2 Sample.Q1
       (Some (Sample.num 100 "100")) Sample.db0
     = (Fail 400 "Exam already submitted", Sample.db0)
  /\ (exists body : ExamSessionsFirst.ResumeBody,
        db_sessions Sample.db0 !! Sample.S1 = Some Sample.session_open
        /\ submittedAt Sample.session_open = None
        /\ ExamSessionsFirst.resume Sample.now0 Sample.alice Sample.S1 Sample.db0
           = (Json 200 body, Sample.db0)
        /\ ExamSessionsFirst.resumed body = Sample.session_open
        /\ isRunning Sample.session_open = false
        /\ pausedAt Sample.session_open = Some 1700000060000%Z).
Proof.
  do 4 (split; [reflexivity|]). split.
  { do 2 eexists.
    split; [exact (connection_accepts_stored_session (fun _ => true) Sample.now0
                     Sample.S2 Sample.db0 Sample.session_done
                     eq_refl eq_refl eq_refl)|].
    split; [reflexivity|]. do 4 (split; [reflexivity|]).
    intros H. apply (f_equal isRunning) in H. discriminate H. }
  do 5 (split; [reflexivity|]).
  eexists. split; [reflexivity|]. split; [reflexivity|].
  split; [reflexivity|]. repeat split.
Qed.

(** ** C8: one open session per assignment *)

Lemma is_open_true (s : ExamSession) :
  ExamSessions.is_open s = true <-> submittedAt s = None.
Proof.
  unfold ExamSessions.is_open. destruct (submittedAt s); split; congruence.
Qed.

Lemma find_open_None (aid : string) (db : DB) :
  ExamSessions.find_open aid db = None ->
  forall i s, db_sessions db !! i = Some s ->
              assignmentId s = aid -> submittedAt s <> None.
Proof.
  intros Hnone i s Hs Haid Hopen. unfold ExamSessions.find_open in Hnone.
  pose proof (find_none _ _ Hnone (i, s)) as H. simpl in H.
  rewrite <- list_elem_of_In, elem_of_map_to_list in H. specialize (H Hs).
  apply andb_false_iff in H as [H|H].
  - apply String.eqb_neq in H. contradiction.
  - apply is_open_true in Hopen. congruence.
Qed.

Lemma find_open_Some (aid : string) (db : DB) (i : string) (s : ExamSession) :
  ExamSessions.find_open aid db = Some (i, s) ->
  db_sessions db !! i = Some s /\ assignmentId s = aid /\ submittedAt s = None.
Proof.
  intros Hsome. unfold ExamSessions.find_open in Hsome.
  apply find_some in Hsome as [Hin Hp]. simpl in Hp.
  rewrite <- list_elem_of_In, elem_of_map_to_list in Hin.
  apply andb_true_iff in Hp as [Haid Hopen].
  apply String.eqb_eq in Haid. apply is_open_true in Hopen. auto.
Qed.

(** The second-generation start route keeps the invariant, whatever
    its reply, when the new identifier is fresh. *)
Lemma start_keeps_one_open_session (nowMs : Z) (newId : string) (req : Caller)
    (aid : string) (db : DB) :
  db_sessions db !! newId = None ->
  one_open_session db ->
  one_open_session (snd (ExamSessions.start nowMs newId req aid db)).
Proof.
  intros Hfresh Hinv. unfold ExamSessions.start.
  destruct (negb (present aid)); [exact Hinv|].
  destruct (db_assignments db !! aid) as [assignment|]; [|exact Hinv].
  destruct (start_refusal nowMs req assignment); [exact Hinv|].
  destruct (ExamSessions.find_open aid db) as [[k e]|] eqn:Hfind; [exact Hinv|].
  simpl. intros i j s t Hi Hj Hsame Hsi Htj. simpl in Hi, Hj.
  pose proof (find_open_None aid db Hfind) as Hnone.
  destruct (decide (i = newId)) as [->|Hni], (decide (j = newId)) as [->|Hnj].
  - reflexivity.
  - rewrite lookup_insert_eq in Hi. rewrite lookup_insert_ne in Hj by done.
    injection Hi as <-. simpl in Hsame.
    exfalso. apply (Hnone j t Hj); [now symmetry|exact Htj].
  - rewrite lookup_insert_eq in Hj. rewrite lookup_insert_ne in Hi by done.
    injection Hj as <-. simpl in Hsame.
    exfalso. apply (Hnone i s Hi); [exact Hsame|exact Hsi].
  - rewrite lookup_insert_ne in Hi by done. rewrite lookup_insert_ne in Hj by done.
    exact (Hinv i j s t Hi Hj Hsame Hsi Htj).
Qed.

(** When the assignment has an open session, the second-generation
    start route returns that session and writes nothing. *)
Lemma start_returns_open_session (nowMs : Z) (newId : string) (req : Caller)
    (aid : string) (db : DB) (assignment : ExamAssignment)
    (i : string) (s : ExamSession) :
  present aid = true ->
  db_assignments db !! aid = Some assignment ->
  start_refusal (A := string) nowMs req assignment = None ->
  one_open_session db ->
  db_sessions db !! i = Some s -> assignmentId s = aid -> submittedAt s = None ->
  ExamSessions.start nowMs newId req aid db = (Json 200 i, db).
Proof.
  intros Haid Ha Hok Hinv Hs Hsa Hopen. unfold ExamSessions.start.
  rewrite Haid, Ha, Hok. simpl.
  destruct (ExamSessions.find_open aid db) as [[k e]|] eqn:Hfind.
  - apply find_open_Some in Hfind as (Hk & Hka & Hkopen). simpl.
    rewrite (Hinv k i e s Hk Hs); [reflexivity|congruence|exact Hkopen|exact Hopen].
  - exfalso. exact (find_open_None aid db Hfind i s Hs Hsa Hopen).
Qed.

Lemma sample_db_has_one_open_session : one_open_session Sample.db0.
Proof.
  assert (H : forall i s, db_sessions Sample.db0 !! i = Some s ->
                          submittedAt s = None -> i = Sample.S1).
  { intros i s Hi Hopen. unfold Sample.db0 in Hi. simpl in Hi.
    apply lookup_insert_Some in Hi as [[<- _]|[_ Hi]]; [reflexivity|].
    apply lookup_insert_Some in Hi as [[_ <-]|[_ Hi]]; [discriminate|].
    apply lookup_insert_Some in Hi as [[_ <-]|[_ Hi]]; [discriminate|].
    rewrite lookup_empty in Hi. discriminate. }
  intros i j s t Hi Hj _ Hs Ht.
  rewrite (H i s Hi Hs), (H j t Hj Ht). reflexivity.
Qed.

(** C8, on the first generation of the start route
    (src/routes/examSessions.js, lines 85-176): the assignment [A1] has
    the open session [S1]; a further start request of its student is
    answered 201 and stores a second open session of [A1], so the
    invariant that held before is lost.  On the same request the second
    generation returns [S1] and writes nothing. *)
Theorem first_start_opens_second_session :
  one_open_session Sample.db0
  /\ db_sessions Sample.db0 !! Sample.S1 = Some Sample.session_open
  /\ db_sessions Sample.db0 !! Sample.N1 = None
  /\ (exists (body : ExamSessionsFirst.StartBody) (db' : DB),
        ExamSessionsFirst.start Sample.now0 Sample.N1 Sample.alice Sample.A1 Sample.db0
        = (Json 201 body, db')
        /\ ExamSessionsFirst.started body = Sample.N1
        /\ db_sessions db' !! Sample.S1 = Some Sample.session_open
        /\ db_sessions db' !! Sample.N1 = Some (new_session Sample.A1)
        /\ assignmentId Sample.session_open = assignmentId (new_session Sample.A1)
        /\ submittedAt Sample.session_open = None
        /\ submittedAt (new_session Sample.A1) = None
        /\ ~ one_open_session db')
  /\ ExamSessions.start Sample.now0 Sample.N1 Sample.alice Sample.A1 Sample.db0
     = (Json 200 Sample.S1, Sample.db0).
Proof.
  split; [exact sample_db_has_one_open_session|].
  split; [reflexivity|]. split; [reflexivity|]. split.
  - do 2 eexists. split; [reflexivity|]. split; [reflexivity|].
    assert (H1 : db_sessions
                   (save_session Sample.N1 (new_session Sample.A1) Sample.db0)
                 !! Sample.S1 = Some Sample.session_open) by reflexivity.
    assert (H2 : db_sessions
                   (save_session Sample.N1 (new_session Sample.A1) Sample.db0)
                 !! Sample.N1 = Some (new_session Sample.A1)) by reflexivity.
    split; [exact H1|]. split; [exact H2|]. do 3 (split; [reflexivity|]).
    intros Hinv.
    pose proof (Hinv _ _ _ _ H1 H2 eq_refl eq_refl eq_refl) as Heq.
    discriminate Heq.
  - apply (start_returns_open_session _ _ _ _ _ Sample.assignment1
             Sample.S1 Sample.session_open); try reflexivity.
    exact sample_db_has_one_open_session.
Qed.

(** * Further properties of the routes *)

(** ** Refused requests *)

Ltac walk_handler := repeat (case_match; simpl in *; try done).

(** X1. A request that the handler itself refuses with an error status
    leaves the database as it was: answer submission of both
    generations, bookmark, submit, resume, start of both generations
    and the deletion of an exam or of a question.  For bookmark,
    resume, the second-generation start and the two deletions the same
    holds of every request that is not answered with success, the
    [catch] branch included. *)
Theorem refused_requests_write_nothing
    (now : Z) (newId : string) (req : Caller)
    (sid qid aid eid : string) (submitted : option jsvalue) (db : DB) :
  ((if is_refusal (fst (SubmittedAnswers.post now newId req sid qid submitted db))
    then snd (SubmittedAnswers.post now newId req sid qid submitted db) = db
    else True)
   /\ (if is_refusal (fst (SubmittedAnswersFirst.post now newId req sid qid submitted db))
       then snd (SubmittedAnswersFirst.post now newId req sid qid submitted db) = db
       else True)
   /\ (if is_refusal (fst (ExamSessions.submit now req sid db))
       then snd (ExamSessions.submit now req sid db) = db else True)
   /\ (if is_refusal (fst (ExamSessionsFirst.start now newId req aid db))
       then snd (ExamSessionsFirst.start now newId req aid db) = db else True))
  /\ ((if is_success (fst (ExamSessions.bookmark req sid qid db))
       then True else snd (ExamSessions.bookmark req sid qid db) = db)
      /\ (if is_success (fst (ExamSessionsFirst.resume now req sid db))
          then True else snd (ExamSessionsFirst.resume now req sid db) = db)
      /\ (if is_success (fst (ExamSessions.start now newId req aid db))
          then True else snd (ExamSessions.start now newId req aid db) = db)
      /\ (if is_success (fst (Exams.delete req eid db))
          then True else snd (Exams.delete req eid db) = db)
      /\ (if is_success (fst (Questions.delete req qid db))
          then True else snd (Questions.delete req qid db) = db)).
Proof.
  split; [split; [|split; [|split]]|repeat split].
  - unfold SubmittedAnswers.post. walk_handler.
  - unfold SubmittedAnswersFirst.post. walk_handler.
  - unfold ExamSessions.submit. walk_handler.
  - unfold ExamSessionsFirst.start. walk_handler.
  - unfold ExamSessions.bookmark. walk_handler.
  - unfold ExamSessionsFirst.resume. walk_handler.
  - unfold ExamSessions.start. walk_handler.
  - unfold Exams.delete. walk_handler.
  - unfold Questions.delete. walk_handler.
Qed.

(** X2. Once [submittedAt] is set, every route that works on the
    session refuses the owner's (or an operator's) request with
    "Exam already submitted" and writes nothing: answer submission of
    both generations, bookmark, submit, resume, and also the read route
    of the last answer. *)
Theorem finalized_session_is_locked
    (now : Z) (newId : string) (req : Caller)
    (sid qid : string) (v : jsvalue) (db : DB) (session : ExamSession)
    (assignment : ExamAssignment) (t : timestamp) :
  present sid = true -> present qid = true ->
  db_sessions db !! sid = Some session ->
  db_assignments db !! assignmentId session = Some assignment ->
  ownership req (Some assignment) = Granted ->
  submittedAt session = Some t ->
  SubmittedAnswers.post now newId req sid qid (Some v) db
  = (Fail 400 "Exam already submitted", db)
  /\ SubmittedAnswersFirst.post now newId req sid qid (Some v) db
     = (Fail 400 "Exam already submitted", db)
  /\ ExamSessions.bookmark req sid qid db = (Fail 400 "Exam already submitted", db)
  /\ ExamSessions.submit now req sid db = (Fail 400 "Exam already submitted", db)
  /\ ExamSessionsFirst.resume now req sid db = (Fail 400 "Exam already submitted", db)
  /\ SubmittedAnswersRoutes.last_submitted req sid db
     = Fail 400 "Exam already submitted"
  /\ error_kind (Fail (A := unit) 400 "Exam already submitted") = Some Conflict.
Proof.
  intros Hsid Hqid Hs Ha Hown Hdone.
  unfold SubmittedAnswers.post, SubmittedAnswersFirst.post, ExamSessions.bookmark,
    ExamSessions.submit, ExamSessionsFirst.resume,
    SubmittedAnswersRoutes.last_submitted.
  rewrite Hsid, Hqid, Hs. simpl. rewrite Ha, Hown, Hdone. repeat split.
Qed.

Lemma finalized_session_is_locked_witness :
  present Sample.S2 = true /\ present Sample.Q1 = true
  /\ db_sessions Sample.db0 !! Sample.S2 = Some Sample.session_done
  /\ db_assignments Sample.db0 !! assignmentId Sample.session_done
     = Some Sample.assignment1
  /\ ownership Sample.alice (Some Sample.assignment1) = Granted
  /\ submittedAt Sample.session_done = Some (IsoString 1700000100000)
  /\ ExamSessions.bookmark Sample.alice Sample.S2 Sample.Q1 Sample.db0
     = (Fail 400 "Exam already submitted", Sample.db0).
Proof.
  do 6 (split; [reflexivity|]).
  exact (proj1 (proj2 (proj2
    (finalized_session_is_locked Sample.now0 Sample.N1
       Sample.alice Sample.S2 Sample.Q1 (Sample.num 100 "100") Sample.db0
       Sample.session_done Sample.assignment1 (IsoString 1700000100000)
       eq_refl eq_refl eq_refl eq_refl eq_refl eq_refl)))).
Defined.

(** ** What answer submission leaves alone *)

(** X3. Whatever the request and the reply, answer submission of
    either generation writes to no assignment (so never to an attempt
    counter), exam or question, and to no session but the one it
    names. *)
Theorem answer_submission_frame
    (now : Z) (newId : string) (req : Caller) (sid qid : string)
    (submitted : option jsvalue) (db : DB) :
  (db_assignments (snd (SubmittedAnswers.post now newId req sid qid submitted db))
   = db_assignments db
   /\ db_exams (snd (SubmittedAnswers.post now newId req sid qid submitted db))
      = db_exams db
   /\ db_questions (snd (SubmittedAnswers.post now newId req sid qid submitted db))
      = db_questions db
   /\ forall j, j <> sid ->
        db_sessions (snd (SubmittedAnswers.post now newId req sid qid submitted db)) !! j
        = db_sessions db !! j)
  /\ (db_assignments (snd (SubmittedAnswersFirst.post now newId req sid qid submitted db))
      = db_assignments db
      /\ db_exams (snd (SubmittedAnswersFirst.post now newId req sid qid submitted db))
         = db_exams db
      /\ db_questions (snd (SubmittedAnswersFirst.post now newId req sid qid submitted db))
         = db_questions db
      /\ forall j, j <> sid ->
           db_sessions
             (snd (SubmittedAnswersFirst.post now newId req sid qid submitted db)) !! j
           = db_sessions db !! j).
Proof.
  split.
  - unfold SubmittedAnswers.post. repeat case_match; simplify_eq; simpl.
    all: split; [reflexivity|]; split; [reflexivity|]; split; [reflexivity|].
    all: intros k Hk; simpl; rewrite ?lookup_insert_ne by done; reflexivity.
  - unfold SubmittedAnswersFirst.post. repeat case_match; simpl.
    all: split; [reflexivity|]; split; [reflexivity|]; split; [reflexivity|].
    all: intros k Hk; simpl; rewrite ?lookup_insert_ne by done; reflexivity.
Qed.

(** The submit route on an open session of the caller. *)
Lemma submit_run (nowMs : Z) (req : Caller) (sid : string) (db : DB)
    (session : ExamSession) (assignment : ExamAssignment) :
  db_sessions db !! sid = Some session ->
  db_assignments db !! assignmentId session = Some assignment ->
  ownership req (Some assignment) = Granted ->
  submittedAt session = None ->
  ExamSessions.submit nowMs req sid db
  = (Json 200 (IsoString nowMs),
     save_assignment (assignmentId session)
       (set_attemptsUsed (attemptsUsed assignment + 1) assignment)
       (save_session sid
          (set_timer false None None
             (set_submittedAt (Some (IsoString nowMs)) session)) db)).
Proof.
  intros Hs Ha Hown Hopen. unfold ExamSessions.submit.
  rewrite Hs. simpl. now rewrite Ha, Hown, Hopen.
Qed.

(** ** Recorded answers: one per pair *)

Section EligibleRequestInvariants.

Context (now : Z) (newId : string) (req : Caller) (sid qid : string)
        (v : jsvalue) (db : DB) (session : ExamSession)
        (assignment : ExamAssignment) (question : Question)
        (qs : list (string * Question)).

Hypothesis sid_present : present sid = true.
Hypothesis qid_present : present qid = true.
Hypothesis session_stored : db_sessions db !! sid = Some session.
Hypothesis assignment_stored :
  db_assignments db !! assignmentId session = Some assignment.
Hypothesis caller_granted : ownership req (Some assignment) = Granted.
Hypothesis session_open : submittedAt session = None.
Hypothesis question_stored : db_questions db !! qid = Some question.
Hypothesis exam_populated : exam_questions db (Some assignment) = Some qs.
Hypothesis question_in_exam : qid ∈ (fst <$> qs).
Hypothesis value_given : v <> JNull.

Ltac pass_guards handler :=
  unfold handler;
  rewrite sid_present, qid_present; simpl;
  rewrite session_stored; simpl;
  rewrite assignment_stored, caller_granted, session_open, question_stored,
    exam_populated, (includes_true _ _ question_in_exam); simpl;
  rewrite (required_given v value_given); simpl.

(** The answers that the second-generation handler leaves behind,
    whether or not the session is saved after the answer. *)
Lemma post_answers :
  db_answers (snd (SubmittedAnswers.post now newId req sid qid (Some v) db))
  = match answer_for sid qid db with
    | Some old =>
        SubmittedAnswers.update_answer
          {| answer_id := answer_id old; sessionId := sessionId old;
             questionId := questionId old; submittedValue := v;
             isCorrect := SubmittedAnswers.is_correct question v |}
          (db_answers db)
    | None =>
        (db_answers db
         ++ [{| answer_id := newId; sessionId := sid; questionId := qid;
                submittedValue := v;
                isCorrect := SubmittedAnswers.is_correct question v |}])%list
    end.
Proof.
  pass_guards SubmittedAnswers.post.
  destruct (answer_for sid qid db) as [old|]; simpl;
    repeat case_match; simplify_eq; reflexivity.
Qed.

(** The answers that the first-generation handler leaves behind. *)
Lemma post_first_answers :
  db_answers (snd (SubmittedAnswersFirst.post now newId req sid qid (Some v) db))
  = match answer_for sid qid db with
    | Some old => db_answers db
    | None =>
        (db_answers db
         ++ [{| answer_id := newId; sessionId := sid; questionId := qid;
                submittedValue := v;
                isCorrect := SubmittedAnswersFirst.is_correct question v |}])%list
    end.
Proof.
  unfold SubmittedAnswersFirst.post;
  rewrite sid_present, qid_present; simpl;
  rewrite session_stored; simpl;
  rewrite assignment_stored, caller_granted, session_open, question_stored,
    exam_populated, (includes_true _ _ question_in_exam); simpl.
  destruct (answer_for sid qid db) as [old|]; [reflexivity|].
  rewrite (required_given v value_given). simpl.
  repeat case_match; simplify_eq; reflexivity.
Qed.

Lemma appended_answers_wf (a : SubmittedAnswer) :
  answers_wf db ->
  answer_id a ∉ answer_id <$> db_answers db ->
  pair_of a ∉ pair_of <$> db_answers db ->
  NoDup (answer_id <$> (db_answers db ++ [a])%list)
  /\ NoDup (pair_of <$> (db_answers db ++ [a])%list).
Proof using Type.
  intros [Hids Hpairs] Hid Hpair. rewrite !fmap_app. simpl. split.
  - apply NoDup_app. split; [exact Hids|]. split; [|apply NoDup_singleton].
    intros x Hx Hx'. apply list_elem_of_singleton in Hx'. now subst.
  - apply NoDup_app. split; [exact Hpairs|]. split; [|apply NoDup_singleton].
    intros x Hx Hx'. apply list_elem_of_singleton in Hx'. now subst.
Qed.

(** X4. Answer submission keeps the answers well formed: when answer
    identifiers are distinct, each (session, question) pair has at most
    one answer and the new identifier is unused, the same holds after
    an eligible request with a value other than [null] to either
    generation, and after the second-generation handler the pair of the
    request has its answer: a resubmission replaces the stored answer
    and never adds a second one. *)
Theorem answer_submission_keeps_one_answer_per_pair :
  answers_wf db ->
  newId ∉ answer_id <$> db_answers db ->
  answers_wf (snd (SubmittedAnswers.post now newId req sid qid (Some v) db))
  /\ answers_wf (snd (SubmittedAnswersFirst.post now newId req sid qid (Some v) db))
  /\ (sid, qid)
     ∈ pair_of <$> db_answers
                     (snd (SubmittedAnswers.post now newId req sid qid (Some v) db))
  /\ (is_Some (answer_for sid qid db) ->
      length (db_answers
                (snd (SubmittedAnswers.post now newId req sid qid (Some v) db)))
      = length (db_answers db)).
Proof.
  intros Hwf Hfresh. unfold answers_wf.
  rewrite post_answers, post_first_answers.
  destruct (answer_for sid qid db) as [old|] eqn:Hprev.
  - destruct (answer_for_Some _ _ _ _ Hprev) as (Hin & Hs & Hq).
    destruct Hwf as [Hids Hpairs].
    rewrite update_answer_ids.
    rewrite (update_answer_pairs _ old) by (try reflexivity; assumption).
    split; [split; assumption|]. split; [split; assumption|]. split.
    + replace (sid, qid) with (pair_of old) by (unfold pair_of; congruence).
      now apply list_elem_of_fmap_2.
    + intros _. unfold SubmittedAnswers.update_answer. apply length_fmap.
  - pose proof (answer_for_None _ _ _ Hprev) as Hpair.
    split; [now apply appended_answers_wf|].
    split; [now apply appended_answers_wf|]. split.
    + rewrite fmap_app. apply elem_of_app. right. apply list_elem_of_here.
    + intros [x Hx]. discriminate.
Qed.

(** After the second-generation handler the session has a last answer,
    and that answer refers to a stored question when the answers of the
    session did before. *)
Lemma post_last_answer (db' : DB) :
  db_answers db'
  = match answer_for sid qid db with
    | Some old =>
        SubmittedAnswers.update_answer
          {| answer_id := answer_id old; sessionId := sessionId old;
             questionId := questionId old; submittedValue := v;
             isCorrect := SubmittedAnswers.is_correct question v |}
          (db_answers db)
    | None =>
        (db_answers db
         ++ [{| answer_id := newId; sessionId := sid; questionId := qid;
                submittedValue := v;
                isCorrect := SubmittedAnswers.is_correct question v |}])%list
    end ->
  (forall a, a ∈ db_answers db -> sessionId a = sid ->
             is_Some (db_questions db !! questionId a)) ->
  exists a : SubmittedAnswer,
    SubmittedAnswersRoutes.last_answer sid db' = Some a
    /\ is_Some (db_questions db !! questionId a).
Proof using question_stored.
  intros Hans Hrefs. unfold SubmittedAnswersRoutes.last_answer, answers_of.
  rewrite Hans.
  assert (Hlast : forall l : list SubmittedAnswer,
             (exists a, a ∈ l /\ sessionId a = sid) ->
             (forall a, a ∈ l -> sessionId a = sid ->
                        is_Some (db_questions db !! questionId a)) ->
             exists a,
               last (List.filter (fun b => String.eqb (sessionId b) sid) l) = Some a
               /\ is_Some (db_questions db !! questionId a)).
  { intros l (a0 & Hin0 & Hs0) Hall.
    destruct (last (List.filter (fun b => String.eqb (sessionId b) sid) l))
      as [a|] eqn:E.
    - exists a. split; [reflexivity|].
      apply last_Some in E as (l' & E).
      assert (Hin : In a (List.filter (fun b => String.eqb (sessionId b) sid) l)).
      { rewrite E. apply in_or_app. right. now left. }
      apply List.filter_In in Hin as [Hin Hsid].
      apply String.eqb_eq in Hsid. apply Hall; [now apply list_elem_of_In|exact Hsid].
    - apply last_None in E. exfalso.
      assert (Hin : In a0 (List.filter (fun b => String.eqb (sessionId b) sid) l)).
      { apply List.filter_In. split; [now apply list_elem_of_In|].
        now apply String.eqb_eq. }
      rewrite E in Hin. inversion Hin. }
  assert (Hq : is_Some (db_questions db !! qid)) by (rewrite question_stored; eauto).
  destruct (answer_for sid qid db) as [old|] eqn:Hprev.
  - destruct (answer_for_Some _ _ _ _ Hprev) as (Hin & Hs & Hqo).
    apply Hlast.
    + eexists. split; [|].
      * unfold SubmittedAnswers.update_answer.
        apply list_elem_of_fmap. exists old. split; [|exact Hin]. simpl.
        rewrite String.eqb_refl. reflexivity.
      * exact Hs.
    + intros a Ha Hsa. unfold SubmittedAnswers.update_answer in Ha.
      apply list_elem_of_fmap in Ha as (b & -> & Hb). simpl in *.
      destruct (String.eqb (answer_id b) (answer_id old)); simpl in *.
      * now rewrite Hqo.
      * now apply Hrefs.
  - apply Hlast.
    + eexists. split; [apply elem_of_app; right; apply list_elem_of_here|reflexivity].
    + intros a Ha Hsa. apply elem_of_app in Ha as [Ha|Ha]; [now apply Hrefs|].
      apply list_elem_of_singleton in Ha. now subst.
Qed.

(** X6. After an accepted answer the last-answer route answers 200 for
    the same caller and reports the sequencing of the reply to the
    submission: the same next-question index and question, total,
    answered count, completion flags and running grade, together with
    a last answer.  The answers of the session are taken to refer to
    stored questions, which the route reads for the last answer; the
    submitted value is not [null] and the grade to store is a number,
    so that the submission is accepted. *)
Theorem last_answer_route_mirrors_submission :
  PrimFloat.is_nan
    (grade_after (grade session) (isCorrect <$> answer_for sid qid db)
       (SubmittedAnswers.is_correct question v) (marks question)) = false ->
  (forall a, a ∈ db_answers db -> sessionId a = sid ->
             is_Some (db_questions db !! questionId a)) ->
  exists (body : AnswerBody) (db' : DB) (lb : SubmittedAnswersRoutes.LastBody),
    SubmittedAnswers.post now newId req sid qid (Some v) db = (Json 200 body, db')
    /\ SubmittedAnswersRoutes.last_submitted req sid db' = Json 200 lb
    /\ is_Some (SubmittedAnswersRoutes.answer lb)
    /\ SubmittedAnswersRoutes.last_nextQuestionIndex lb = nextQuestionIndex body
    /\ SubmittedAnswersRoutes.last_nextQuestion lb = nextQuestion body
    /\ SubmittedAnswersRoutes.last_totalQuestions lb = totalQuestions body
    /\ SubmittedAnswersRoutes.last_answeredCount lb = answeredCount body
    /\ SubmittedAnswersRoutes.last_isLastQuestion lb = isLastQuestion body
    /\ SubmittedAnswersRoutes.last_examCompleted lb = examCompleted body
    /\ SubmittedAnswersRoutes.last_currentGrade lb = currentGrade body.
Proof using sid_present qid_present session_stored assignment_stored
  caller_granted session_open question_stored exam_populated question_in_exam
  value_given.
  intros Hnum Hrefs.
  destruct (post_run now newId req sid qid v db session assignment question qs
              sid_present qid_present session_stored assignment_stored
              caller_granted session_open question_stored exam_populated
              question_in_exam value_given Hnum)
    as (body & db' & session' & Hpost & Hs' & _ & Hopen' & Hasg & _ & Hgrade
        & Hidx & Hnext & Hdone & Hlastq & Htot & Hcount & Hans & Harest
        & Herest & Hqrest).
  destruct (post_last_answer db' Hans Hrefs) as (a & Hlast & [q Hq]).
  assert (Hqs : exam_questions db' (Some assignment) = Some qs).
  { rewrite <- exam_populated. unfold exam_questions, populate_questions. simpl.
    rewrite Herest, Hqrest. reflexivity. }
  exists body, db'.
  cut (exists lb : SubmittedAnswersRoutes.LastBody,
          SubmittedAnswersRoutes.last_submitted req sid db' = Json 200 lb
          /\ is_Some (SubmittedAnswersRoutes.answer lb)
          /\ SubmittedAnswersRoutes.last_nextQuestionIndex lb = nextQuestionIndex body
          /\ SubmittedAnswersRoutes.last_nextQuestion lb = nextQuestion body
          /\ SubmittedAnswersRoutes.last_totalQuestions lb = totalQuestions body
          /\ SubmittedAnswersRoutes.last_answeredCount lb = answeredCount body
          /\ SubmittedAnswersRoutes.last_isLastQuestion lb = isLastQuestion body
          /\ SubmittedAnswersRoutes.last_examCompleted lb = examCompleted body
          /\ SubmittedAnswersRoutes.last_currentGrade lb = currentGrade body).
  { intros (lb & Hlb). exists lb. split; [exact Hpost|exact Hlb]. }
  clear Hpost.
  unfold SubmittedAnswersRoutes.last_submitted.
  rewrite Hs'. cbn zeta. rewrite Hasg, Harest, assignment_stored, caller_granted,
    Hopen', Hlast, Hqs, Hqrest, Hq.
  rewrite Hnext, Htot, Hcount, Hlastq, Hdone, Hgrade, Hidx.
  destruct (isCorrect a); simpl;
    (eexists; split; [reflexivity|]; simpl;
     repeat (split; [first [reflexivity | eauto]|]); reflexivity).
Qed.

End EligibleRequestInvariants.

Lemma sample_answers_wf : answers_wf Sample.db1.
Proof.
  split; simpl; (apply NoDup_cons; split; [apply not_elem_of_nil|apply NoDup_nil_2]).
Qed.

Lemma sample_fresh_answer_id :
  Sample.N2 ∉ answer_id <$> db_answers Sample.db1.
Proof.
  simpl. intros H. apply list_elem_of_singleton in H. discriminate.
Qed.

Lemma answer_submission_keeps_one_answer_per_pair_witness :
  present Sample.S1 = true /\ present Sample.Q1 = true
  /\ db_sessions Sample.db1 !! Sample.S1 = Some Sample.session_answered
  /\ db_assignments Sample.db1 !! assignmentId Sample.session_answered
     = Some Sample.assignment1
  /\ ownership Sample.alice (Some Sample.assignment1) = Granted
  /\ submittedAt Sample.session_answered = None
  /\ db_questions Sample.db1 !! Sample.Q1 = Some Sample.q_short
  /\ exam_questions Sample.db1 (Some Sample.assignment1) = Some Sample.questions1
  /\ Sample.Q1 ∈ (fst <$> Sample.questions1)
  /\ Sample.num 90 "90" <> JNull
  /\ answers_wf Sample.db1
  /\ (Sample.N2 ∉ answer_id <$> db_answers Sample.db1)
  /\ answers_wf
       (snd (SubmittedAnswers.post Sample.now0 Sample.N2 Sample.alice Sample.S1
               Sample.Q1 (Some (Sample.num 90 "90")) Sample.db1)).
Proof.
  assert (Hq : Sample.Q1 ∈ (fst <$> Sample.questions1)) by apply list_elem_of_here.
  assert (Hv : Sample.num 90 "90" <> JNull) by discriminate.
  do 8 (split; [reflexivity|]). split; [exact Hq|]. split; [exact Hv|].
  split; [exact sample_answers_wf|]. split; [exact sample_fresh_answer_id|].
  exact (proj1 (answer_submission_keeps_one_answer_per_pair
                  Sample.now0 Sample.N2 Sample.alice Sample.S1 Sample.Q1
                  (Sample.num 90 "90") Sample.db1 Sample.session_answered
                  Sample.assignment1 Sample.q_short Sample.questions1
                  eq_refl eq_refl eq_refl eq_refl eq_refl eq_refl eq_refl eq_refl Hq
                  Hv sample_answers_wf sample_fresh_answer_id)).
Defined.

Lemma last_answer_route_mirrors_submission_witness :
  present Sample.S1 = true /\ present Sample.Q1 = true
  /\ db_sessions Sample.db1 !! Sample.S1 = Some Sample.session_answered
  /\ db_assignments Sample.db1 !! assignmentId Sample.session_answered
     = Some Sample.assignment1
  /\ ownership Sample.alice (Some Sample.assignment1) = Granted
  /\ submittedAt Sample.session_answered = None
  /\ db_questions Sample.db1 !! Sample.Q1 = Some Sample.q_short
  /\ exam_questions Sample.db1 (Some Sample.assignment1) = Some Sample.questions1
  /\ Sample.Q1 ∈ (fst <$> Sample.questions1)
  /\ Sample.num 90 "90" <> JNull
  /\ PrimFloat.is_nan
       (grade_after (grade Sample.session_answered)
          (isCorrect <$> answer_for Sample.S1 Sample.Q1 Sample.db1)
          (SubmittedAnswers.is_correct Sample.q_short (Sample.num 90 "90"))
          (marks Sample.q_short)) = false
  /\ (forall a, a ∈ db_answers Sample.db1 -> sessionId a = Sample.S1 ->
                is_Some (db_questions Sample.db1 !! questionId a))
  /\ exists (body : AnswerBody) (db' : DB) (lb : SubmittedAnswersRoutes.LastBody),
      SubmittedAnswers.post Sample.now0 Sample.N2 Sample.alice Sample.S1 Sample.Q1
        (Some (Sample.num 90 "90")) Sample.db1 = (Json 200 body, db')
      /\ SubmittedAnswersRoutes.last_submitted Sample.alice Sample.S1 db'
         = Json 200 lb
      /\ is_Some (SubmittedAnswersRoutes.answer lb)
      /\ SubmittedAnswersRoutes.last_nextQuestionIndex lb = nextQuestionIndex body
      /\ SubmittedAnswersRoutes.last_nextQuestion lb = nextQuestion body
      /\ SubmittedAnswersRoutes.last_totalQuestions lb = totalQuestions body
      /\ SubmittedAnswersRoutes.last_answeredCount lb = answeredCount body
      /\ SubmittedAnswersRoutes.last_isLastQuestion lb = isLastQuestion body
      /\ SubmittedAnswersRoutes.last_examCompleted lb = examCompleted body
      /\ SubmittedAnswersRoutes.last_currentGrade lb = currentGrade body.
Proof.
  assert (Hq : Sample.Q1 ∈ (fst <$> Sample.questions1)) by apply list_elem_of_here.
  assert (Hv : Sample.num 90 "90" <> JNull) by discriminate.
  assert (Hrefs : forall a, a ∈ db_answers Sample.db1 -> sessionId a = Sample.S1 ->
                            is_Some (db_questions Sample.db1 !! questionId a)).
  { intros a Ha _. apply list_elem_of_singleton in Ha. subst a.
    exists Sample.q_short. reflexivity. }
  do 8 (split; [reflexivity|]). split; [exact Hq|]. split; [exact Hv|].
  split; [reflexivity|]. split; [exact Hrefs|].
  exact (last_answer_route_mirrors_submission
           Sample.now0 Sample.N2 Sample.alice Sample.S1 Sample.Q1
           (Sample.num 90 "90") Sample.db1 Sample.session_answered
           Sample.assignment1 Sample.q_short Sample.questions1
           eq_refl eq_refl eq_refl eq_refl eq_refl eq_refl eq_refl eq_refl Hq
           Hv eq_refl Hrefs).
Defined.

(** ** Finalization, attempts and starting again *)

Lemma post_assignments_unchanged
    (now : Z) (newId : string) (req : Caller) (sid qid : string)
    (submitted : option jsvalue) (db : DB) :
  db_assignments (snd (SubmittedAnswers.post now newId req sid qid submitted db))
  = db_assignments db.
Proof.
  unfold SubmittedAnswers.post. repeat case_match; simplify_eq; reflexivity.
Qed.

(** X7. The first-generation answer handler finalizes the session
    exactly with the answer that leaves no question of the exam
    unanswered: the reply says the exam is completed exactly when
    every question is the one of the request or has a recorded answer,
    and [submittedAt] is set exactly then.  The handler does so without
    writing to the assignment, and from then on the submit route
    refuses the session, so the attempt counter is never increased for
    a session finalized this way.  (A first answer with a value other
    than [null], and a grade to store that is a number.) *)
Theorem automatic_finalization_consumes_no_attempt
    (now now' : Z) (newId : string) (req : Caller) (sid qid : string)
    (v : jsvalue) (db : DB) (session : ExamSession) (assignment : ExamAssignment)
    (question : Question) (qs : list (string * Question)) :
  present sid = true -> present qid = true ->
  db_sessions db !! sid = Some session ->
  db_assignments db !! assignmentId session = Some assignment ->
  ownership req (Some assignment) = Granted ->
  submittedAt session = None ->
  db_questions db !! qid = Some question ->
  exam_questions db (Some assignment) = Some qs ->
  qid ∈ (fst <$> qs) ->
  v <> JNull ->
  answer_for sid qid db = None ->
  PrimFloat.is_nan
    (grade_after (grade session) None
       (SubmittedAnswersFirst.is_correct question v) (marks question)) = false ->
  exists (body : AnswerBody) (db' : DB) (session' : ExamSession),
    SubmittedAnswersFirst.post now newId req sid qid (Some v) db = (Json 201 body, db')
    /\ db_sessions db' !! sid = Some session'
    /\ db_assignments db' = db_assignments db
    /\ (examCompleted body = true
        <-> forall q, q ∈ qs -> fst q = qid \/ answered sid db (fst q))
    /\ (if examCompleted body
        then submittedAt session' = Some (EpochSeconds (now / 1000))
             /\ ExamSessions.submit now' req sid db'
                = (Fail 400 "Exam already submitted", db')
        else submittedAt session' = None).
Proof.
  intros Hsid Hqid Hs Ha Hown Hopen Hq Hqs Hin Hv Hprev Hnum.
  destruct (post_first_run now newId req sid qid v db session assignment question qs
              Hsid Hqid Hs Ha Hown Hopen Hq Hqs Hin Hv Hprev Hnum)
    as (body & db' & session' & Hrun & Hs' & _ & _ & _ & Hidx & _ & Hc & _ & _
        & Hsub & Hs'a & Hans & Hasg).
  exists body, db', session'. split; [exact Hrun|]. split; [exact Hs'|].
  split; [exact Hasg|].
  pose proof (next_index_first_unanswered qs sid db') as Hfirst.
  rewrite <- Hidx in Hfirst. rewrite Hc. split.
  - destruct (nextQuestionIndex body) as [i|]; simpl in Hfirst |- *.
    + split; [intros H; first [discriminate H | apply bool_decide_eq_true in H; discriminate]|].
      intros Hall. destruct Hfirst as (q & Hqi & Hnot & _). exfalso. apply Hnot.
      apply (answered_appended sid qid db db' _ (fst q) Hans); [reflexivity|].
      apply Hall. now apply list_elem_of_lookup_2 in Hqi.
    + split; [|intros _; first [reflexivity | now apply bool_decide_eq_true]].
      intros _ q Hqq.
      now apply (answered_appended sid qid db db' _ (fst q) Hans), Hfirst.
  - destruct (nextQuestionIndex body) as [i|]; simpl; [exact Hsub|].
    split; [exact Hsub|].
    apply (submit_finalized now' req sid db' session' assignment
             (EpochSeconds (now / 1000))); [exact Hs'| |exact Hown|exact Hsub].
    now rewrite Hasg, Hs'a.
Qed.

Lemma automatic_finalization_consumes_no_attempt_witness :
  present Sample.S1 = true /\ present Sample.Q2 = true
  /\ db_sessions Sample.db1 !! Sample.S1 = Some Sample.session_answered
  /\ db_assignments Sample.db1 !! assignmentId Sample.session_answered
     = Some Sample.assignment1
  /\ ownership Sample.alice (Some Sample.assignment1) = Granted
  /\ submittedAt Sample.session_answered = None
  /\ db_questions Sample.db1 !! Sample.Q2 = Some Sample.q_mcq
  /\ exam_questions Sample.db1 (Some Sample.assignment1) = Some Sample.questions1
  /\ Sample.Q2 ∈ (fst <$> Sample.questions1)
  /\ Sample.num 2 "B" <> JNull
  /\ answer_for Sample.S1 Sample.Q2 Sample.db1 = None
  /\ PrimFloat.is_nan
       (grade_after (grade Sample.session_answered) None
          (SubmittedAnswersFirst.is_correct Sample.q_mcq (Sample.num 2 "B"))
          (marks Sample.q_mcq)) = false
  /\ exists (body : AnswerBody) (db' : DB) (session' : ExamSession),
      SubmittedAnswersFirst.post Sample.now0 Sample.N2 Sample.alice Sample.S1
        Sample.Q2 (Some (Sample.num 2 "B")) Sample.db1 = (Json 201 body, db')
      /\ db_sessions db' !! Sample.S1 = Some session'
      /\ db_assignments db' = db_assignments Sample.db1
      /\ (examCompleted body = true
          <-> forall q, q ∈ Sample.questions1 ->
                        fst q = Sample.Q2 \/ answered Sample.S1 Sample.db1 (fst q))
      /\ (if examCompleted body
          then submittedAt session' = Some (EpochSeconds (Sample.now0 / 1000))
               /\ ExamSessions.submit (Sample.now0 + 1000) Sample.alice Sample.S1 db'
                  = (Fail 400 "Exam already submitted", db')
          else submittedAt session' = None).
Proof.
  assert (Hq : Sample.Q2 ∈ (fst <$> Sample.questions1))
    by (apply list_elem_of_further, list_elem_of_here).
  assert (Hv : Sample.num 2 "B" <> JNull) by discriminate.
  do 8 (split; [reflexivity|]). split; [exact Hq|]. split; [exact Hv|].
  split; [reflexivity|]. split; [reflexivity|].
  exact (automatic_finalization_consumes_no_attempt
           Sample.now0 (Sample.now0 + 1000) Sample.N2 Sample.alice Sample.S1
           Sample.Q2 (Sample.num 2 "B") Sample.db1 Sample.session_answered
           Sample.assignment1 Sample.q_mcq Sample.questions1
           eq_refl eq_refl eq_refl eq_refl eq_refl eq_refl eq_refl eq_refl Hq
           Hv eq_refl eq_refl).
Defined.

(** X8. The second-generation answer handler never finalizes: after
    an accepted answer the session is still open, also when the reply
    says the exam is completed, and a submit call that follows is
    accepted and adds one to [attemptsUsed] of the assignment.  (A
    value other than [null], and a grade to store that is a number,
    so that the answer is accepted.) *)
Theorem completed_session_still_needs_submit
    (now now' : Z) (newId : string) (req : Caller) (sid qid : string)
    (v : jsvalue) (db : DB) (session : ExamSession) (assignment : ExamAssignment)
    (question : Question) (qs : list (string * Question)) :
  present sid = true -> present qid = true ->
  db_sessions db !! sid = Some session ->
  db_assignments db !! assignmentId session = Some assignment ->
  ownership req (Some assignment) = Granted ->
  submittedAt session = None ->
  db_questions db !! qid = Some question ->
  exam_questions db (Some assignment) = Some qs ->
  qid ∈ (fst <$> qs) ->
  v <> JNull ->
  PrimFloat.is_nan
    (grade_after (grade session) (isCorrect <$> answer_for sid qid db)
       (SubmittedAnswers.is_correct question v) (marks question)) = false ->
  exists (body : AnswerBody) (db' db'' : DB) (session' : ExamSession)
         (assignment' : ExamAssignment),
    SubmittedAnswers.post now newId req sid qid (Some v) db = (Json 200 body, db')
    /\ db_sessions db' !! sid = Some session'
    /\ submittedAt session' = None
    /\ ExamSessions.submit now' req sid db' = (Json 200 (IsoString now'), db'')
    /\ db_assignments db'' !! assignmentId session = Some assignment'
    /\ attemptsUsed assignment' = (attemptsUsed assignment + 1)%Z.
Proof.
  intros Hsid Hqid Hs Ha Hown Hopen Hq Hqs Hin Hv Hnum.
  destruct (post_run now newId req sid qid v db session assignment question qs
              Hsid Hqid Hs Ha Hown Hopen Hq Hqs Hin Hv Hnum)
    as (body & db' & session' & Hrun & Hs' & _ & Hopen' & Hs'a & _ & _ & _ & _
        & _ & _ & _ & _ & _ & Hasg & _).
  assert (Ha' : db_assignments db' !! assignmentId session' = Some assignment)
    by now rewrite Hasg, Hs'a.
  exists body, db'. eexists. exists session'. eexists.
  split; [exact Hrun|]. split; [exact Hs'|]. split; [exact Hopen'|].
  split; [exact (submit_run now' req sid db' session' assignment Hs' Ha' Hown Hopen')|].
  simpl. rewrite Hs'a, lookup_insert_eq. split; reflexivity.
Qed.

Lemma completed_session_still_needs_submit_witness :
  present Sample.S1 = true /\ present Sample.Q2 = true
  /\ db_sessions Sample.db1 !! Sample.S1 = Some Sample.session_answered
  /\ db_assignments Sample.db1 !! assignmentId Sample.session_answered
     = Some Sample.assignment1
  /\ ownership Sample.alice (Some Sample.assignment1) = Granted
  /\ submittedAt Sample.session_answered = None
  /\ db_questions Sample.db1 !! Sample.Q2 = Some Sample.q_mcq
  /\ exam_questions Sample.db1 (Some Sample.assignment1) = Some Sample.questions1
  /\ Sample.Q2 ∈ (fst <$> Sample.questions1)
  /\ Sample.num 2 "B" <> JNull
  /\ PrimFloat.is_nan
       (grade_after (grade Sample.session_answered)
          (isCorrect <$> answer_for Sample.S1 Sample.Q2 Sample.db1)
          (SubmittedAnswers.is_correct Sample.q_mcq (Sample.num 2 "B"))
          (marks Sample.q_mcq)) = false
  /\ exists (body : AnswerBody) (db' db'' : DB) (session' : ExamSession)
            (assignment' : ExamAssignment),
      SubmittedAnswers.post Sample.now0 Sample.N2 Sample.alice Sample.S1
        Sample.Q2 (Some (Sample.num 2 "B")) Sample.db1 = (Json 200 body, db')
      /\ db_sessions db' !! Sample.S1 = Some session'
      /\ submittedAt session' = None
      /\ ExamSessions.submit (Sample.now0 + 1000) Sample.alice Sample.S1 db'
         = (Json 200 (IsoString (Sample.now0 + 1000)), db'')
      /\ db_assignments db'' !! assignmentId Sample.session_answered
         = Some assignment'
      /\ attemptsUsed assignment' = (attemptsUsed Sample.assignment1 + 1)%Z.
Proof.
  assert (Hq : Sample.Q2 ∈ (fst <$> Sample.questions1))
    by (apply list_elem_of_further, list_elem_of_here).
  assert (Hv : Sample.num 2 "B" <> JNull) by discriminate.
  do 8 (split; [reflexivity|]). split; [exact Hq|]. split; [exact Hv|].
  split; [reflexivity|].
  exact (completed_session_still_needs_submit
           Sample.now0 (Sample.now0 + 1000) Sample.N2 Sample.alice Sample.S1
           Sample.Q2 (Sample.num 2 "B") Sample.db1 Sample.session_answered
           Sample.assignment1 Sample.q_mcq Sample.questions1
           eq_refl eq_refl eq_refl eq_refl eq_refl eq_refl eq_refl eq_refl Hq
           Hv eq_refl).
Defined.

(** X25. The submit route stores the session as submitted before it
    touches the assignment.  For an operator and an open session whose
    assignment has been deleted, the request ends in the [catch]
    branch (500) with the session finalized and its timer fields
    cleared; no assignment is written, and a second submit call is
    refused with "Exam already submitted". *)
Theorem submit_fails_after_finalizing (now now' : Z) (req : Caller) (sid : string)
    (db : DB) (session : ExamSession) :
  role req = admin ->
  db_sessions db !! sid = Some session ->
  db_assignments db !! assignmentId session = None ->
  submittedAt session = None ->
  exists (db' : DB) (session' : ExamSession),
    ExamSessions.submit now req sid db = (Thrown, db')
    /\ db_sessions db' !! sid = Some session'
    /\ submittedAt session' = Some (IsoString now)
    /\ isRunning session' = false /\ runAt session' = None /\ pausedAt session' = None
    /\ db_assignments db' = db_assignments db
    /\ ExamSessions.submit now' req sid db'
       = (Fail 400 "Exam already submitted", db').
Proof.
  intros Hrole Hs Ha Hopen. unfold ExamSessions.submit at 1.
  rewrite Hs. simpl. rewrite Ha. unfold ownership. rewrite Hrole, Hopen.
  do 2 eexists. split; [reflexivity|]. simpl.
  split; [apply lookup_insert_eq|]. do 5 (split; [reflexivity|]).
  unfold ExamSessions.submit. simpl. rewrite lookup_insert_eq. simpl.
  unfold ownership. rewrite Hrole. reflexivity.
Qed.

Lemma submit_fails_after_finalizing_witness :
  role Staff.bob = admin
  /\ db_sessions Orphan.db !! Orphan.S4 = Some Orphan.session
  /\ db_assignments Orphan.db !! assignmentId Orphan.session = None
  /\ submittedAt Orphan.session = None
  /\ exists (db' : DB) (session' : ExamSession),
      ExamSessions.submit Sample.now0 Staff.bob Orphan.S4 Orphan.db = (Thrown, db')
      /\ db_sessions db' !! Orphan.S4 = Some session'
      /\ submittedAt session' = Some (IsoString Sample.now0)
      /\ ExamSessions.submit (Sample.now0 + 1000) Staff.bob Orphan.S4 db'
         = (Fail 400 "Exam already submitted", db').
Proof.
  do 4 (split; [reflexivity|]).
  destruct (submit_fails_after_finalizing Sample.now0 (Sample.now0 + 1000)
              Staff.bob Orphan.S4 Orphan.db Orphan.session
              eq_refl eq_refl eq_refl eq_refl)
    as (db' & session' & Hrun & Hs' & Hsub & _ & _ & _ & _ & Hagain).
  exists db', session'. auto.
Defined.

Lemma find_open_None_intro (aid : string) (db : DB) :
  (forall i s, db_sessions db !! i = Some s -> assignmentId s = aid ->
               submittedAt s <> None) ->
  ExamSessions.find_open aid db = None.
Proof.
  intros H. destruct (ExamSessions.find_open aid db) as [[i s]|] eqn:E; [|reflexivity].
  apply find_open_Some in E as (Hs & Ha & Hopen). now destruct (H i s Hs Ha).
Qed.

(** X9. Starting twice gives one session: for an eligible assignment
    without an open session, the second-generation start route creates
    a session and answers 201 with its identifier; a second start
    request, while the assignment is still eligible, answers 200 with
    the same identifier and writes nothing. *)
Theorem starting_twice_returns_the_same_session
    (now now' : Z) (newId newId' : string) (req : Caller) (aid : string)
    (db : DB) (assignment : ExamAssignment) :
  present aid = true ->
  db_assignments db !! aid = Some assignment ->
  start_refusal (A := string) now req assignment = None ->
  start_refusal (A := string) now' req assignment = None ->
  db_sessions db !! newId = None ->
  one_open_session db ->
  (forall i s, db_sessions db !! i = Some s -> assignmentId s = aid ->
               submittedAt s <> None) ->
  ExamSessions.start now newId req aid db
  = (Json 201 newId, save_session newId (new_session aid) db)
  /\ ExamSessions.start now' newId' req aid
       (save_session newId (new_session aid) db)
     = (Json 200 newId, save_session newId (new_session aid) db).
Proof.
  intros Haid Ha Hok Hok' Hfresh Hinv Hnone.
  assert (Hfirst : ExamSessions.start now newId req aid db
                   = (Json 201 newId, save_session newId (new_session aid) db)).
  { unfold ExamSessions.start.
    now rewrite Haid, Ha, Hok, (find_open_None_intro aid db Hnone). }
  split; [exact Hfirst|].
  apply (start_returns_open_session now' newId' req aid _ assignment newId
           (new_session aid)); try done.
  - pose proof (start_keeps_one_open_session now newId req aid db Hfresh Hinv) as H.
    now rewrite Hfirst in H.
  - simpl. apply lookup_insert_eq.
Qed.

Lemma starting_twice_returns_the_same_session_witness :
  present Sample.A2 = true
  /\ db_assignments Sample.db0 !! Sample.A2 = Some Sample.assignment2
  /\ start_refusal (A := string) Sample.now0 Sample.alice Sample.assignment2 = None
  /\ db_sessions Sample.db0 !! Sample.N1 = None
  /\ one_open_session Sample.db0
  /\ ExamSessions.start (Sample.now0 + 5000) Sample.N2 Sample.alice Sample.A2
       (save_session Sample.N1 (new_session Sample.A2) Sample.db0)
     = (Json 200 Sample.N1, save_session Sample.N1 (new_session Sample.A2) Sample.db0).
Proof.
  do 4 (split; [reflexivity|]). split; [exact sample_db_has_one_open_session|].
  refine (proj2 (starting_twice_returns_the_same_session
                   Sample.now0 (Sample.now0 + 5000) Sample.N1 Sample.N2 Sample.alice
                   Sample.A2 Sample.db0 Sample.assignment2
                   eq_refl eq_refl eq_refl eq_refl eq_refl
                   sample_db_has_one_open_session _)).
  intros i s Hi Ha Hopen. unfold Sample.db0 in Hi. simpl in Hi.
  apply lookup_insert_Some in Hi as [[_ <-]|[_ Hi]]; [discriminate|].
  apply lookup_insert_Some in Hi as [[_ <-]|[_ Hi]]; [discriminate|].
  apply lookup_insert_Some in Hi as [[_ <-]|[_ Hi]]; [discriminate|].
  rewrite lookup_empty in Hi. discriminate.
Defined.

Lemma granted_passes_ownership_of_start {A : Type} (now : Z) (req : Caller)
    (a : ExamAssignment) :
  ownership req (Some a) = Granted ->
  start_refusal (A := A) now req a
  = if negb (is_active a) then Some (Fail 400 "Assignment is not active")
    else if (allowedAttempts a <=? attemptsUsed a)%Z
    then Some (Fail 400 "No attempts remaining")
    else if outside_window (now / 1000) a
    then Some (Fail 400 "Exam not available at this time")
    else None.
Proof.
  unfold ownership, start_refusal.
  destruct (role req); [reflexivity|].
  destruct (String.eqb (studentId a) (userId req)); [reflexivity|discriminate].
Qed.

(** X10. The last attempt: when an open session of an active assignment
    is submitted and the counter thereby reaches the allowed number of
    attempts, a start request for the assignment is refused with
    "No attempts remaining" by both generations of the start route,
    and nothing is written. *)
Theorem no_start_after_the_last_attempt
    (now now' : Z) (newId : string) (req : Caller) (sid : string) (db : DB)
    (session : ExamSession) (assignment : ExamAssignment) :
  db_sessions db !! sid = Some session ->
  db_assignments db !! assignmentId session = Some assignment ->
  ownership req (Some assignment) = Granted ->
  submittedAt session = None ->
  present (assignmentId session) = true ->
  is_active assignment = true ->
  (allowedAttempts assignment <= attemptsUsed assignment + 1)%Z ->
  exists db' : DB,
    ExamSessions.submit now req sid db = (Json 200 (IsoString now), db')
    /\ ExamSessions.start now' newId req (assignmentId session) db'
       = (Fail 400 "No attempts remaining", db')
    /\ ExamSessionsFirst.start now' newId req (assignmentId session) db'
       = (Fail 400 "No attempts remaining", db').
Proof.
  intros Hs Ha Hown Hopen Haid Hact Hlast.
  eexists. split; [exact (submit_run now req sid db session assignment Hs Ha Hown Hopen)|].
  unfold ExamSessions.start, ExamSessionsFirst.start. rewrite Haid. simpl.
  rewrite lookup_insert_eq.
  rewrite !granted_passes_ownership_of_start
    by (rewrite ownership_set_attemptsUsed; exact Hown).
  change (is_active (set_attemptsUsed (attemptsUsed assignment + 1) assignment))
    with (is_active assignment).
  rewrite Hact. simpl.
  assert (Hle : (allowedAttempts assignment <=? attemptsUsed assignment + 1)%Z = true)
    by now apply Z.leb_le.
  rewrite Hle. split; reflexivity.
Qed.

Lemma no_start_after_the_last_attempt_witness :
  db_sessions Sample.db0 !! Sample.S1 = Some Sample.session_open
  /\ db_assignments Sample.db0 !! assignmentId Sample.session_open
     = Some Sample.assignment1
  /\ ownership Sample.alice (Some Sample.assignment1) = Granted
  /\ submittedAt Sample.session_open = None
  /\ present (assignmentId Sample.session_open) = true
  /\ is_active Sample.assignment1 = true
  /\ (allowedAttempts Sample.assignment1 <= attemptsUsed Sample.assignment1 + 1)%Z
  /\ exists db' : DB,
      ExamSessions.submit Sample.now0 Sample.alice Sample.S1 Sample.db0
      = (Json 200 (IsoString Sample.now0), db')
      /\ ExamSessions.start (Sample.now0 + 1) Sample.N1 Sample.alice Sample.A1 db'
         = (Fail 400 "No attempts remaining", db').
Proof.
  assert (Hle : (allowedAttempts Sample.assignment1
                 <= attemptsUsed Sample.assignment1 + 1)%Z) by (simpl; lia).
  do 6 (split; [reflexivity|]). split; [exact Hle|].
  destruct (no_start_after_the_last_attempt Sample.now0 (Sample.now0 + 1) Sample.N1
              Sample.alice Sample.S1 Sample.db0 Sample.session_open
              Sample.assignment1 eq_refl eq_refl eq_refl eq_refl eq_refl eq_refl Hle)
    as (db' & Hsub & Hstart & _).
  exists db'. split; [exact Hsub|exact Hstart].
Defined.

(** ** The channel: connect, close, and the time they account *)

(** X11. The connection handler writes only when it accepts: it closes
    the socket with code 1008 and leaves the database as it is when the
    identifier is missing, empty, malformed or names no session, and it
    accepts exactly when the identifier is well formed and names a
    stored session. *)
Theorem connection_refusals (isValid : string -> bool) (nowMs : Z)
    (q : option string) (db : DB) :
  match Server.connection isValid nowMs q db with
  | (Server.Closed code _, db') => code = 1008%nat /\ db' = db
  | (Server.Connected, _) =>
      exists sid, q = Some sid /\ present sid = true /\ isValid sid = true
                  /\ is_Some (db_sessions db !! sid)
  end.
Proof.
  unfold Server.connection. destruct q as [sid|]; [|split; reflexivity].
  destruct (present sid) eqn:Hp; simpl; [|split; reflexivity].
  destruct (isValid sid) eqn:Hv; simpl; [|split; reflexivity].
  destruct (db_sessions db !! sid) as [s|] eqn:Hs; [|split; reflexivity].
  exists sid. rewrite Hs. eauto.
Qed.

(** X12. One run of the channel: a connection at [t1] followed by its
    close at [t2 >= t1] leaves the session paused at [t2], with
    [runAt = t1], and adds [floor((t2 - t1) / 1000)] to
    [totalTimeConsumed]: never more than the time connected, and less
    than one second short of it; the grade, [submittedAt] and the
    answered and bookmarked lists are as before. *)
Theorem connect_then_close (isValid : string -> bool) (t1 t2 : Z) (sid : string)
    (db : DB) (session : ExamSession) :
  present sid = true -> isValid sid = true ->
  db_sessions db !! sid = Some session ->
  (t1 <= t2)%Z ->
  exists session' : ExamSession,
    db_sessions (Server.close t2 sid (snd (Server.connection isValid t1 (Some sid) db)))
      !! sid = Some session'
    /\ isRunning session' = false
    /\ runAt session' = Some t1
    /\ pausedAt session' = Some t2
    /\ totalTimeConsumed session'
       = (totalTimeConsumed session + (t2 - t1) / 1000)%Z
    /\ (1000 * (totalTimeConsumed session' - totalTimeConsumed session) <= t2 - t1
        < 1000 * (totalTimeConsumed session' - totalTimeConsumed session) + 1000)%Z
    /\ grade session' = grade session
    /\ submittedAt session' = submittedAt session
    /\ answeredQuestions session' = answeredQuestions session
    /\ bookmarkedQuestions session' = bookmarkedQuestions session.
Proof.
  intros Hp Hv Hs Hle. unfold Server.connection. rewrite Hp, Hv. simpl. rewrite Hs.
  unfold Server.close. simpl. rewrite lookup_insert_eq. simpl.
  rewrite lookup_insert_eq. eexists. split; [reflexivity|]. simpl.
  do 4 (split; [reflexivity|]). split; [|repeat split].
  pose proof (Z.div_mod (t2 - t1) 1000 ltac:(lia)) as Hdm.
  pose proof (Z.mod_pos_bound (t2 - t1) 1000 ltac:(lia)) as Hb. lia.
Qed.

Lemma connect_then_close_witness :
  present Sample.S1 = true
  /\ db_sessions Sample.db0 !! Sample.S1 = Some Sample.session_open
  /\ (Sample.now0 <= Sample.now0 + 2500)%Z
  /\ exists session' : ExamSession,
      db_sessions
        (Server.close (Sample.now0 + 2500) Sample.S1
           (snd (Server.connection (fun _ => true) Sample.now0 (Some Sample.S1)
                   Sample.db0))) !! Sample.S1 = Some session'
      /\ totalTimeConsumed session' = 62%Z.
Proof.
  assert (Hle : (Sample.now0 <= Sample.now0 + 2500)%Z) by lia.
  do 2 (split; [reflexivity|]). split; [exact Hle|].
  destruct (connect_then_close (fun _ => true) Sample.now0 (Sample.now0 + 2500)
              Sample.S1 Sample.db0 Sample.session_open eq_refl eq_refl eq_refl Hle)
    as (s' & Hs' & _ & _ & _ & Ht & _).
  exists s'. split; [exact Hs'|]. rewrite Ht. reflexivity.
Defined.

(** X13. The close handler keeps [runAt], so a close that is not
    preceded by a new connection counts the run from its start again:
    after closes at [t2] and then [t3] the consumed time has grown by
    [floor((t2 - r) / 1000) + floor((t3 - r) / 1000)], where [r] is the
    stored [runAt]. *)
Theorem close_twice_counts_the_run_twice (t2 t3 r : Z) (sid : string)
    (db : DB) (session : ExamSession) :
  db_sessions db !! sid = Some session ->
  runAt session = Some r ->
  exists session' : ExamSession,
    db_sessions (Server.close t3 sid (Server.close t2 sid db)) !! sid = Some session'
    /\ totalTimeConsumed session'
       = (totalTimeConsumed session + (t2 - r) / 1000 + (t3 - r) / 1000)%Z
    /\ runAt session' = Some r
    /\ pausedAt session' = Some t3.
Proof.
  intros Hs Hr. unfold Server.close. rewrite Hs. simpl. rewrite lookup_insert_eq.
  simpl. rewrite lookup_insert_eq, Hr. eexists. split; [reflexivity|].
  simpl. repeat split.
Qed.

Lemma close_twice_counts_the_run_twice_witness :
  db_sessions Sample.db0 !! Sample.S1 = Some Sample.session_open
  /\ runAt Sample.session_open = Some 1700000000000%Z
  /\ exists session' : ExamSession,
      db_sessions (Server.close 1700000030000 Sample.S1
                     (Server.close 1700000020000 Sample.S1 Sample.db0))
        !! Sample.S1 = Some session'
      /\ totalTimeConsumed session' = 110%Z.
Proof.
  do 2 (split; [reflexivity|]).
  destruct (close_twice_counts_the_run_twice 1700000020000 1700000030000
              1700000000000 Sample.S1 Sample.db0 Sample.session_open
              eq_refl eq_refl) as (s' & Hs' & Ht & _).
  exists s'. split; [exact Hs'|]. rewrite Ht. reflexivity.
Defined.

(** ** Remaining time *)

Lemma clamp_floor_mono (x y : Q) :
  (x <= y)%Q ->
  ((if Qpos_bool x then Qfloor x else 0) <= (if Qpos_bool y then Qfloor y else 0))%Z.
Proof.
  intros Hle. destruct (Qpos_bool x) eqn:Ex.
  - apply Qpos_bool_true in Ex.
    assert (Ey : Qpos_bool y = true) by (apply Qpos_bool_true; lra).
    rewrite Ey. now apply Qfloor_resp_le.
  - apply clamp_floor_nonneg.
Qed.

Lemma clamp_mono (x y : Q) :
  (x <= y)%Q ->
  ((if Qpos_bool x then x else 0) <= (if Qpos_bool y then y else 0))%Q.
Proof.
  intros Hle. destruct (Qpos_bool x) eqn:Ex.
  - apply Qpos_bool_true in Ex.
    assert (Ey : Qpos_bool y = true) by (apply Qpos_bool_true; lra).
    now rewrite Ey.
  - apply clamp_nonneg.
Qed.

Lemma or_zero_Z (z : Z) : (if (z =? 0)%Z then 0%Z else z) = z.
Proof. destruct (z =? 0)%Z eqn:E; [|reflexivity]. apply Z.eqb_eq in E. now subst. Qed.

Lemma inject_Z_le (a b : Z) : (a <= b)%Z -> (inject_Z a <= inject_Z b)%Q.
Proof. intros H. now rewrite <- Zle_Qle. Qed.

(** X14. Time spent on the channel comes off the remaining time: for
    an open session of a timed exam, the remaining-time route reports
    after a close of the channel (with [runAt] not after the close) a
    value that is not negative and not larger than the one it reported
    before; with a whole number [d] of seconds as duration it is
    [max 0 (d - totalTimeConsumed)] for the consumed time that the
    close has stored. *)
Theorem closing_the_channel_reduces_remaining_time
    (t : Z) (req : Caller) (sid : string) (db : DB) (session : ExamSession)
    (assignment : ExamAssignment) (exam : Exam) :
  db_sessions db !! sid = Some session ->
  db_assignments db !! assignmentId session = Some assignment ->
  db_exams db !! examId assignment = Some exam ->
  ownership req (Some assignment) = Granted ->
  exam_type exam = timed ->
  submittedAt session = None ->
  match runAt session with Some r => (r <= t)%Z | None => True end ->
  exists z z' : Z,
    ExamSessions.remaining_time req sid db
    = Json 200 {| ExamSessions.remainingTime := Some z;
                  ExamSessions.remaining_type := "timed" |}
    /\ ExamSessions.remaining_time req sid (Server.close t sid db)
       = Json 200 {| ExamSessions.remainingTime := Some z';
                     ExamSessions.remaining_type := "timed" |}
    /\ (0 <= z' <= z)%Z
    /\ forall d : Z,
         duration exam = inject_Z d ->
         z' = Z.max 0 (d - (totalTimeConsumed session + run_seconds t session)).
Proof.
  intros Hs Ha He Hown Htimed Hopen Hrun.
  pose proof (run_seconds_nonneg t session Hrun) as Hdelta.
  assert (Hsecs : ((t - match runAt session with Some r => r | None => t end) / 1000
                   = run_seconds t session)%Z).
  { unfold run_seconds. destruct (runAt session); [reflexivity|].
    now rewrite Z.sub_diag. }
  unfold ExamSessions.remaining_time, Server.close. rewrite Hs. simpl.
  rewrite lookup_insert_eq. simpl. rewrite Ha, Hown. simpl. rewrite He, Htimed, Hopen.
  rewrite !or_zero_Z, Hsecs. do 2 eexists.
  split; [reflexivity|]. split; [reflexivity|]. split; [split|].
  - apply clamp_floor_nonneg.
  - apply clamp_floor_mono.
    pose proof (inject_Z_le (totalTimeConsumed session)
                  (totalTimeConsumed session + run_seconds t session) ltac:(lia)).
    lra.
  - intros d Hd. rewrite Hd.
    set (c := (totalTimeConsumed session + run_seconds t session)%Z).
    assert (Heq : (inject_Z d - inject_Z c == inject_Z (d - c))%Q).
    { unfold Qminus, Z.sub. rewrite inject_Z_plus, inject_Z_opp. reflexivity. }
    destruct (Qpos_bool (inject_Z d - inject_Z c)) eqn:E.
    + apply Qpos_bool_true in E. rewrite Heq in E.
      change 0%Q with (inject_Z 0) in E. rewrite <- Zlt_Qlt in E.
      cbn [inject_Z Qnum Qden Pos.mul]. rewrite Z.div_1_r. lia.
    + assert (~ (0 < inject_Z d - inject_Z c)%Q) as Hn.
      { intros H. apply Qpos_bool_true in H. congruence. }
      rewrite Heq in Hn. change 0%Q with (inject_Z 0) in Hn.
      rewrite <- Zlt_Qlt in Hn. lia.
Qed.

Lemma closing_the_channel_reduces_remaining_time_witness :
  db_sessions Sample.db0 !! Sample.S1 = Some Sample.session_open
  /\ db_assignments Sample.db0 !! assignmentId Sample.session_open
     = Some Sample.assignment1
  /\ db_exams Sample.db0 !! examId Sample.assignment1 = Some Sample.exam_timed
  /\ ownership Sample.alice (Some Sample.assignment1) = Granted
  /\ exam_type Sample.exam_timed = timed
  /\ submittedAt Sample.session_open = None
  /\ ExamSessions.remaining_time Sample.alice Sample.S1
       (Server.close Sample.now0 Sample.S1 Sample.db0)
     = Json 200 {| ExamSessions.remainingTime := Some 3340%Z;
                   ExamSessions.remaining_type := "timed" |}.
Proof.
  do 6 (split; [reflexivity|]).
  destruct (closing_the_channel_reduces_remaining_time Sample.now0 Sample.alice
              Sample.S1 Sample.db0 Sample.session_open Sample.assignment1
              Sample.exam_timed eq_refl eq_refl eq_refl eq_refl eq_refl eq_refl
              ltac:(unfold Sample.now0; simpl; lia))
    as (z & z' & _ & Hafter & _ & Hexact).
  rewrite Hafter, (Hexact 3600%Z eq_refl). reflexivity.
Defined.

(** X15. The first generation reports no remaining time: for every
    session of a timed exam, open or submitted, and at every instant,
    [calculateRemainingTime] returns zero, because the two fields it
    reads are not paths of the session schema; so the reply to an
    accepted start request carries [remainingTime] zero, whatever the
    duration of the exam. *)
Theorem first_generation_reports_no_remaining_time
    (nowMs : Z) (newId : string) (req : Caller) (aid : string) (db : DB)
    (assignment : ExamAssignment) (exam : Exam) :
  present aid = true ->
  db_assignments db !! aid = Some assignment ->
  start_refusal (A := ExamSessionsFirst.StartBody) nowMs req assignment = None ->
  db_exams db !! examId assignment = Some exam ->
  exam_type exam = timed ->
  (forall (t : Z) (session : ExamSession),
      ExamSessionsFirst.calculateRemainingTime t exam session = Some 0%Q)
  /\ exists body : ExamSessionsFirst.StartBody,
      ExamSessionsFirst.start nowMs newId req aid db
      = (Json 201 body, save_session newId (new_session aid) db)
      /\ ExamSessionsFirst.remainingTime body = Some 0%Q.
Proof.
  intros Haid Ha Hok He Ht. split.
  - intros t session. unfold ExamSessionsFirst.calculateRemainingTime. rewrite Ht.
    now destruct (submittedAt session).
  - unfold ExamSessionsFirst.start. rewrite Haid, Ha. simpl. rewrite Hok, He.
    eexists. split; [reflexivity|]. simpl.
    unfold ExamSessionsFirst.calculateRemainingTime. rewrite Ht. reflexivity.
Qed.

Lemma first_generation_reports_no_remaining_time_witness :
  present Sample.A1 = true
  /\ db_assignments Sample.db0 !! Sample.A1 = Some Sample.assignment1
  /\ start_refusal (A := ExamSessionsFirst.StartBody) Sample.now0 Sample.alice
       Sample.assignment1 = None
  /\ db_exams Sample.db0 !! examId Sample.assignment1 = Some Sample.exam_timed
  /\ exam_type Sample.exam_timed = timed
  /\ duration Sample.exam_timed = 3600%Q
  /\ ExamSessionsFirst.calculateRemainingTime Sample.now0 Sample.exam_timed
       Sample.session_open = Some 0%Q.
Proof.
  do 6 (split; [reflexivity|]).
  exact (proj1 (first_generation_reports_no_remaining_time
                  Sample.now0 Sample.N1 Sample.alice Sample.A1 Sample.db0
                  Sample.assignment1 Sample.exam_timed
                  eq_refl eq_refl eq_refl eq_refl eq_refl)
           Sample.now0 Sample.session_open).
Defined.

(** X16. The resume route stores nothing: whatever the request and the
    reply, the database is left as it was, and the session of a
    successful reply is the stored session, so that a paused session
    stays paused.  ([resumedAt], which the route sets, is not a path of
    the session schema.) *)
Theorem resume_stores_nothing (nowMs : Z) (req : Caller) (sid : string) (db : DB) :
  snd (ExamSessionsFirst.resume nowMs req sid db) = db
  /\ match fst (ExamSessionsFirst.resume nowMs req sid db) with
     | Json code body =>
         code = 200%nat
         /\ db_sessions db !! sid = Some (ExamSessionsFirst.resumed body)
         /\ submittedAt (ExamSessionsFirst.resumed body) = None
     | _ => True
     end.
Proof.
  unfold ExamSessionsFirst.resume.
  destruct (db_sessions db !! sid) as [session|]; [|now split].
  simpl. destruct (ownership req _); try (now split).
  destruct (submittedAt session) eqn:Hopen; [now split|].
  destruct (_ ≫= _) as [exam|]; [|now split].
  destruct (next_index _ _); now split.
Qed.

(** ** Listing and fetching sessions *)

Lemma assignments_of_spec (uid aid : string) (db : DB) :
  aid ∈ ExamSessionsRoutes.assignments_of uid db
  <-> exists a, db_assignments db !! aid = Some a /\ studentId a = uid.
Proof.
  unfold ExamSessionsRoutes.assignments_of. rewrite list_elem_of_fmap. split.
  - intros ([k a] & -> & Hin). apply list_elem_of_In, List.filter_In in Hin as [Hin Hs].
    apply list_elem_of_In, elem_of_map_to_list in Hin. apply String.eqb_eq in Hs.
    exists a. split; assumption.
  - intros (a & Ha & Hs). exists (aid, a). split; [reflexivity|].
    apply list_elem_of_In, List.filter_In. split.
    + apply list_elem_of_In, elem_of_map_to_list. exact Ha.
    + simpl. now apply String.eqb_eq.
Qed.

(** X18. The second-generation listing shows a caller exactly the
    sessions that the fetch route gives that caller by identifier:
    every stored session to an operator, and to a student the sessions
    of the student's own assignments.  The caller is a stored user, as
    [authenticate] ensures. *)
Theorem listed_sessions_are_the_fetchable_ones
    (users : gmap string Role) (req : Caller) (db : DB)
    (id : string) (s : ExamSession) :
  is_Some (users !! userId req) ->
  ((id, s) ∈ ExamSessionsRoutes.list_sessions req db
   <-> ExamSessionsRoutes.get_session users req id db = Json 200 s).
Proof.
  intros [r Hr].
  unfold ExamSessionsRoutes.list_sessions, ExamSessionsRoutes.get_session,
    ExamSessionsRoutes.ownership_populated.
  destruct (role req).
  - rewrite elem_of_map_to_list.
    destruct (db_sessions db !! id) as [s'|]; split; intros H; congruence.
  - split.
    + intros Hin. apply list_elem_of_In, List.filter_In in Hin as [Hs Hinc].
      apply list_elem_of_In, elem_of_map_to_list in Hs. simpl in Hinc. rewrite Hs.
      apply bool_decide_eq_true, assignments_of_spec in Hinc as (a & Ha & Hst).
      rewrite Ha, Hst, Hr, String.eqb_refl. reflexivity.
    + destruct (db_sessions db !! id) as [s'|] eqn:Hs; [|discriminate].
      destruct (db_assignments db !! assignmentId s') as [a|] eqn:Ha; [|discriminate].
      destruct (users !! studentId a); [|discriminate].
      destruct (String.eqb (studentId a) (userId req)) eqn:E; [|discriminate].
      intros [= <-]. apply list_elem_of_In, List.filter_In. split.
      { apply list_elem_of_In, elem_of_map_to_list. exact Hs. }
      apply bool_decide_eq_true, assignments_of_spec. exists a.
      split; [exact Ha|now apply String.eqb_eq].
Qed.

Lemma listed_sessions_are_the_fetchable_ones_witness :
  is_Some (Staff.users !! userId Sample.alice)
  /\ ((Sample.S1, Sample.session_open)
        ∈ ExamSessionsRoutes.list_sessions Sample.alice Sample.db0
      <-> ExamSessionsRoutes.get_session Staff.users Sample.alice Sample.S1 Sample.db0
          = Json 200 Sample.session_open).
Proof.
  assert (Hu : is_Some (Staff.users !! userId Sample.alice))
    by (exists student; vm_compute; reflexivity).
  split; [exact Hu|].
  exact (listed_sessions_are_the_fetchable_ones Staff.users Sample.alice Sample.db0
           Sample.S1 Sample.session_open Hu).
Defined.

Lemma remaining_of_has_exam (nowMs : Z) (db : DB) (s : ExamSession) :
  has_exam db s
  = match ExamSessionsFirstRoutes.remaining_of nowMs db s with
    | Some _ => true
    | None => false
    end.
Proof.
  unfold has_exam, ExamSessionsFirstRoutes.remaining_of.
  destruct (db_assignments db !! assignmentId s ≫= fun a => db_exams db !! examId a);
    reflexivity.
Qed.

Lemma attachRemainingTime_spec (nowMs : Z) (db : DB)
    (l : list (string * ExamSession)) :
  match ExamSessionsFirstRoutes.attachRemainingTime nowMs db l with
  | Some k => forallb (fun p => has_exam db (snd p)) l = true /\ fst <$> k = l
  | None => forallb (fun p => has_exam db (snd p)) l = false
  end.
Proof.
  unfold ExamSessionsFirstRoutes.attachRemainingTime.
  induction l as [|p l IH]; [now split|].
  cbn [mapM forallb].
  pose proof (remaining_of_has_exam nowMs db (snd p)) as Hp.
  destruct (ExamSessionsFirstRoutes.remaining_of nowMs db (snd p)) as [r|];
    rewrite Hp; simpl; [|reflexivity].
  destruct (mapM _ l) as [k|]; simpl.
  - destruct IH as [-> <-]. now split.
  - exact IH.
Qed.

(** X19. The first-generation listing is all or nothing: it answers
    with the sessions of the second-generation listing, whatever the
    clock reads, when each of them has its assignment and the exam of
    that assignment stored, and otherwise the whole request fails in
    the remaining-time computation. *)
Theorem first_listing_is_all_or_nothing (nowMs : Z) (req : Caller) (db : DB) :
  ExamSessionsFirstRoutes.list_sessions nowMs req db
  = if forallb (fun p => has_exam db (snd p))
         (ExamSessionsRoutes.list_sessions req db)
    then Json 200 (ExamSessionsRoutes.list_sessions req db)
    else Thrown.
Proof.
  unfold ExamSessionsFirstRoutes.list_sessions.
  pose proof (attachRemainingTime_spec nowMs db
                (ExamSessionsRoutes.list_sessions req db)) as H.
  destruct (ExamSessionsFirstRoutes.attachRemainingTime nowMs db
              (ExamSessionsRoutes.list_sessions req db)) as [k|].
  - destruct H as [-> ->]. reflexivity.
  - rewrite H. reflexivity.
Qed.

(** ** Deleting an exam or a question *)

Lemma assignments_of_exam_spec (eid aid : string) (db : DB) :
  aid ∈ Exams.assignments_of_exam eid db
  <-> exists a, db_assignments db !! aid = Some a /\ examId a = eid.
Proof.
  unfold Exams.assignments_of_exam. rewrite list_elem_of_fmap. split.
  - intros ([k a] & -> & Hin). apply list_elem_of_In, List.filter_In in Hin as [Hin Hs].
    apply list_elem_of_In, elem_of_map_to_list in Hin. apply String.eqb_eq in Hs.
    exists a. split; assumption.
  - intros (a & Ha & Hs). exists (aid, a). split; [reflexivity|].
    apply list_elem_of_In, List.filter_In. split.
    + apply list_elem_of_In, elem_of_map_to_list. exact Ha.
    + simpl. now apply String.eqb_eq.
Qed.

(** X20. Deleting a stored exam as an operator removes the exam, every
    assignment of that exam and every session of such an assignment,
    and nothing else: the other exams, assignments and sessions, the
    questions and all recorded answers (also those of the deleted
    sessions) stay as they were.  The cascade keeps the references of
    the remaining sessions and assignments resolvable. *)
Theorem exam_delete_cascades (req : Caller) (eid : string) (db : DB) (e : Exam) :
  role req = admin ->
  db_exams db !! eid = Some e ->
  exists db' : DB,
    Exams.delete req eid db
    = (Json 200 "Exam and all related assignments and sessions deleted successfully",
       db')
    /\ db_exams db' !! eid = None
    /\ (forall k, k <> eid -> db_exams db' !! k = db_exams db !! k)
    /\ (forall aid a, db_assignments db' !! aid = Some a
                      <-> db_assignments db !! aid = Some a /\ examId a <> eid)
    /\ (forall sid s, db_sessions db' !! sid = Some s
                      <-> db_sessions db !! sid = Some s
                          /\ ~ (exists a, db_assignments db !! assignmentId s = Some a
                                          /\ examId a = eid))
    /\ db_questions db' = db_questions db
    /\ db_answers db' = db_answers db
    /\ (sessions_attached db -> sessions_attached db')
    /\ (assignments_attached db -> assignments_attached db').
Proof.
  intros Hrole He. unfold Exams.delete, Auth.adminOnly. rewrite Hrole, He.
  eexists. split; [reflexivity|]. simpl.
  assert (Hasg : forall aid a,
             filter (fun p => String.eqb (examId (snd p)) eid = false)
               (db_assignments db) !! aid = Some a
             <-> db_assignments db !! aid = Some a /\ examId a <> eid).
  { intros aid a. rewrite map_lookup_filter_Some. simpl.
    rewrite String.eqb_neq. reflexivity. }
  assert (Hses : forall sid s,
             filter (fun p => includes (Exams.assignments_of_exam eid db)
                                (assignmentId (snd p)) = false)
               (db_sessions db) !! sid = Some s
             <-> db_sessions db !! sid = Some s
                 /\ ~ (exists a, db_assignments db !! assignmentId s = Some a
                                 /\ examId a = eid)).
  { intros sid s. rewrite map_lookup_filter_Some. simpl.
    unfold includes. rewrite bool_decide_eq_false, assignments_of_exam_spec.
    reflexivity. }
  split; [apply lookup_delete_eq|].
  split; [intros k Hk; apply lookup_delete_ne; congruence|].
  split; [exact Hasg|]. split; [exact Hses|].
  split; [reflexivity|]. split; [reflexivity|]. split.
  - intros Hatt sid s Hs. simpl in *. apply Hses in Hs as [Hs Hno].
    destruct (Hatt sid s Hs) as [a Ha]. exists a. apply Hasg. split; [exact Ha|].
    intros Heq. apply Hno. exists a. split; assumption.
  - intros Hatt aid a Ha. simpl in *. apply Hasg in Ha as [Ha Hne].
    destruct (Hatt aid a Ha) as [e' He']. exists e'.
    rewrite lookup_delete_ne by congruence. exact He'.
Qed.

Lemma exam_delete_cascades_witness :
  role Staff.bob = admin
  /\ db_exams Sample.db0 !! Sample.E1 = Some Sample.exam_timed
  /\ exists db' : DB,
      Exams.delete Staff.bob Sample.E1 Sample.db0
      = (Json 200 "Exam and all related assignments and sessions deleted successfully",
         db')
      /\ db_exams db' !! Sample.E1 = None
      /\ db_answers db' = db_answers Sample.db0.
Proof.
  split; [reflexivity|]. split; [reflexivity|].
  destruct (exam_delete_cascades Staff.bob Sample.E1 Sample.db0 Sample.exam_timed
              eq_refl eq_refl)
    as (db' & Hrun & Hgone & _ & _ & _ & _ & Hans & _).
  exists db'. split; [exact Hrun|]. split; [exact Hgone|exact Hans].
Defined.

Lemma exams_with_pos (qid : string) (db : DB) :
  Nat.ltb 0 (Questions.exams_with qid db) = true
  <-> exists eid e, db_exams db !! eid = Some e /\ qid ∈ questions e.
Proof.
  unfold Questions.exams_with. split.
  - intros H. apply Nat.ltb_lt in H.
    destruct (List.filter _ _) as [|[eid e] l] eqn:E; [simpl in H; lia|].
    assert (Hin : In (eid, e)
                    (List.filter (fun p => includes (questions (snd p)) qid)
                       (map_to_list (db_exams db)))).
    { rewrite E. now left. }
    apply List.filter_In in Hin as [Hin Hq].
    apply list_elem_of_In, elem_of_map_to_list in Hin.
    apply bool_decide_eq_true in Hq. exists eid, e. split; assumption.
  - intros (eid & e & He & Hq). apply Nat.ltb_lt.
    assert (Hin : In (eid, e)
                    (List.filter (fun p => includes (questions (snd p)) qid)
                       (map_to_list (db_exams db)))).
    { apply List.filter_In. split.
      - apply list_elem_of_In, elem_of_map_to_list. exact He.
      - apply bool_decide_eq_true. exact Hq. }
    destruct (List.filter _ _); [inversion Hin|simpl; lia].
Qed.

(** X21. A question that an exam refers to cannot be deleted: the
    operator's request is refused with status 400 and nothing is
    written; a deletion that succeeds was asked by an operator for a
    question that no exam refers to.  So the route keeps every question
    reference of every exam resolvable. *)
Theorem question_delete_respects_exams (req : Caller) (qid : string) (db : DB) :
  exams_closed db ->
  exams_closed (snd (Questions.delete req qid db))
  /\ (is_success (fst (Questions.delete req qid db)) = true ->
      role req = admin
      /\ db_questions (snd (Questions.delete req qid db)) !! qid = None
      /\ forall eid e, db_exams db !! eid = Some e -> qid ∉ questions e)
  /\ (role req = admin ->
      (exists eid e, db_exams db !! eid = Some e /\ qid ∈ questions e) ->
      exists message, Questions.delete req qid db = (Fail 400 message, db)).
Proof.
  intros Hclosed. unfold Questions.delete, Auth.adminOnly.
  destruct (role req); simpl.
  2: { split; [exact Hclosed|]. split; [discriminate|discriminate]. }
  destruct (Nat.ltb 0 (Questions.exams_with qid db)) eqn:Hcount; simpl.
  { split; [exact Hclosed|]. split; [discriminate|]. intros _ _. eauto. }
  assert (Hfree : forall eid e, db_exams db !! eid = Some e -> qid ∉ questions e).
  { intros eid e He Hq.
    assert (Nat.ltb 0 (Questions.exams_with qid db) = true)
      by (apply exams_with_pos; eauto).
    congruence. }
  destruct (db_questions db !! qid) as [q|] eqn:Hq; simpl.
  - split; [|split].
    + intros eid e x He Hx. simpl in *.
      rewrite lookup_delete_ne; [exact (Hclosed eid e x He Hx)|].
      intros <-. exact (Hfree eid e He Hx).
    + intros _. split; [reflexivity|]. split; [apply lookup_delete_eq|exact Hfree].
    + intros _ (eid & e & He & Hx). destruct (Hfree eid e He Hx).
  - split; [exact Hclosed|]. split; [discriminate|].
    intros _ (eid & e & He & Hx). destruct (Hfree eid e He Hx).
Qed.

Lemma sample_exams_closed : exams_closed Sample.db0.
Proof.
  intros eid e qid He Hq. simpl in He.
  assert (Hqs : questions e = [Sample.Q1; Sample.Q2]).
  { apply lookup_insert_Some in He as [[_ <-]|[_ He]]; [reflexivity|].
    apply lookup_insert_Some in He as [[_ <-]|[_ He]]; [reflexivity|].
    rewrite lookup_empty in He. discriminate. }
  rewrite Hqs in Hq.
  apply elem_of_cons in Hq as [->|Hq]; [eexists; reflexivity|].
  apply list_elem_of_singleton in Hq as ->. eexists. reflexivity.
Qed.

Lemma question_delete_respects_exams_witness :
  exams_closed Sample.db0
  /\ exams_closed (snd (Questions.delete Staff.bob Sample.Q1 Sample.db0))
  /\ exists message,
      Questions.delete Staff.bob Sample.Q1 Sample.db0 = (Fail 400 message, Sample.db0).
Proof.
  split; [exact sample_exams_closed|].
  destruct (question_delete_respects_exams Staff.bob Sample.Q1 Sample.db0
              sample_exams_closed) as (Hkeep & _ & Hrefuse).
  split; [exact Hkeep|].
  apply Hrefuse; [reflexivity|].
  exists Sample.E1, Sample.exam_timed. split; [reflexivity|apply list_elem_of_here].
Defined.

(** ** The assignment listing *)

Lemma visible_spec (req : Caller) (db : DB) (p : string * ExamAssignment) :
  p ∈ ExamAssignments.visible req db -> db_assignments db !! fst p = Some (snd p).
Proof.
  unfold ExamAssignments.visible. destruct p as [aid a]. simpl.
  destruct (role req); intros Hin.
  - now apply elem_of_map_to_list.
  - apply list_elem_of_In, List.filter_In in Hin as [Hin _].
    now apply list_elem_of_In, elem_of_map_to_list in Hin.
Qed.

(** X22. In the assignment listing at most one assignment carries a
    session to resume, however many of the listed assignments have an
    open session: the route looks up a single open session for the
    whole reply.  The session carried is stored, is open and belongs to
    the assignment that carries it; and when a listed assignment has an
    open session, some listed assignment carries one. *)
Theorem listing_carries_one_session_to_resume (req : Caller) (db : DB)
    (p : string * ExamAssignment) (s : string * ExamSession) :
  (p, Some s) ∈ ExamAssignments.list_assignments req db ->
  db_assignments db !! fst p = Some (snd p)
  /\ db_sessions db !! fst s = Some (snd s)
  /\ submittedAt (snd s) = None
  /\ assignmentId (snd s) = fst p
  /\ forall p' s', (p', Some s') ∈ ExamAssignments.list_assignments req db ->
                   p' = p /\ s' = s.
Proof.
  unfold ExamAssignments.list_assignments. intros Hin.
  apply list_elem_of_fmap in Hin as (q & Heq & Hq).
  destruct (ExamAssignments.session_to_resume _ db) as [s0|] eqn:Hfind;
    [|discriminate].
  destruct (String.eqb (assignmentId (snd s0)) (fst q)) eqn:E; [|discriminate].
  injection Heq as -> ->. apply String.eqb_eq in E.
  pose proof (visible_spec req db q Hq) as Hstored.
  unfold ExamAssignments.session_to_resume in Hfind.
  apply List.find_some in Hfind as [Hs0 Hopen].
  apply list_elem_of_In in Hs0. destruct s0 as [sid s0]. simpl in *.
  apply elem_of_map_to_list in Hs0.
  apply andb_prop in Hopen as [_ Hopen].
  split; [exact Hstored|]. split; [exact Hs0|].
  split; [unfold ExamSessions.is_open in Hopen; now destruct (submittedAt s0)|].
  split; [exact E|].
  intros p' s' Hin'. apply list_elem_of_fmap in Hin' as (q' & Heq' & Hq').
  destruct (String.eqb (assignmentId s0) (fst q')) eqn:E'; [|discriminate].
  injection Heq' as -> ->. apply String.eqb_eq in E'.
  split; [|reflexivity].
  pose proof (visible_spec req db q' Hq') as Hstored'.
  destruct q as [k a], q' as [k' a']. simpl in *. subst k k'.
  rewrite Hstored in Hstored'. now injection Hstored' as ->.
Qed.

Lemma listing_carries_one_session_to_resume_witness :
  ((Sample.A1, Sample.assignment1), Some (Sample.S1, Sample.session_open))
    ∈ ExamAssignments.list_assignments Sample.alice Sample.db0
  /\ forall p' s',
       (p', Some s') ∈ ExamAssignments.list_assignments Sample.alice Sample.db0 ->
       p' = (Sample.A1, Sample.assignment1) /\ s' = (Sample.S1, Sample.session_open).
Proof.
  assert (Hin : ((Sample.A1, Sample.assignment1), Some (Sample.S1, Sample.session_open))
                  ∈ ExamAssignments.list_assignments Sample.alice Sample.db0).
  { vm_compute.
    repeat first [apply list_elem_of_here | apply list_elem_of_further]. }
  split; [exact Hin|].
  exact (proj2 (proj2 (proj2 (proj2
           (listing_carries_one_session_to_resume Sample.alice Sample.db0
              (Sample.A1, Sample.assignment1) (Sample.S1, Sample.session_open)
              Hin))))).
Defined.

(** ** The middleware *)

Lemma strip_prefix_app (pat r : string) :
  Auth.strip_prefix pat (pat +:+ r) = Some r.
Proof.
  induction pat as [|c pat IH]; simpl; [now destruct r|].
  now rewrite Ascii.eqb_refl.
Qed.

Lemma strip_prefix_Some (pat s r : string) :
  Auth.strip_prefix pat s = Some r -> s = pat +:+ r.
Proof.
  revert s. induction pat as [|c pat IH]; intros s; simpl.
  - now intros [= ->].
  - destruct s as [|d s]; [discriminate|].
    destruct (Ascii.eqb c d) eqn:E; [|discriminate].
    apply Ascii.eqb_eq in E as ->. intros H. now rewrite (IH s H).
Qed.

Lemma has_space_app (s r : string) :
  has_space (s +:+ r) = has_space s || has_space r.
Proof.
  induction s as [|c s IH]; simpl; [reflexivity|].
  now rewrite IH, orb_assoc.
Qed.

Lemma replace_first_no_space (t : string) :
  has_space t = false -> Auth.replace_first "Bearer " "" t = t.
Proof.
  induction t as [|c t IH]; intros Hns.
  - reflexivity.
  - cbn [Auth.replace_first].
    destruct (Auth.strip_prefix "Bearer " (String c t)) as [r|] eqn:E.
    + apply strip_prefix_Some in E. rewrite E, has_space_app in Hns.
      discriminate.
    + simpl in Hns. apply orb_false_elim in Hns as [_ Hns].
      now rewrite (IH Hns).
Qed.

(** X23. The scheme of the authorization header is optional: a token
    without a space (as every encoded token is) is treated in the same
    way with and without the leading "Bearer ", because the middleware
    removes the first occurrence of that word and does not require
    it. *)
Theorem bearer_scheme_is_optional (verify : string -> option string)
    (users : gmap string Role) (token : string) :
  has_space token = false ->
  Auth.replace_first "Bearer " "" ("Bearer " +:+ token) = token
  /\ Auth.replace_first "Bearer " "" token = token
  /\ Auth.authenticate verify users (Some ("Bearer " +:+ token))
     = Auth.authenticate verify users (Some token).
Proof.
  intros Hns.
  assert (H1 : Auth.replace_first "Bearer " "" ("Bearer " +:+ token) = token).
  { destruct token; reflexivity. }
  pose proof (replace_first_no_space token Hns) as H2.
  split; [exact H1|]. split; [exact H2|].
  unfold Auth.authenticate. cbn [fmap option_fmap option_map]. now rewrite H1, H2.
Qed.

Lemma bearer_scheme_is_optional_witness :
  has_space "alice.token" = false
  /\ Auth.authenticate Staff.verify Staff.users (Some "Bearer alice.token")
     = Auth.authenticate Staff.verify Staff.users (Some "alice.token").
Proof.
  split; [reflexivity|].
  exact (proj2 (proj2 (bearer_scheme_is_optional Staff.verify Staff.users
                         "alice.token" eq_refl))).
Defined.

(** X24. A handler mounted behind [authenticate] and [adminOnly] runs
    only for a token that verifies to a stored user whose stored role
    is the operator's; every other request is answered 401 or 403 and
    the database is left as it was. *)
Theorem admin_route_guard {A : Type} (verify : string -> option string)
    (users : gmap string Role) (header : option string)
    (handler : Caller -> DB -> Reply A * DB) (db : DB) :
  (exists h uid,
      header = Some h
      /\ verify (Auth.replace_first "Bearer " "" h) = Some uid
      /\ users !! uid = Some admin
      /\ Auth.admin_route verify users header handler db
         = handler {| role := admin; userId := uid |} db)
  \/ (exists code message,
         (code = 401 \/ code = 403)
         /\ Auth.admin_route verify users header handler db = (Fail code message, db)).
Proof.
  unfold Auth.admin_route, Auth.authenticate, Auth.adminOnly.
  destruct header as [h|]; simpl; [|right; eauto 6].
  destruct (present (Auth.replace_first "Bearer " "" h)); simpl; [|right; eauto 6].
  destruct (verify (Auth.replace_first "Bearer " "" h)) as [uid|] eqn:Hv;
    [|right; eauto 6].
  destruct (users !! uid) as [[|]|] eqn:Hu; simpl; [|right; eauto 6..].
  left. exists h, uid. repeat split; assumption || reflexivity.
Qed.
